(** * Audi ticket bot: task supervision, polling loop and cart race

    A shallow embedding of the parts of the backend that decide the
    behaviour of the monitoring engine:

    - [app/models.py], [app/config.py]: the task record and the settings;
    - [app/api/tasks.py]: [create_task] and the [start_task] and
      [stop_task] endpoints;
    - [app/bot/core.py]: [extract_event_details], [add_to_cart],
      [_verify_cart_at_checkout], [_extract_session_cookie];
    - [app/bot/monitor.py]: [TaskManager.start_task], [stop_task],
      [_attempt_atc], [_mark_failed] and [_run_monitor] with its handlers
      and its [finally] clause;
    - [app/auth.py], [app/api/auth.py]: session tokens;
    - [app/scheduler.py]: [_check_scheduled_tasks].

    Python integers are [Z], strings are [string] (UTF-8 bytes), [None]-able
    values are [option], dictionaries keyed by task id are [gmap Z _],
    JSON objects are association lists, compared as Python compares them.
    JSON numbers are integers: a float has no counterpart in the model.
    Network answers, the clock and random tokens are inputs of the model.
    Exceptions are explicit: a computation either returns or raises. An
    integer that does not fit SQLite's 64-bit INTEGER makes the commit of a
    quantity raise. *)

From Stdlib Require Import ZArith String Ascii List Bool Lia QArith DecimalString.
From stdpp Require Import base option gmap list strings.
Import ListNotations.

Local Open Scope string_scope.
Local Open Scope Z_scope.

(** ** Python values and exceptions *)

Inductive PyExn : Type :=
  | KeyError (key : string)
  | TypeError
  | ValueError
  | AttributeError
  | ZeroDivisionError
  | ConnectionError (detail : string)
  | CancelledError
  | HTTPException (status_code : Z) (detail : string)
  | CookieConflict (detail : string)
  | OverflowError
  | PendingRollbackError.

Inductive Outcome (A : Type) : Type :=
  | Returned (a : A)
  | Raised (e : PyExn).
Arguments Returned {A} a.
Arguments Raised {A} e.

(** Sequencing: the first exception raised ends the computation. *)
#[global] Instance Outcome_ret : MRet Outcome := fun _ a => Returned a.
#[global] Instance Outcome_bind : MBind Outcome := fun _ _ f c =>
  match c with
  | Returned a => f a
  | Raised e => Raised e
  end.

(** Code with side effects: a function of the state that returns or raises
    and leaves a state behind (what was committed before an exception stays). *)
Definition SE (S A : Type) : Type := S -> Outcome A * S.

#[global] Instance SE_ret {S} : MRet (SE S) := fun _ a s => (Returned a, s).
#[global] Instance SE_bind {S} : MBind (SE S) := fun _ _ f c s =>
  match c s with
  | (Returned a, s') => f a s'
  | (Raised e, s') => (Raised e, s')
  end.

Definition se_get {S} : SE S S := fun s => (Returned s, s).
Definition se_modify {S} (f : S -> S) : SE S unit := fun s => (Returned tt, f s).
Definition se_raise {S A} (e : PyExn) : SE S A := fun s => (Raised e, s).
Definition se_outcome {S A} (o : Outcome A) : SE S A := fun s => (o, s).

(** [needle in hay] on Python strings. *)
Fixpoint str_in (needle hay : string) : bool :=
  String.prefix needle hay ||
  match hay with
  | EmptyString => false
  | String _ rest => str_in needle rest
  end.

(** Truthiness of a Python [str] and of an [Optional[str]]. *)
Definition str_truthy (s : string) : bool :=
  match s with EmptyString => false | _ => true end.

Definition opt_truthy (o : option string) : bool :=
  match o with Some s => str_truthy s | None => false end.

(** ** [app/models.py] *)

Inductive TaskStatus : Type := PENDING | RUNNING | SUCCESS | FAILED | STOPPED.

Definition TaskStatus_value (s : TaskStatus) : string :=
  match s with
  | PENDING => "pending"
  | RUNNING => "running"
  | SUCCESS => "success"
  | FAILED => "failed"
  | STOPPED => "stopped"
  end.

Definition status_eqb (a b : TaskStatus) : bool :=
  match a, b with
  | PENDING, PENDING | RUNNING, RUNNING | SUCCESS, SUCCESS
  | FAILED, FAILED | STOPPED, STOPPED => true
  | _, _ => false
  end.

(** Timestamps are seconds on an integer clock. *)
Definition Time : Type := Z.

(** The columns of [Task] that the modelled code reads or writes
    ([created_at] and [updated_at] are filled in by the database). *)
Record Task : Type := mkTask {
  id : Z;
  product_url : string;
  quantity : Z;
  num_threads : Z;
  status : TaskStatus;
  scan_count : Z;
  tickets_available : Z;
  last_scan_at : option Time;
  event_id : option string;
  ticket_id : option string;
  started_at : option Time;
  completed_at : option Time;
  error_message : option string
}.

Definition set_status (s : TaskStatus) (t : Task) : Task :=
  mkTask (id t) (product_url t) (quantity t) (num_threads t) s (scan_count t)
         (tickets_available t) (last_scan_at t) (event_id t) (ticket_id t)
         (started_at t) (completed_at t) (error_message t).

Definition set_started_at (x : option Time) (t : Task) : Task :=
  mkTask (id t) (product_url t) (quantity t) (num_threads t) (status t) (scan_count t)
         (tickets_available t) (last_scan_at t) (event_id t) (ticket_id t)
         x (completed_at t) (error_message t).

Definition set_completed_at (x : option Time) (t : Task) : Task :=
  mkTask (id t) (product_url t) (quantity t) (num_threads t) (status t) (scan_count t)
         (tickets_available t) (last_scan_at t) (event_id t) (ticket_id t)
         (started_at t) x (error_message t).

Definition set_error_message (x : option string) (t : Task) : Task :=
  mkTask (id t) (product_url t) (quantity t) (num_threads t) (status t) (scan_count t)
         (tickets_available t) (last_scan_at t) (event_id t) (ticket_id t)
         (started_at t) (completed_at t) x.

Definition set_ids (e k : option string) (t : Task) : Task :=
  mkTask (id t) (product_url t) (quantity t) (num_threads t) (status t) (scan_count t)
         (tickets_available t) (last_scan_at t) e k
         (started_at t) (completed_at t) (error_message t).

(** [task.scan_count = ..; task.tickets_available = ..; task.last_scan_at = ..] *)
Definition set_scan_info (n total : Z) (now : Time) (t : Task) : Task :=
  mkTask (id t) (product_url t) (quantity t) (num_threads t) (status t) n
         total (Some now) (event_id t) (ticket_id t)
         (started_at t) (completed_at t) (error_message t).

Record CookieData : Type := mkCookie {
  cookie_name : string;
  cookie_value : string;
  cookie_domain : string
}.

Record CartSession : Type := mkCartSession {
  cs_token : string;
  cs_task_id : Z;
  cs_cookie : CookieData;
  cs_product_url : string;
  cs_checkout_url : string;
  cs_quantity : Z;
  cs_total_time : Time;
  cs_expires_at : Time
}.

(** ** [app/config.py] *)

Record Settings : Type := mkSettings {
  default_scan_interval : Q;
  cart_hold_time : Z
}.

Definition settings : Settings :=
  {| default_scan_interval := 1 # 10; cart_hold_time := 1020 |}.

(** ** The database session: the [tasks] and [cart_sessions] tables *)

Record Db : Type := mkDb {
  tasks : gmap Z Task;
  next_task_id : Z;
  cart_sessions : list CartSession
}.

Definition db_with_tasks (m : gmap Z Task) (db : Db) : Db :=
  mkDb m (next_task_id db) (cart_sessions db).

(** [task = db.query(Task).filter(Task.id == task_id).first(); if task: f(task); db.commit()] *)
Definition db_update_task (task_id : Z) (f : Task -> Task) (db : Db) : Db :=
  db_with_tasks (alter f task_id (tasks db)) db.

(** ** [app/bot/core.py] *)

Module Bot.

Definition BASE_URL : string := "https://audidefuehrungen2.regiondo.de".

(** [str(n)] for an [int]. *)
Definition str_of_int (n : Z) : string := NilZero.string_of_int (Z.to_int n).

(** [s.split(sep)[-1]]: what follows the last separator. *)
Fixpoint split_last (sep : ascii) (s : string) : string :=
  match s with
  | EmptyString => EmptyString
  | String c rest =>
      if str_in (String sep EmptyString) rest then split_last sep rest
      else if Ascii.eqb c sep then rest
      else s
  end.

(** Values produced by [response.json()] and [json.loads]. Numbers are the
    integers; a number written with a fraction or an exponent is read by
    Python as a [float] and has no counterpart here. An object is the list of
    its members, each key once. *)
#[local] Unset Elimination Schemes.
Inductive JsonVal : Type :=
  | JNull
  | JBool (b : bool)
  | JInt (n : Z)
  | JStr (s : string)
  | JList (l : list JsonVal)
  | JDict (d : list (string * JsonVal)).
#[local] Set Elimination Schemes.

Definition truthy (v : JsonVal) : bool :=
  match v with
  | JNull => false
  | JBool b => b
  | JInt n => negb (n =? 0)
  | JStr s => str_truthy s
  | JList l => match l with [] => false | _ => true end
  | JDict d => match d with [] => false | _ => true end
  end.

(** [d.get(k)] on a JSON object. *)
Fixpoint dict_get (k : string) (d : list (string * JsonVal)) : option JsonVal :=
  match d with
  | [] => None
  | (k', v) :: rest => if String.eqb k k' then Some v else dict_get k rest
  end.

(** The code points of a [str], read off its UTF-8 bytes. *)
Fixpoint code_points (s : string) : list Z :=
  match s with
  | EmptyString => []
  | String c rest =>
      let b := Z.of_nat (nat_of_ascii c) in
      let cont (c : ascii) := Z.of_nat (nat_of_ascii c) - 128 in
      if b <? 128 then b :: code_points rest
      else if b <? 224 then
        match rest with
        | String c1 r => ((b - 192) * 64 + cont c1) :: code_points r
        | _ => [-1]
        end
      else if b <? 240 then
        match rest with
        | String c1 (String c2 r) =>
            ((b - 224) * 4096 + cont c1 * 64 + cont c2) :: code_points r
        | _ => [-1]
        end
      else
        match rest with
        | String c1 (String c2 (String c3 r)) =>
            ((b - 240) * 262144 + cont c1 * 4096 + cont c2 * 64 + cont c3)
              :: code_points r
        | _ => [-1]
        end
  end.

(** The characters outside ASCII for which [str.isspace] holds. *)
Definition unicode_spaces : list Z :=
  [ 133; 160; 5760; 8192; 8193; 8194; 8195; 8196; 8197; 8198; 8199; 8200; 8201;
    8202; 8232; 8233; 8239; 8287; 12288 ].

(** The digit zero of every script that has decimal digits (Unicode 14, the
    table of CPython 3.11); the other nine digits follow it. *)
Definition decimal_zeros : list Z :=
  [ 48; 1632; 1776; 1984; 2406; 2534; 2662; 2790; 2918; 3046; 3174; 3302; 3430;
    3558; 3664; 3792; 3872; 4160; 4240; 6112; 6160; 6470; 6608; 6784; 6800; 6992;
    7088; 7232; 7248; 42528; 43216; 43264; 43472; 43504; 43600; 44016; 65296;
    66720; 68912; 69734; 69872; 69942; 70096; 70384; 70736; 70864; 71248; 71360;
    71472; 71904; 72016; 72784; 73040; 73120; 92768; 92864; 93008; 120782;
    120792; 120802; 120812; 120822; 123200; 123632; 125264; 130032 ].

(** What [int] makes of a character: characters below 127 are taken as they
    are, the others are spaces, decimal digits or invalid. *)
Inductive IntChar : Type :=
  | ICSpace | ICDigit (d : Z) | ICSign (negative : bool) | ICUnderscore | ICOther.

Definition int_char (cp : Z) : IntChar :=
  if cp <? 127 then
    if (48 <=? cp) && (cp <=? 57) then ICDigit (cp - 48)
    else if (cp =? 32) || ((9 <=? cp) && (cp <=? 13)) then ICSpace
    else if cp =? 43 then ICSign false
    else if cp =? 45 then ICSign true
    else if cp =? 95 then ICUnderscore
    else ICOther
  else if existsb (Z.eqb cp) unicode_spaces then ICSpace
  else match List.find (fun z => (z <=? cp) && (cp <=? z + 9)) decimal_zeros with
       | Some z => ICDigit (cp - z)
       | None => ICOther
       end.

Fixpoint skip_spaces (l : list IntChar) : list IntChar :=
  match l with
  | ICSpace :: rest => skip_spaces rest
  | _ => l
  end.

(** Digits, with single underscores between them, then trailing blanks. *)
Fixpoint int_digits (acc : Z) (count : nat) (after_digit : bool) (l : list IntChar)
  : option (Z * nat) :=
  match l with
  | ICDigit d :: rest => int_digits (10 * acc + d) (S count) true rest
  | ICUnderscore :: rest =>
      if after_digit then int_digits acc count false rest else None
  | _ =>
      if after_digit then
        match skip_spaces l with
        | [] => Some (acc, count)
        | _ => None
        end
      else None
  end.

(** [int(s)] for a [str]: blanks, one optional sign, the digits; [None] is
    [ValueError]. More than 4300 digits exceed [sys.get_int_max_str_digits()]. *)
Definition int_of_str (s : string) : option Z :=
  let l := skip_spaces (map int_char (code_points s)) in
  let '(negative, l) :=
    match l with
    | ICSign negative :: rest => (negative, rest)
    | _ => (false, l)
    end in
  match int_digits 0 0 false l with
  | Some (n, count) =>
      if (4300 <? count)%nat then None
      else Some (if negative : bool then - n else n)
  | None => None
  end.

(** [int(v)] *)
Definition py_int (v : JsonVal) : Outcome Z :=
  match v with
  | JInt n => Returned n
  | JBool b => Returned (if b then 1 else 0)
  | JStr s => match int_of_str s with
              | Some n => Returned n
              | None => Raised ValueError
              end
  | _ => Raised TypeError
  end.

(** [a == b] on two values that [json.loads] produced: [True] and [False]
    compare as [1] and [0], lists element by element, objects as
    dictionaries (the same keys with equal values, in any order). *)
Fixpoint json_eqb (a b : JsonVal) {struct a} : bool :=
  match a, b with
  | JNull, JNull => true
  | JBool x, JBool y => Bool.eqb x y
  | JBool x, JInt n => n =? (if x then 1 else 0)
  | JInt n, JBool y => n =? (if y then 1 else 0)
  | JInt n, JInt m => n =? m
  | JStr s, JStr t => String.eqb s t
  | JList l, JList m =>
      (fix go (l m : list JsonVal) : bool :=
         match l, m with
         | [], [] => true
         | x :: l', y :: m' => json_eqb x y && go l' m'
         | _, _ => false
         end) l m
  | JDict d, JDict e =>
      Nat.eqb (length d) (length e)
      && (fix go (d : list (string * JsonVal)) : bool :=
            match d with
            | [] => true
            | (k, v) :: d' =>
                match dict_get k e with
                | Some v' => json_eqb v v'
                | None => false
                end && go d'
            end) d
  | _, _ => false
  end.

(** A JSON [null] is Python's [None]. *)
Definition opt_of_json (v : JsonVal) : option JsonVal :=
  match v with JNull => None | _ => Some v end.

(** [str(e)] of a caught exception. *)
Definition exn_str (e : PyExn) : string :=
  match e with
  | KeyError k => k
  | ConnectionError d => d
  | HTTPException _ d => d
  | TypeError => "TypeError"
  | ValueError => "ValueError"
  | AttributeError => "AttributeError"
  | ZeroDivisionError => "integer division or modulo by zero"
  | CancelledError => ""
  | CookieConflict d => d
  | OverflowError => "Python int too large to convert to SQLite INTEGER"
  | PendingRollbackError =>
      "This Session's transaction has been rolled back due to a previous exception during flush."
  end.

(** [except Exception] catches everything but [asyncio.CancelledError],
    which derives from [BaseException]. *)
Definition is_Exception (e : PyExn) : bool :=
  match e with CancelledError => false | _ => true end.

Definition try_except {A : Type} (body : Outcome A) (handler : PyExn -> Outcome A)
  : Outcome A :=
  match body with
  | Returned a => Returned a
  | Raised e => if is_Exception e then handler e else Raised e
  end.

(** What [BeautifulSoup(response.text, 'html.parser')] finds on the product
    page: [soup.find('form')] with its [action] attribute, and
    [soup.find('meta', {'itemprop': 'sku'})] with its [content] attribute
    (outer [None]: no such element; inner [None]: no such attribute). *)
Record Soup : Type := mkSoup {
  find_form : option (option string);
  find_sku_meta : option (option string)
}.

(** An HTTP response: the status, the body, and the body as its parsers
    read it ([resp_json = None] when [response.json()] raises). *)
Record Response : Type := mkResponse {
  status_code : Z;
  text : string;
  resp_json : option JsonVal;
  resp_soup : Soup
}.

(** One [AsyncSession]: its answers to GET and POST, and its cookie jar as
    the code reads it: the names in the order [iter(cookies)] gives them,
    each with what the lookup [cookies[name]] gives, the value or the
    exception of the jar ([CookieConflict] for a name that the jar holds for
    two domains). *)
Record Session : Type := mkSession {
  session_get : string -> Outcome Response;
  session_post : string -> list (string * string) -> list (string * string)
                 -> Outcome Response;
  session_cookies : list (string * Outcome string)
}.

Definition extract_event_details (session : Session) (product_url : string)
  : Outcome (option string * option string) :=
  try_except
    (match session_get session product_url with
     | Raised e => Raised e
     | Returned response =>
         if negb (status_code response =? 200) then Returned (None, None)
         else
           let soup := resp_soup response in
           let event_id :=
             match find_form soup with
             | Some (Some action) =>
                 if str_truthy action then Some (split_last "/" action) else None
             | _ => None
             end in
           let ticket_id :=
             match find_sku_meta soup with
             | Some (Some content) =>
                 if str_truthy content then Some (split_last "-" content) else None
             | _ => None
             end in
           Returned (event_id, ticket_id)
     end)
    (fun _ => Returned (None, None)).

Definition error_indicators : list string :=
  [ "nicht mehr verfügbar"; "Warenkorb ist leer"; "leider nicht mehr";
    "ausverkauft"; "Bedauerlicherweise" ].

Definition success_indicators : list string :=
  [ "Zusammenfassung"; "Zwischensumme"; "Gesamtsumme"; "Weiter zur Kasse" ].

(** [if not checkout_url: checkout_url = f"{self.BASE_URL}/checkout/cart"] *)
Definition checkout_target (checkout_url : JsonVal) : JsonVal :=
  if negb (truthy checkout_url) then JStr (BASE_URL ++ "/checkout/cart")
  else checkout_url.

Definition _verify_cart_at_checkout (session : Session) (checkout_url : JsonVal)
  : Outcome bool :=
  let checkout_url := checkout_target checkout_url in
  try_except
    (match checkout_url with
     | JStr url =>
         match session_get session url with
         | Raised e => Raised e
         | Returned response =>
             if status_code response =? 200 then
               let html := text response in
               if existsb (fun indicator => str_in indicator html) error_indicators
               then Returned false
               else if existsb (fun indicator => str_in indicator html) success_indicators
               then Returned true
               else Returned false
             else Returned false
         end
     | _ => Raised TypeError
     end)
    (fun _ => Returned false).

(** [for name, value in cookies.items(): if 'frontend' in name: return ..]:
    the view looks a name up when the loop reaches it, so the loop ends at
    the first name that contains ["frontend"] or at the first lookup that
    raises, whichever comes first. *)
Fixpoint first_frontend (items : list (string * Outcome string))
  : Outcome (option (string * string)) :=
  match items with
  | [] => Returned None
  | (name, lookup) :: rest =>
      value ← lookup;
      if str_in "frontend" name then Returned (Some (name, value))
      else first_frontend rest
  end.

Definition _extract_session_cookie (session : Session) : Outcome (option CookieData) :=
  let cookies := session_cookies session in
  found ← first_frontend cookies;
  match found with
  | Some (name, value) =>
      mret (Some (mkCookie name value "audidefuehrungen2.regiondo.de"))
  | None =>
      match cookies with
      | (name, lookup) :: _ =>
          value ← lookup;
          mret (Some (mkCookie name value "audidefuehrungen2.regiondo.de"))
      | [] => mret None
      end
  end.

(** [(success, cookie_data, error_message)] *)
Definition AtcResult : Type := (bool * option CookieData * option JsonVal)%type.

(** [v is True] for the result of a [dict.get]. *)
Definition is_True (o : option JsonVal) : bool :=
  match o with Some (JBool true) => true | _ => false end.

(** [messages[0].get('text', 'Unknown')] for a truthy [messages]. *)
Definition first_message_text (messages : JsonVal) : Outcome JsonVal :=
  match messages with
  | JList (JDict m :: _) => Returned (default (JStr "Unknown") (dict_get "text" m))
  | JList _ => Raised AttributeError
  | JStr _ => Raised AttributeError
  | JDict _ => Raised (KeyError "0")
  | _ => Raised TypeError
  end.

Definition atc_headers (product_url : string) : list (string * string) :=
  [ ("accept", "application/json, text/javascript, */*; q=0.01");
    ("accept-language", "de-DE,de;q=0.9,en-US;q=0.8,en;q=0.7");
    ("content-type", "application/x-www-form-urlencoded; charset=UTF-8");
    ("origin", BASE_URL);
    ("referer", product_url);
    ("x-requested-with", "XMLHttpRequest") ].

Definition atc_payload (event_id date time_short ticket_variation option_number : string)
    (quantity : Z) : list (string * string) :=
  [ ("product", event_id);
    ("related_product", "");
    ("ticket_date", date);
    ("ticket_time", time_short);
    ("ticket_variation", ticket_variation);
    ("ticket_option_qty[" ++ option_number ++ "]", str_of_int quantity) ].

(** The branch taken when [response_data.get('success') is True]. *)
Definition atc_on_vendor_success (session : Session) (response_data : list (string * JsonVal))
  : Outcome AtcResult :=
  let quote_item_ids := default (JStr "") (dict_get "qtm_quote_item_ids" response_data) in
  let quote_item_qtys := default (JInt 0) (dict_get "qtm_quote_item_qtys" response_data) in
  let checkout_url := default (JStr "") (dict_get "checkout_url" response_data) in
  has_items ←
    (if truthy quote_item_ids && truthy quote_item_qtys
     then n ← py_int quote_item_qtys; mret (0 <? n)
     else mret false);
  if has_items : bool then
    cart_valid ← _verify_cart_at_checkout session checkout_url;
    if cart_valid : bool then
      cookie ← _extract_session_cookie session;
      mret (true, cookie, None)
    else
      mret (false, None, Some (JStr "Cart not valid at checkout (phantom cart)"))
  else
    mret (false, None, Some (JStr "No items added to cart (out of stock?)")).

(** The branch taken otherwise: the vendor's error message, which is [None]
    when the vendor sent [null] for it. *)
Definition atc_on_vendor_failure (response_data : list (string * JsonVal))
  : Outcome AtcResult :=
  error_msg ←
    match dict_get "messages" response_data with
    | Some messages =>
        if truthy messages then first_message_text messages
        else match dict_get "error" response_data with
             | Some err => mret err
             | None => mret (JStr "Unknown error")
             end
    | None =>
        match dict_get "error" response_data with
        | Some err => mret err
        | None => mret (JStr "Unknown error")
        end
    end;
  mret (false, None, opt_of_json error_msg).

Definition add_to_cart (session : Session)
    (event_id date time_short ticket_variation option_number : string)
    (quantity : Z) (product_url : string) : Outcome AtcResult :=
  let checkout_url := BASE_URL ++ "/checkout/ajaxcart/ajaxadd/product/" ++ event_id in
  let payload :=
    atc_payload event_id date time_short ticket_variation option_number quantity in
  try_except
    (response ← session_post session checkout_url (atc_headers product_url) payload;
     if status_code response =? 200 then
       let response_data :=
         match resp_json response with
         | Some v => v
         | None => JDict []
         end in
       match response_data with
       | JDict d =>
           if is_True (dict_get "success" d)
           then atc_on_vendor_success session d
           else atc_on_vendor_failure d
       | _ => Raised AttributeError
       end
     else
       mret (false, None, Some (JStr ("HTTP " ++ str_of_int (status_code response)))))
    (fun e => Returned (false, None, Some (JStr (exn_str e)))).

End Bot.

(** ** [app/bot/monitor.py]: the events of a run and the supervisor's state *)

(** One time-slot of the availability JSON: the three members that the
    monitor reads ([None] is an absent key) and the other members of the
    object, [traffic_light] among them, under keys other than those three. *)
Record Ticket : Type := mkTicket {
  t_time : option string;
  t_qty_available : option Bot.JsonVal;
  t_variations : option (list string);
  t_other : list (string * Bot.JsonVal)
}.

(** The availability JSON: dates in document order, each with its slots. *)
Definition Snapshot : Type := list (string * list Ticket).

#[global] Instance string_eq_dec : EqDecision string := String.string_dec.

(** A quantity as a number: an [int], or a [bool], which Python counts as
    [1] or [0] in sums, comparisons and divisions. *)
Definition json_number (v : Bot.JsonVal) : option Z :=
  match v with
  | Bot.JInt n => Some n
  | Bot.JBool b => Some (if b then 1 else 0)
  | _ => None
  end.

(** The object that [json.loads] produced for a slot and for a snapshot. *)
Definition ticket_json (t : Ticket) : Bot.JsonVal :=
  Bot.JDict
    (match t_time t with Some x => [("time", Bot.JStr x)] | None => [] end
     ++ match t_qty_available t with Some v => [("qty_available", v)] | None => [] end
     ++ match t_variations t with
        | Some vs => [("variations", Bot.JList (map Bot.JStr vs))]
        | None => []
        end
     ++ t_other t)%list.

Definition snapshot_json (d : Snapshot) : Bot.JsonVal :=
  Bot.JDict (map (fun kv => (fst kv, Bot.JList (map ticket_json (snd kv)))) d).

(** [a == b] on two snapshots. *)
Definition snapshot_eqb (a b : Snapshot) : bool :=
  Bot.json_eqb (snapshot_json a) (snapshot_json b).

Inductive LogMsg : Type :=
  | MsgStarted (product_url : string)
  | MsgNoIds
  | MsgIds (event_id ticket_id : string)
  | MsgScanAvailable (scan_count total_available : Z)
  | MsgScanNone (scan_count : Z)
  | MsgChangeDetected (total_available : Z)
  | MsgAttempting (quantity : Z) (date time : string) (qty_available : Bot.JsonVal)
  | MsgRunningThreads (actual_threads max_possible_carts : Z)
  | MsgCarted
  | MsgHoldExpired
  | MsgCookieSecured (name : string) (total_time : Time)
  | MsgAtcFailed (error : Bot.JsonVal).

Inductive Broadcast : Type :=
  | TaskUpdate (task_id : Z) (status : TaskStatus) (error : option string)
  | ScanUpdate (task_id scan_count tickets_available : Z) (last_scan_at : Time)
  | CartSuccess (task_id : Z) (token : string) (quantity : Z) (total_time : Time).

(** What a run does to the outside: log rows (each also broadcast),
    broadcasts, commits of a new task status, sleeps, webhook calls, and the
    start of each add-to-cart attempt of a race. *)
Inductive Event : Type :=
  | EvCommitStatus (task_id : Z) (status : TaskStatus)
  | EvLog (task_id : Z) (level : string) (msg : LogMsg)
  | EvBroadcast (b : Broadcast)
  | EvSleep (seconds : Q)
  | EvDiscordNotification (data : Snapshot) (product_url : string)
  | EvDiscordCartSuccess (product_url : string) (cookie : CookieData)
                         (quantity : Z) (total_time : Time) (token : string)
  | EvAttemptAtc (date time_short : string) (attempt : nat).

(** Where a monitor coroutine is suspended. *)
Inductive AwaitPoint : Type :=
  | AwaitNetwork
  | AwaitScanInterval
  | AwaitBackoff
  | AwaitGather
  | AwaitCartHold
  | AwaitBroadcast.

(** The life of the [asyncio.Task] that runs [_run_monitor]: created and not
    yet stepped; suspended at an [await] inside the [try] block that opens
    the coroutine; or done. *)
Inductive CoroState : Type :=
  | NotStarted
  | Suspended (at_ : AwaitPoint)
  | Finished (cancelled : bool).

Record Coro : Type := mkCoro {
  coro_task_id : Z;
  coro_product_url : string;
  coro_quantity : Z;
  coro_num_threads : Z;
  coro_state : CoroState
}.

(** [async_task.done()] *)
Definition done (c : Coro) : bool :=
  match coro_state c with Finished _ => true | _ => false end.

(** The process: the database, the [TaskManager] instance with its two
    dictionaries, the [asyncio.Task] objects created so far (a handle is an
    index into [coros], so that the table and the event loop share the
    object), and the events emitted so far, oldest first. *)
Record World : Type := mkWorld {
  db : Db;
  active_tasks : gmap Z nat;
  task_data : gmap Z (option Snapshot);
  coros : list Coro;
  trace : list Event
}.

Definition with_db (f : Db -> Db) (w : World) : World :=
  mkWorld (f (db w)) (active_tasks w) (task_data w) (coros w) (trace w).
Definition with_active_tasks (f : gmap Z nat -> gmap Z nat) (w : World) : World :=
  mkWorld (db w) (f (active_tasks w)) (task_data w) (coros w) (trace w).
Definition with_task_data (f : gmap Z (option Snapshot) -> gmap Z (option Snapshot))
    (w : World) : World :=
  mkWorld (db w) (active_tasks w) (f (task_data w)) (coros w) (trace w).
Definition with_coros (f : list Coro -> list Coro) (w : World) : World :=
  mkWorld (db w) (active_tasks w) (task_data w) (f (coros w)) (trace w).
Definition with_trace (f : list Event -> list Event) (w : World) : World :=
  mkWorld (db w) (active_tasks w) (task_data w) (coros w) (f (trace w)).

Definition set_coro_state (st : CoroState) (c : Coro) : Coro :=
  mkCoro (coro_task_id c) (coro_product_url c) (coro_quantity c) (coro_num_threads c) st.

(** ** [app/bot/monitor.py]: [TaskManager] *)

Module TaskManager.

Definition emit (ev : Event) : SE World unit :=
  se_modify (with_trace (fun t => (t ++ [ev])%list)).

Definition broadcast (message : Broadcast) : SE World unit :=
  emit (EvBroadcast message).

(** [_log]: a [TaskLog] row and a ["log"] broadcast; failures of either
    are swallowed by [_log] itself. *)
Definition _log (task_id : Z) (level : string) (message : LogMsg) : SE World unit :=
  emit (EvLog task_id level message).

(** [task.status = s; <other assignments f>; db.commit()] on the row of
    [task_id], when there is one (the monitor guards it with [if task:];
    elsewhere the caller holds the row). *)
Definition commit_status (task_id : Z) (s : TaskStatus) (f : Task -> Task)
  : SE World unit :=
  w ← se_get;
  match tasks (db w) !! task_id with
  | Some _ =>
      se_modify (with_db (db_update_task task_id (fun t => f (set_status s t))));;
      emit (EvCommitStatus task_id s)
  | None => mret tt
  end.

(** [del self.active_tasks[task_id]] *)
Definition del_active_task (task_id : Z) : SE World unit := fun w =>
  match active_tasks w !! task_id with
  | Some _ => (Returned tt, with_active_tasks (delete task_id) w)
  | None => (Raised (KeyError (Bot.str_of_int task_id)), w)
  end.

Definition start_task (task : Task) (now : Time) : SE World bool :=
  w ← se_get;
  match active_tasks w !! id task with
  | Some _ => mret false
  | None =>
      commit_status (id task) RUNNING (set_started_at (Some now));;
      se_modify (fun w =>
        with_active_tasks <[id task := length (coros w)]>
          (with_coros (fun cs => (cs ++ [mkCoro (id task) (product_url task) (quantity task)
                                               (num_threads task) NotStarted])%list) w));;
      se_modify (with_task_data <[id task := None]>);;
      broadcast (TaskUpdate (id task) RUNNING None);;
      mret true
  end.

(** The [finally] clause of [_run_monitor]:
    [if task_id in self.active_tasks: del ..; if task_id in self.task_data: del ..]. *)
Definition monitor_finally (task_id : Z) (w : World) : World :=
  with_task_data (delete task_id) (with_active_tasks (delete task_id) w).

(** [handle.cancel()] followed by [try: await handle / except CancelledError: pass].
    A coroutine that was never stepped ends without running any of its code.
    A coroutine suspended at an [await] gets [CancelledError] thrown there;
    [_run_monitor] re-raises it and runs its [finally] clause before the
    awaiting caller resumes. A coroutine that is done is left as it is. *)
Definition cancelled (handle : nat) (w : World) : World :=
  match coros w !! handle with
  | Some c =>
      match coro_state c with
      | NotStarted =>
          with_coros <[handle := set_coro_state (Finished true) c]> w
      | Suspended _ =>
          monitor_finally (coro_task_id c)
            (with_coros <[handle := set_coro_state (Finished true) c]> w)
      | Finished _ => w
      end
  | None => w
  end.

(** The end of a coroutine that stood suspended in the broadcast that ends
    [_mark_failed] (line 431): the broadcast returns, [_mark_failed] returns,
    [_run_monitor] leaves its [try] statement and the [finally] clause runs. *)
Definition monitor_returns (handle : nat) (w : World) : World :=
  match coros w !! handle with
  | Some c =>
      monitor_finally (coro_task_id c)
        (with_coros <[handle := set_coro_state (Finished false) c]> w)
  | None => w
  end.

Definition cancel_and_await (handle : nat) : SE World unit :=
  se_modify (cancelled handle).

Definition stop_task (task_id : Z) (now : Time) : SE World bool :=
  w ← se_get;
  let was_active := bool_decide (is_Some (active_tasks w !! task_id)) in
  match active_tasks w !! task_id with
  | Some handle =>
      cancel_and_await handle;;
      del_active_task task_id;;
      se_modify (with_task_data (delete task_id))
  | None => mret tt
  end;;
  w ← se_get;
  match tasks (db w) !! task_id with
  | Some task =>
      if status_eqb (status task) RUNNING then
        commit_status task_id STOPPED (set_completed_at (Some now));;
        broadcast (TaskUpdate task_id STOPPED None);;
        mret true
      else mret was_active
  | None => mret was_active
  end.

Definition _mark_failed (task_id : Z) (error : string) (now : Time) : SE World unit :=
  commit_status task_id FAILED
    (fun t => set_completed_at (Some now) (set_error_message (Some error) t));;
  se_modify (with_active_tasks (delete task_id));;
  broadcast (TaskUpdate task_id FAILED (Some error)).

(** *** [_run_monitor] *)

(** The local variables of the polling loop. *)
Record Locals : Type := mkLocals {
  l_scan_count : Z;
  l_previous_data : option Snapshot;
  l_no_tickets_logged : bool
}.

Record MState : Type := mkMState {
  st_world : World;
  st_locals : Locals
}.

Definition M : Type -> Type := SE MState.

Definition lift {A} (c : SE World A) : M A := fun st =>
  let '(r, w) := c (st_world st) in (r, mkMState w (st_locals st)).

Definition get_locals : M Locals := fun st => (Returned (st_locals st), st).
Definition set_locals (f : Locals -> Locals) : M unit := fun st =>
  (Returned tt, mkMState (st_world st) (f (st_locals st))).

Definition set_scan_count (n : Z) (l : Locals) : Locals :=
  mkLocals n (l_previous_data l) (l_no_tickets_logged l).
Definition set_previous_data (d : option Snapshot) (l : Locals) : Locals :=
  mkLocals (l_scan_count l) d (l_no_tickets_logged l).
Definition set_no_tickets_logged (b : bool) (l : Locals) : Locals :=
  mkLocals (l_scan_count l) (l_previous_data l) b.

(** The parameters of [_run_monitor] and the two identifiers it extracts. *)
Record MonitorArgs : Type := mkArgs {
  a_task_id : Z;
  a_product_url : string;
  a_quantity : Z;
  a_num_threads : Z;
  a_event_id : string;
  a_ticket_id : string
}.

(** What one pass of the loop reads from outside: the availability answer,
    the clock (every [datetime.utcnow()] of the pass reads [env_utcnow]),
    [urllib.parse.quote], the option-number lookups, and for each attempt of
    a race on a slot the fresh session of that attempt, its elapsed time
    ([time.time() - start_time]) and its [secrets.token_urlsafe(32)]. *)
Record PollEnv : Type := mkPollEnv {
  env_data : option Snapshot;
  env_utcnow : Time;
  env_quote : string -> string;
  env_option_number : string -> string -> string -> option string;
  env_atc_session : string -> string -> nat -> Bot.Session;
  env_total_time : string -> string -> nat -> Time;
  env_token : string -> string -> nat -> string
}.

(** [bool(data)] for [data : Optional[dict]] *)
Definition data_truthy (data : option Snapshot) : bool :=
  match data with
  | Some (_ :: _) => true
  | _ => false
  end.

(** [data is None] *)
Definition is_none (data : option Snapshot) : bool :=
  match data with None => true | Some _ => false end.

(** [data == previous_data] *)
Definition data_eqb (data previous_data : option Snapshot) : bool :=
  match data, previous_data with
  | None, None => true
  | Some a, Some b => snapshot_eqb a b
  | _, _ => false
  end.

(** [max(0, t.get('qty_available', 0))] *)
Definition qty_clamped (t : Ticket) : Outcome Z :=
  match t_qty_available t with
  | None => Returned (Z.max 0 0)
  | Some v =>
      match json_number v with
      | Some n => Returned (Z.max 0 n)
      | None => Raised TypeError
      end
  end.

Fixpoint sum_tickets (tickets : list Ticket) : Outcome Z :=
  match tickets with
  | [] => Returned 0
  | t :: rest => q ← qty_clamped t; r ← sum_tickets rest; mret (q + r)
  end.

Fixpoint sum_dates (data : Snapshot) : Outcome Z :=
  match data with
  | [] => Returned 0
  | (_, tickets) :: rest => q ← sum_tickets tickets; r ← sum_dates rest; mret (q + r)
  end.

Definition total_available (data : option Snapshot) : Z :=
  if data_truthy data then
    match sum_dates (default [] data) with
    | Returned n => n
    | Raised _ => 0
    end
  else 0.

(** [a // b] *)
Definition floordiv (a b : Z) : Outcome Z :=
  if b =? 0 then Raised ZeroDivisionError else Returned (a / b).

Definition actual_threads (num_threads max_possible_carts : Z) : Z :=
  Z.min num_threads (Z.max 1 max_possible_carts).

(** [ticket['time']], [ticket['qty_available']], [ticket['variations']] *)
Definition ticket_time (t : Ticket) : Outcome string :=
  match t_time t with Some x => Returned x | None => Raised (KeyError "time") end.
Definition ticket_qty (t : Ticket) : Outcome Bot.JsonVal :=
  match t_qty_available t with
  | Some x => Returned x
  | None => Raised (KeyError "qty_available")
  end.
Definition ticket_variations (t : Ticket) : Outcome (list string) :=
  match t_variations t with
  | Some x => Returned x
  | None => Raised (KeyError "variations")
  end.

Definition _attempt_atc (task_id : Z) (atc_bot : Bot.Session)
    (event_id date time_short variation option_number : string) (quantity : Z)
    (product_url : string) (total_time : Time) (token : string) (now : Time) : M bool :=
  r ← se_outcome (Bot.add_to_cart atc_bot event_id date time_short variation
                    option_number quantity product_url);
  let '(success, cookie, error) := r : Bot.AtcResult in
  match success, cookie with
  | true, Some cookie =>
      lift (_log task_id "success" (MsgCookieSecured (cookie_name cookie) total_time));;
      lift (se_modify (with_db (fun d =>
        mkDb (tasks d) (next_task_id d)
             (cart_sessions d ++
              [mkCartSession token task_id cookie product_url
                 "https://audidefuehrungen2.regiondo.de/checkout/cart"
                 quantity total_time (now + cart_hold_time settings)])%list)));;
      lift (broadcast (CartSuccess task_id token quantity total_time));;
      lift (emit (EvDiscordCartSuccess product_url cookie quantity total_time token));;
      mret true
  | _, _ =>
      match error with
      | Some e => if Bot.truthy e
                  then lift (_log task_id "warning" (MsgAtcFailed e))
                  else mret tt
      | None => mret tt
      end;;
      mret false
  end.

(** [asyncio.gather] with [return_exceptions=True]: every attempt runs to
    its end and an exception of one becomes its result. The attempts are
    run here in the order they were created. *)
Fixpoint gather_run (attempts : list (M bool)) (st : MState)
  : list (Outcome bool) * MState :=
  match attempts with
  | [] => ([], st)
  | c :: rest =>
      let '(r, st1) := c st in
      let '(rs, st2) := gather_run rest st1 in
      (r :: rs, st2)
  end.

Definition gather (attempts : list (M bool)) : M (list (Outcome bool)) := fun st =>
  let '(rs, st') := gather_run attempts st in (Returned rs, st').

(** [any(r is True for r in results if not isinstance(r, Exception))] *)
Definition any_true (results : list (Outcome bool)) : bool :=
  existsb (fun r => match r with Returned true => true | _ => false end) results.

(** The list [tasks] built by [for _ in range(actual_threads)]. *)
Definition race_attempts (args : MonitorArgs) (env : PollEnv)
    (date time_short variation option_number : string) (n : Z) : list (M bool) :=
  map (fun i =>
         lift (emit (EvAttemptAtc date time_short i));;
         _attempt_atc (a_task_id args) (env_atc_session env date time_short i)
           (a_event_id args) date time_short variation option_number
           (a_quantity args) (a_product_url args)
           (env_total_time env date time_short i) (env_token env date time_short i)
           (env_utcnow env))
      (seq 0 (Z.to_nat n)).

(** The block under [if any(...)] up to its
    [await asyncio.sleep(settings.cart_hold_time)]: success is logged,
    committed and broadcast. The coroutine then stands suspended at
    [AwaitCartHold], with the row saying [success]; a cancellation that is
    delivered there ([cancelled]) ends it in that state. *)
Definition recart_hold (task_id : Z) (now : Time) : M unit :=
  lift (_log task_id "success" MsgCarted);;
  lift (commit_status task_id SUCCESS (set_completed_at (Some now)));;
  lift (broadcast (TaskUpdate task_id SUCCESS None)).

(** The rest of the block, once the sleep has run its time. *)
Definition recart_resume (task_id : Z) : M unit :=
  lift (_log task_id "info" MsgHoldExpired);;
  lift (commit_status task_id RUNNING (set_completed_at None));;
  lift (broadcast (TaskUpdate task_id RUNNING None));;
  set_locals (fun _ => mkLocals 0 None false).

(** The whole block, for a coroutine that is not cancelled during the hold:
    success, cart hold, back to running ([recart_hold], the sleep, then
    [recart_resume]). *)
Definition recart_cycle (task_id : Z) (now : Time) : M unit :=
  lift (_log task_id "success" MsgCarted);;
  lift (commit_status task_id SUCCESS (set_completed_at (Some now)));;
  lift (broadcast (TaskUpdate task_id SUCCESS None));;
  lift (emit (EvSleep (inject_Z (cart_hold_time settings))));;
  lift (_log task_id "info" MsgHoldExpired);;
  lift (commit_status task_id RUNNING (set_completed_at None));;
  lift (broadcast (TaskUpdate task_id RUNNING None));;
  set_locals (fun _ => mkLocals 0 None false).

(** The statements that follow [asyncio.gather]: on a success the re-cart
    cycle and [continue] (result [true]), otherwise [break] (result [false]). *)
Definition after_race (task_id : Z) (now : Time) (results : list (Outcome bool))
  : M bool :=
  if any_true results then recart_cycle task_id now;; mret true
  else mret false.

(** The block under [if option_number:]: size the race, run it, react. *)
Definition run_race (args : MonitorArgs) (env : PollEnv)
    (date time_short variation option_number : string) (qty_available : Z) : M bool :=
  max_possible_carts ← se_outcome (floordiv qty_available (a_quantity args));
  let actual_threads := actual_threads (a_num_threads args) max_possible_carts in
  lift (_log (a_task_id args) "info"
          (MsgRunningThreads actual_threads max_possible_carts));;
  results ← gather (race_attempts args env date time_short variation option_number
                      actual_threads);
  after_race (a_task_id args) (env_utcnow env) results.

(** [for ticket in tickets: ...]; the result tells whether the loop was
    left by [break]. *)
Fixpoint process_tickets (args : MonitorArgs) (env : PollEnv) (date : string)
    (tickets : list Ticket) : M bool :=
  match tickets with
  | [] => mret false
  | ticket :: rest =>
      q ← se_outcome (ticket_qty ticket);
      match json_number q with
      | None => se_raise TypeError
      | Some qty_available =>
          if a_quantity args <=? qty_available then
            time ← se_outcome (ticket_time ticket);
            lift (_log (a_task_id args) "info"
                    (MsgAttempting (a_quantity args) date time q));;
            let time_encoded := env_quote env time in
            let time_short := substring 0 5 time in
            variations ← se_outcome (ticket_variations ticket);
            match variations with
            | [] => process_tickets args env date rest
            | variation :: _ =>
                if negb (str_truthy variation) then process_tickets args env date rest
                else
                  let option_number :=
                    env_option_number env variation date time_encoded in
                  match option_number with
                  | Some option_number =>
                      if str_truthy option_number then
                        carted ← run_race args env date time_short variation
                                   option_number qty_available;
                        if carted : bool then process_tickets args env date rest
                        else mret true
                      else process_tickets args env date rest
                  | None => process_tickets args env date rest
                  end
            end
          else process_tickets args env date rest
      end
  end.

(** [for date, tickets in data.items(): <inner loop> else: continue; break] *)
Fixpoint process_dates (args : MonitorArgs) (env : PollEnv) (items : Snapshot) : M unit :=
  match items with
  | [] => mret tt
  | (date, tickets) :: rest =>
      broke ← process_tickets args env date tickets;
      if broke : bool then mret tt else process_dates args env rest
  end.

(** [if not event_id or not ticket_id] *)
Definition ids_missing (ids : option string * option string) : bool :=
  negb (opt_truthy (fst ids)) || negb (opt_truthy (snd ids)).

(** [_run_monitor] up to the loop: resolve the identifiers or fail the task. *)
Definition monitor_start (task_id : Z) (product_url : string) (quantity num_threads : Z)
    (bot : Bot.Session) (now : Time) : M (option MonitorArgs) :=
  lift (_log task_id "info" (MsgStarted product_url));;
  ids ← se_outcome (Bot.extract_event_details bot product_url);
  if ids_missing ids then
    lift (_log task_id "error" MsgNoIds);;
    lift (_mark_failed task_id "Could not extract Event/Ticket ID" now);;
    mret None
  else
    let event_id := default "" (fst ids) in
    let ticket_id := default "" (snd ids) in
    lift (se_modify (with_db (db_update_task task_id
            (set_ids (Some event_id) (Some ticket_id)))));;
    lift (_log task_id "info" (MsgIds event_id ticket_id));;
    set_locals (fun _ => mkLocals 0 None false);;
    mret (Some (mkArgs task_id product_url quantity num_threads event_id ticket_id)).

(** What an [INTEGER] column of SQLite holds: 64 bits, sign included. *)
Definition fits_integer (n : Z) : bool :=
  (-9223372036854775808 <=? n) && (n <=? 9223372036854775807).

(** [task.scan_count = ..; task.tickets_available = ..; task.last_scan_at = ..;
    db.commit()] under [if task:]. The total is summed from the vendor's
    answer and need not fit the column: the driver then raises
    [OverflowError] during the flush, nothing is written and the session's
    transaction is rolled back. (The counter counts the passes of one run
    and stays within the column.) *)
Definition commit_scan_info (task_id n total : Z) (now : Time) : SE World unit :=
  w ← se_get;
  match tasks (db w) !! task_id with
  | Some _ =>
      if fits_integer total
      then se_modify (with_db (db_update_task task_id (set_scan_info n total now)))
      else se_raise OverflowError
  | None => mret tt
  end.

(** The first statements of the loop body: the poll has returned [data];
    count it, total the availability, store both with the time. *)
Definition scan_phase (args : MonitorArgs) (env : PollEnv) : M Z :=
  set_locals (fun l => set_scan_count (l_scan_count l + 1) l);;
  l ← get_locals;
  let total_available := total_available (env_data env) in
  lift (commit_scan_info (a_task_id args) (l_scan_count l) total_available
          (env_utcnow env));;
  lift (broadcast (ScanUpdate (a_task_id args) (l_scan_count l) total_available
                     (env_utcnow env)));;
  mret total_available.

(** [if scan_count == 1 or scan_count % 50 == 0: ...] *)
Definition periodic_log (args : MonitorArgs) (total_available : Z) : M unit :=
  l ← get_locals;
  let scan_count := l_scan_count l in
  if (scan_count =? 1) || (scan_count mod 50 =? 0) then
    if 0 <? total_available then
      lift (_log (a_task_id args) "info" (MsgScanAvailable scan_count total_available));;
      set_locals (set_no_tickets_logged false)
    else if negb (l_no_tickets_logged l) || (scan_count =? 1) then
      lift (_log (a_task_id args) "info" (MsgScanNone scan_count));;
      set_locals (set_no_tickets_logged true)
    else mret tt
  else mret tt.

(** The [if data and total_available > 0 and data != previous_data: ...
    elif data is None or (data and len(data) == 0): ...] statement. *)
Definition branch_phase (args : MonitorArgs) (env : PollEnv) (total_available : Z)
  : M unit :=
  l ← get_locals;
  let data := env_data env in
  if data_truthy data && (0 <? total_available)
     && negb (data_eqb data (l_previous_data l)) then
    set_locals (fun l => set_no_tickets_logged false (set_previous_data data l));;
    lift (_log (a_task_id args) "info" (MsgChangeDetected total_available));;
    lift (emit (EvDiscordNotification (default [] data) (a_product_url args)));;
    process_dates args env (default [] data)
  else if is_none data
          || (data_truthy data && Nat.eqb (length (default [] data)) 0) then
    lift (emit (EvSleep 5))
  else mret tt.

(** One pass of [while True], after [bot.get_available_tickets] returned,
    for a coroutine to which no cancellation is delivered during the pass
    (what a cancellation does to a suspended coroutine is [cancelled]). *)
Definition poll_iteration (args : MonitorArgs) (env : PollEnv) : M unit :=
  total_available ← scan_phase args env;
  periodic_log args total_available;;
  branch_phase args env total_available;;
  lift (emit (EvSleep (default_scan_interval settings))).

(** The loop over the answers of successive polls; an exception ends it. *)
Fixpoint monitor_polls (args : MonitorArgs) (envs : list PollEnv) : M unit :=
  match envs with
  | [] => mret tt
  | env :: rest => poll_iteration args env;; monitor_polls args rest
  end.

(** [_run_monitor] from its first statement, over the answers to finitely
    many polls: [true] when the coroutine reached its [return], [false] when
    it stands suspended in the loop. *)
Definition monitor_body (task_id : Z) (product_url : string) (quantity num_threads : Z)
    (bot : Bot.Session) (now : Time) (envs : list PollEnv) : M bool :=
  started ← monitor_start task_id product_url quantity num_threads bot now;
  match started with
  | None => mret true
  | Some args => monitor_polls args envs;; mret false
  end.

(** How a monitor coroutine stands after those polls. *)
Inductive MonitorRun : Type :=
  | Polling
  | Ended (r : Outcome unit).

(** The state of the monitor's session when the handler of [_run_monitor]
    runs. A flush that failed has rolled the transaction back, and until
    [rollback()] is called the session refuses every operation with
    [PendingRollbackError]; nothing between the failed [commit] of the loop
    and the handler calls it. In the loop only a failed flush raises
    [OverflowError]. *)
Definition session_unusable (e : PyExn) : bool :=
  match e with OverflowError => true | _ => false end.

(** The clause [except Exception as e]:
    [await self._mark_failed(task_id, str(e), db)], which is not protected
    and begins with a query through the session. *)
Definition monitor_handler (str_e : PyExn -> string) (task_id : Z) (now' : Time)
    (e : PyExn) : SE World unit :=
  if session_unusable e then se_raise PendingRollbackError
  else _mark_failed task_id (str_e e) now'.

(** [_run_monitor] with its handlers: a cancellation is re-raised, any other
    exception is handed to the handler, which marks the task failed with
    [str(e)] or raises itself, and when the coroutine ends, in whichever way,
    the [finally] clause runs. [str_e] is [str] on exceptions and [now'] the
    time at which the handler runs. *)
Definition _run_monitor (str_e : PyExn -> string) (task_id : Z) (product_url : string)
    (quantity num_threads : Z) (bot : Bot.Session) (now now' : Time)
    (envs : list PollEnv) (w : World) : MonitorRun * World :=
  let '(r, st) := monitor_body task_id product_url quantity num_threads bot now envs
                    (mkMState w (mkLocals 0 None false)) in
  match r with
  | Returned false => (Polling, st_world st)
  | Returned true => (Ended (Returned tt), monitor_finally task_id (st_world st))
  | Raised e =>
      if Bot.is_Exception e then
        let '(r', w') := monitor_handler str_e task_id now' e (st_world st) in
        (Ended r', monitor_finally task_id w')
      else (Ended (Raised e), monitor_finally task_id (st_world st))
  end.

End TaskManager.

(** ** [app/api/tasks.py]: [create_task] and the start endpoint *)

Module Api.

Record TaskCreate : Type := mkTaskCreate {
  tc_product_url : string;
  tc_quantity : Z;
  tc_num_threads : Z
}.

Definition vendor_domain : string := "audidefuehrungen2.regiondo.de".

(** [Task(product_url=.., quantity=.., num_threads=..)] with the column defaults. *)
Definition new_task (i : Z) (req : TaskCreate) : Task :=
  mkTask i (tc_product_url req) (tc_quantity req) (tc_num_threads req)
         PENDING 0 0 None None None None None None.

Definition create_task (task_data : TaskCreate) (db : Db) : Outcome Task * Db :=
  if negb (str_in vendor_domain (tc_product_url task_data)) then
    (Raised (HTTPException 400 "Invalid product URL"), db)
  else if negb ((1 <=? tc_quantity task_data) && (tc_quantity task_data <=? 4)) then
    (Raised (HTTPException 400 "Quantity must be between 1 and 4"), db)
  else
    let task := new_task (next_task_id db) task_data in
    (Returned task,
     mkDb (<[next_task_id db := task]> (tasks db)) (next_task_id db + 1) (cart_sessions db)).

(** The two success bodies of the start endpoint:
    ["Task already running"] and ["Task started"]. *)
Inductive StartResponse : Type :=
  | TaskAlreadyRunning
  | TaskStarted.

(** [task_manager.active_tasks[task_id].done()] *)
Definition handle_done (w : World) (handle : nat) : bool :=
  match coros w !! handle with
  | Some c => done c
  | None => false
  end.

Definition start_task (task_id : Z) (now : Time) : SE World StartResponse :=
  w ← se_get;
  match tasks (db w) !! task_id with
  | None => se_raise (HTTPException 404 "Task not found")
  | Some task =>
      running ←
        match active_tasks w !! task_id with
        | Some async_task =>
            if handle_done w async_task then
              TaskManager.del_active_task task_id;;
              se_modify (with_task_data (delete task_id));;
              mret false
            else mret true
        | None => mret false
        end;
      if running : bool then mret TaskAlreadyRunning
      else
        w ← se_get;
        running ←
          (if status_eqb (status task) RUNNING then
             match active_tasks w !! task_id with
             | Some _ => mret true
             | None =>
                 TaskManager.commit_status task_id PENDING (fun t => t);;
                 mret false
             end
           else mret false);
        if running : bool then mret TaskAlreadyRunning
        else
          success ← TaskManager.start_task task now;
          if negb success then
            w ← se_get;
            match active_tasks w !! task_id with
            | Some _ => mret TaskAlreadyRunning
            | None => se_raise (HTTPException 500 "Failed to start task")
            end
          else mret TaskStarted
  end.

(** The stop endpoint; its success body is ["Task stopped"]. *)
Inductive StopResponse : Type := TaskStopped.

Definition stop_task (task_id : Z) (now : Time) : SE World StopResponse :=
  success ← TaskManager.stop_task task_id now;
  if negb success then se_raise (HTTPException 400 "Task is not running")
  else mret TaskStopped.

End Api.

(** ** [app/auth.py] and [app/api/auth.py] *)

Module Auth.

(** [timedelta(days=30)] in seconds. *)
Definition token_lifetime : Z := 30 * 86400.

(** [create_session_token]; [token] is what [generate_token()] drew. The
    module-level dictionary [active_tokens] is the [gmap] that is threaded. *)
Definition create_session_token (token : string) (now : Time)
    (active_tokens : gmap string Time) : string * gmap string Time :=
  (token, <[token := now + token_lifetime]> active_tokens).

Definition validate_token (token : string) (now : Time)
    (active_tokens : gmap string Time) : bool * gmap string Time :=
  match active_tokens !! token with
  | None => (false, active_tokens)
  | Some expiry =>
      if expiry <? now then (false, delete token active_tokens)
      else (true, active_tokens)
  end.

Definition invalidate_token (token : string) (active_tokens : gmap string Time)
  : gmap string Time :=
  match active_tokens !! token with
  | Some _ => delete token active_tokens
  | None => active_tokens
  end.

(** [password == settings.app_password] *)
Definition verify_password (app_password password : string) : bool :=
  String.eqb password app_password.

(** [get_current_user]: the header token, then the [auth_token] cookie of
    the request when there is a request. *)
Definition get_current_user (token : option string)
    (request : option (list (string * string))) (now : Time)
    (active_tokens : gmap string Time) : Outcome bool * gmap string Time :=
  let '(by_header, store) :=
    match token with
    | Some t => if str_truthy t then validate_token t now active_tokens
                else (false, active_tokens)
    | None => (false, active_tokens)
    end in
  if by_header : bool then (Returned true, store)
  else
    let '(by_cookie, store) :=
      match request with
      | Some cookies =>
          match List.find (fun kv => String.eqb (fst kv) "auth_token") cookies with
          | Some (_, cookie_token) =>
              if str_truthy cookie_token then validate_token cookie_token now store
              else (false, store)
          | None => (false, store)
          end
      | None => (false, store)
      end in
    if by_cookie : bool then (Returned true, store)
    else (Raised (HTTPException 401 "Invalid or missing authentication token"), store).

(** [cleanup_expired_tokens]: the expired tokens are listed, then deleted
    one by one; their number is returned. *)
Definition cleanup_expired_tokens (now : Time) (active_tokens : gmap string Time)
  : nat * gmap string Time :=
  let expired :=
    map fst (List.filter (fun kv => snd kv <? now) (map_to_list active_tokens)) in
  (length expired, foldr delete active_tokens expired).

(** [LoginResponse] *)
Record LoginResponse : Type := mkLoginResponse {
  lr_success : bool;
  lr_token : option string;
  lr_message : string
}.

(** What an endpoint does to the cookies of its response:
    [response.set_cookie(key=, value=, httponly=, max_age=, samesite=)] and
    [response.delete_cookie(key)]. *)
Inductive CookieOp : Type :=
  | SetCookie (key value : string) (httponly : bool) (max_age : Z) (samesite : string)
  | DeleteCookie (key : string).

(** The login endpoint; [token] is what [generate_token()] would draw. *)
Definition login (app_password password token : string) (now : Time)
    (active_tokens : gmap string Time)
  : (LoginResponse * list CookieOp) * gmap string Time :=
  if negb (verify_password app_password password) then
    ((mkLoginResponse false None "Falsches Passwort", []), active_tokens)
  else
    let '(token, store) := create_session_token token now active_tokens in
    ((mkLoginResponse true (Some token) "Erfolgreich eingeloggt",
      [SetCookie "auth_token" token true 86400 "lax"]), store).

(** The logout endpoint: the cookie is deleted from the response and the
    body is [{"success": True, "message": "Ausgeloggt"}]; [active_tokens] is
    not touched. *)
Definition logout (active_tokens : gmap string Time)
  : ((bool * string) * list CookieOp) * gmap string Time :=
  (((true, "Ausgeloggt"), [DeleteCookie "auth_token"]), active_tokens).

End Auth.

(** ** [app/scheduler.py] *)

Module Scheduler.

(** The values the [status] column of [scheduled_tasks] takes. *)
Inductive SchedStatus : Type := Scheduled | Triggered | Completed | Failed.

Definition sched_status_eqb (a b : SchedStatus) : bool :=
  match a, b with
  | Scheduled, Scheduled | Triggered, Triggered
  | Completed, Completed | Failed, Failed => true
  | _, _ => false
  end.

Record ScheduledTask : Type := mkScheduled {
  game_id : string;
  game_title : string;
  sch_product_url : string;
  sch_quantity : Z;
  sch_num_threads : Z;
  scheduled_date : Time;
  sch_status : SchedStatus;
  sch_task_id : option Z;
  triggered_at : option Time
}.

Definition set_sch_status (s : SchedStatus) (r : ScheduledTask) : ScheduledTask :=
  mkScheduled (game_id r) (game_title r) (sch_product_url r) (sch_quantity r)
    (sch_num_threads r) (scheduled_date r) s (sch_task_id r) (triggered_at r).

(** [scheduled.status = "triggered"; scheduled.triggered_at = now;
    scheduled.task_id = task.id] *)
Definition set_triggered (now : Time) (task_id : Z) (r : ScheduledTask) : ScheduledTask :=
  mkScheduled (game_id r) (game_title r) (sch_product_url r) (sch_quantity r)
    (sch_num_threads r) (scheduled_date r) Triggered (Some task_id) (Some now).

(** The filter of the first query: due within a minute, not older than five. *)
Definition is_due (now : Time) (r : ScheduledTask) : bool :=
  sched_status_eqb (sch_status r) Scheduled
  && (scheduled_date r <=? now + 60)
  && (now - 300 <=? scheduled_date r).

(** The filter of the second query: still scheduled and over ten minutes old. *)
Definition is_overdue (now : Time) (r : ScheduledTask) : bool :=
  sched_status_eqb (sch_status r) Scheduled && (scheduled_date r <? now - 600).

(** The body of the loop over the due rows: create the task, mark the row
    triggered, start the task; a refused start marks the row failed, and so
    does an exception that [except Exception] catches. *)
Definition trigger (now : Time) (r : ScheduledTask) (w : World)
  : Outcome unit * (ScheduledTask * World) :=
  let d := db w in
  let task := mkTask (next_task_id d) (sch_product_url r) (sch_quantity r)
                (sch_num_threads r) PENDING 0 0 None None None None None None in
  let w1 := with_db (fun d => mkDb (<[next_task_id d := task]> (tasks d))
                                   (next_task_id d + 1) (cart_sessions d)) w in
  let r1 := set_triggered now (id task) r in
  match TaskManager.start_task task now w1 with
  | (Returned success, w2) =>
      (Returned tt, (if success : bool then r1 else set_sch_status Failed r1, w2))
  | (Raised e, w2) =>
      if Bot.is_Exception e then (Returned tt, (set_sch_status Failed r1, w2))
      else (Raised e, (r1, w2))
  end.

(** The loop over the rows of the first query, in table order; the rows
    that the query does not return are passed over. *)
Fixpoint trigger_due (now : Time) (rows : list ScheduledTask) (w : World)
  : Outcome unit * (list ScheduledTask * World) :=
  match rows with
  | [] => (Returned tt, ([], w))
  | r :: rest =>
      if is_due now r then
        match trigger now r w with
        | (Returned _, (r', w1)) =>
            let '(o, (rest', w2)) := trigger_due now rest w1 in
            (o, (r' :: rest', w2))
        | (Raised e, (r', w1)) => (Raised e, (r' :: rest, w1))
        end
      else
        let '(o, (rest', w2)) := trigger_due now rest w in
        (o, (r :: rest', w2))
  end.

(** [_check_scheduled_tasks] at time [now] on the table [rows]. Every change
    is committed where it is made, so the [rollback] of the outer handler
    undoes nothing. *)
Definition _check_scheduled_tasks (now : Time) (rows : list ScheduledTask) (w : World)
  : Outcome unit * (list ScheduledTask * World) :=
  match trigger_due now rows w with
  | (Returned _, (rows1, w1)) =>
      (Returned tt,
       (map (fun r => if is_overdue now r then set_sch_status Failed r else r) rows1, w1))
  | (Raised e, (rows1, w1)) =>
      if Bot.is_Exception e then (Returned tt, (rows1, w1))
      else (Raised e, (rows1, w1))
  end.

End Scheduler.

(** * Properties *)

(** ** Vocabulary of the statements *)

(** The number of add-to-cart attempts started so far. *)
Definition is_attempt (ev : Event) : bool :=
  match ev with EvAttemptAtc _ _ _ => true | _ => false end.

Definition count_attempts (tr : list Event) : nat :=
  length (List.filter is_attempt tr).

Definition attempts_of (st : TaskManager.MState) : nat :=
  count_attempts (trace (TaskManager.st_world st)).

(** A slot, and a snapshot, with strictly positive availability. *)
Definition slot_positive (t : Ticket) : bool :=
  match t_qty_available t ≫= json_number with
  | Some n => 0 <? n
  | _ => false
  end.

Definition has_positive_availability (data : option Snapshot) : bool :=
  match data with
  | Some d => existsb (fun kv => existsb slot_positive (snd kv)) d
  | None => false
  end.

(** The monitor coroutines of a task that are not done. *)
Definition is_live (task_id : Z) (c : Coro) : bool :=
  (coro_task_id c =? task_id) && negb (done c).

Definition live_instances (task_id : Z) (w : World) : nat :=
  length (List.filter (is_live task_id) (coros w)).

(** Every coroutine that is not done is the one its task id is mapped to
    in [active_tasks]. *)
Definition registered (w : World) : Prop :=
  forall i c, coros w !! i = Some c -> done c = false ->
              active_tasks w !! coro_task_id c = Some i.

(** The task id has no entry in [active_tasks], or only the entry of a
    coroutine that is done. *)
Definition no_live_handle (w : World) (task_id : Z) : Prop :=
  match active_tasks w !! task_id with
  | None => True
  | Some handle => Api.handle_done w handle = true
  end.

(** The add-to-cart POST was answered with status 200 and a JSON object [d]
    whose ["success"] is [True]. *)
Definition vendor_reports_success (session : Bot.Session)
    (event_id date time_short variation option_number : string) (quantity : Z)
    (product_url : string) (d : list (string * Bot.JsonVal)) : Prop :=
  exists response,
    Bot.session_post session
      (Bot.BASE_URL ++ "/checkout/ajaxcart/ajaxadd/product/" ++ event_id)
      (Bot.atc_headers product_url)
      (Bot.atc_payload event_id date time_short variation option_number quantity)
    = Returned response
    /\ Bot.status_code response = 200
    /\ Bot.resp_json response = Some (Bot.JDict d)
    /\ Bot.dict_get "success" d = Some (Bot.JBool true).

(** The add-to-cart POST was answered with status 200 and the JSON object
    [d]. *)
Definition vendor_answered (session : Bot.Session)
    (event_id date time_short variation option_number : string) (quantity : Z)
    (product_url : string) (d : list (string * Bot.JsonVal)) : Prop :=
  exists response,
    Bot.session_post session
      (Bot.BASE_URL ++ "/checkout/ajaxcart/ajaxadd/product/" ++ event_id)
      (Bot.atc_headers product_url)
      (Bot.atc_payload event_id date time_short variation option_number quantity)
    = Returned response
    /\ Bot.status_code response = 200
    /\ Bot.resp_json response = Some (Bot.JDict d).

(** The message of the vendor's answer [d] is [null]: the text of its first
    message when it lists messages, its ["error"] otherwise. *)
Definition vendor_error_null (d : list (string * Bot.JsonVal)) : Prop :=
  match Bot.dict_get "messages" d with
  | Some messages =>
      if Bot.truthy messages
      then Bot.first_message_text messages = Returned Bot.JNull
      else Bot.dict_get "error" d = Some Bot.JNull
  | None => Bot.dict_get "error" d = Some Bot.JNull
  end.

(** The answer names quote items in a positive quantity, so that the
    checkout page is consulted. *)
Definition quote_items_reported (d : list (string * Bot.JsonVal)) : Prop :=
  Bot.truthy (default (Bot.JStr "") (Bot.dict_get "qtm_quote_item_ids" d)) = true
  /\ Bot.truthy (default (Bot.JInt 0) (Bot.dict_get "qtm_quote_item_qtys" d)) = true
  /\ exists n, Bot.py_int (default (Bot.JInt 0) (Bot.dict_get "qtm_quote_item_qtys" d))
               = Returned n /\ 0 < n.

(** The checkout page, fetched on the same session, is served with status
    200 and contains one of the negative indicators. *)
Definition checkout_shows_negative (session : Bot.Session)
    (d : list (string * Bot.JsonVal)) : Prop :=
  exists url page indicator,
    Bot.checkout_target (default (Bot.JStr "") (Bot.dict_get "checkout_url" d))
    = Bot.JStr url
    /\ Bot.session_get session url = Returned page
    /\ Bot.status_code page = 200
    /\ In indicator Bot.error_indicators
    /\ str_in indicator (Bot.text page) = true.

(** A marker of the product page is usable: the element exists and its
    attribute is a non-empty string. *)
Definition marker_present (m : option (option string)) : bool :=
  match m with
  | Some (Some v) => str_truthy v
  | _ => false
  end.

(** The slots of a poll's answer, over all its dates. *)
Definition slots_of (data : option Snapshot) : list Ticket :=
  concat (map snd (default [] data)).

(** What a slot adds to the observed quantity: its ["qty_available"], or
    nothing when that is negative or absent; [None] when it is not a number. *)
Definition slot_offer (t : Ticket) : option Z :=
  match t_qty_available t with
  | None => Some 0
  | Some v => Z.max 0 <$> json_number v
  end.

(** The quantity a poll observes: what its slots offer in sum, and nothing
    when the poll gave no answer or a slot's quantity is not a number. *)
Definition observed_quantity (data : option Snapshot) : Z :=
  match mapM slot_offer (slots_of data) with
  | Some offers => foldr Z.add 0 offers
  | None => 0
  end.

(** The number of cart sessions stored so far. *)
Definition carts_of (st : TaskManager.MState) : nat :=
  length (cart_sessions (db (TaskManager.st_world st))).

(** The attempts of a race that returned [True]. *)
Definition is_carted (r : Outcome bool) : bool :=
  match r with Returned true => true | _ => false end.

Definition count_carted (results : list (Outcome bool)) : nat :=
  length (List.filter is_carted results).

(** A slot that offers fewer tickets than the task wants. *)
Definition slot_too_small (wanted : Z) (t : Ticket) : bool :=
  match t_qty_available t ≫= json_number with
  | Some n => n <? wanted
  | _ => false
  end.

(** The five-second back-off sleep. *)
Definition is_backoff (ev : Event) : bool :=
  match ev with EvSleep q => Qeq_bool q 5 | _ => false end.

Definition count_backoff (tr : list Event) : nat :=
  length (List.filter is_backoff tr).

(** The log line "No tickets available - waiting for release...". *)
Definition is_no_tickets_log (ev : Event) : bool :=
  match ev with EvLog _ _ (MsgScanNone _) => true | _ => false end.

Definition count_no_tickets_logs (tr : list Event) : nat :=
  length (List.filter is_no_tickets_log tr).

(** What the monitor of [task_id], wanting [quantity] tickets, may do to the
    process between two states: it leaves the supervisor's tables, the
    coroutines and the rows of other tasks alone, neither creates nor deletes
    its own row, keeps a [running] row [running], only adds cart sessions of
    its own task and quantity, and only adds events, each satisfying [P]. *)
Record monitor_extends (P : Event -> Prop) (task_id quantity : Z)
    (st st' : TaskManager.MState) : Prop := mkExtends {
  ext_active :
    active_tasks (TaskManager.st_world st') = active_tasks (TaskManager.st_world st);
  ext_task_data :
    task_data (TaskManager.st_world st') = task_data (TaskManager.st_world st);
  ext_coros : coros (TaskManager.st_world st') = coros (TaskManager.st_world st);
  ext_next_id :
    next_task_id (db (TaskManager.st_world st'))
    = next_task_id (db (TaskManager.st_world st));
  ext_others :
    forall other, other <> task_id ->
      tasks (db (TaskManager.st_world st')) !! other
      = tasks (db (TaskManager.st_world st)) !! other;
  ext_row :
    is_Some (tasks (db (TaskManager.st_world st')) !! task_id)
    <-> is_Some (tasks (db (TaskManager.st_world st)) !! task_id);
  ext_running :
    status <$> tasks (db (TaskManager.st_world st)) !! task_id = Some RUNNING ->
    status <$> tasks (db (TaskManager.st_world st')) !! task_id = Some RUNNING;
  ext_carts :
    exists new,
      cart_sessions (db (TaskManager.st_world st'))
      = (cart_sessions (db (TaskManager.st_world st)) ++ new)%list
      /\ Forall (fun cs => cs_task_id cs = task_id /\ cs_quantity cs = quantity) new;
  ext_trace :
    exists evs,
      trace (TaskManager.st_world st') = (trace (TaskManager.st_world st) ++ evs)%list
      /\ Forall P evs
}.

(** Code of the monitor that, from every state, only does that. *)
Definition monitor_steps (P : Event -> Prop) (task_id quantity : Z) {A : Type}
    (c : TaskManager.M A) : Prop :=
  forall st, monitor_extends P task_id quantity st (snd (c st)).

(** A token that [active_tokens] holds and that has not expired at [now]. *)
Definition token_valid (active_tokens : gmap string Time) (now : Time) (t : string)
  : Prop :=
  exists expiry, active_tokens !! t = Some expiry /\ now <= expiry.

(** The request carries the non-empty token [t] in its [auth_token] cookie. *)
Definition presents_cookie (request : option (list (string * string))) (t : string)
  : Prop :=
  exists cookies name,
    request = Some cookies
    /\ List.find (fun kv => String.eqb (fst kv) "auth_token") cookies = Some (name, t)
    /\ t <> "".

(** No handle is registered under an id that the [tasks] table has yet to
    hand out. *)
Definition handles_below_next (w : World) : Prop :=
  forall k, is_Some (active_tasks w !! k) -> k < next_task_id (db w).

(** The scheduled row [r] has become [r'] by being triggered at [now]: the
    row points to a task of [w'] that copies its URL, quantity and threads,
    says [running] since [now] and has a handle. *)
Definition triggered_into (w' : World) (now : Time)
    (r r' : Scheduler.ScheduledTask) : Prop :=
  exists task_id t,
    r' = Scheduler.set_triggered now task_id r
    /\ tasks (db w') !! task_id = Some t
    /\ product_url t = Scheduler.sch_product_url r
    /\ quantity t = Scheduler.sch_quantity r
    /\ num_threads t = Scheduler.sch_num_threads r
    /\ status t = RUNNING
    /\ started_at t = Some now
    /\ is_Some (active_tasks w' !! task_id).

(** What a check at [now] that ends in [w'] makes of the row [r]. *)
Definition scheduled_row_outcome (now : Time) (w' : World)
    (r r' : Scheduler.ScheduledTask) : Prop :=
  match Scheduler.sch_status r with
  | Scheduler.Scheduled =>
      if decide (now - 300 <= Scheduler.scheduled_date r <= now + 60)
      then triggered_into w' now r r'
      else if decide (Scheduler.scheduled_date r < now - 600)
           then r' = Scheduler.set_sch_status Scheduler.Failed r
           else r' = r
  | _ => r' = r
  end.

(** ** Concrete inputs used by the examples *)

Module Ex.

Definition url : string := "https://audidefuehrungen2.regiondo.de/fuehrung-327097".

(** Task 7: two tickets wanted, five threads requested. *)
Definition task : Task :=
  mkTask 7 url 2 5 PENDING 0 0 None None None None None None.

Definition the_db (s : TaskStatus) : Db :=
  mkDb {[ 7 := set_status s task ]} 8 [].

(** A process in which task 7 was never started. *)
Definition idle (s : TaskStatus) : World := mkWorld (the_db s) ∅ ∅ [] [].

(** A process in which the monitor of task 7 is suspended at [p]. *)
Definition monitoring (s : TaskStatus) (p : AwaitPoint) : World :=
  mkWorld (the_db s) {[ 7 := 0%nat ]} {[ 7 := None ]}
          [mkCoro 7 url 2 5 (Suspended p)] [].

Definition no_soup : Bot.Soup := Bot.mkSoup None None.

(** The vendor's answer to a successful add-to-cart call. *)
Definition vendor_ok : list (string * Bot.JsonVal) :=
  [ ("success", Bot.JBool true);
    ("qtm_quote_item_ids", Bot.JStr "991");
    ("qtm_quote_item_qtys", Bot.JInt 2);
    ("checkout_url", Bot.JStr "https://audidefuehrungen2.regiondo.de/checkout/cart") ].

(** A session whose checkout page shows [html] after a vendor success. *)
Definition session_with_checkout (html : string) : Bot.Session :=
  Bot.mkSession
    (fun _ => Returned (Bot.mkResponse 200 html None no_soup))
    (fun _ _ _ => Returned (Bot.mkResponse 200 "" (Some (Bot.JDict vendor_ok)) no_soup))
    [("frontend", Returned "c0ffee")].

Definition session_ok : Bot.Session :=
  session_with_checkout "<h2>Zusammenfassung</h2>".

(** The checkout page carries a positive and a negative indicator. *)
Definition session_phantom : Bot.Session :=
  session_with_checkout "<h2>Zusammenfassung</h2><p>Leider ausverkauft</p>".

(** A session on which every request fails in transport. *)
Definition session_offline : Bot.Session :=
  Bot.mkSession (fun _ => Raised (ConnectionError "Connection timed out"))
                (fun _ _ _ => Raised (ConnectionError "Connection timed out"))
                [].

Definition args : TaskManager.MonitorArgs :=
  TaskManager.mkArgs 7 url 2 5 "327097" "4711".

(** The same task asking for four tickets. *)
Definition args4 : TaskManager.MonitorArgs :=
  TaskManager.mkArgs 7 url 4 5 "327097" "4711".

Definition slot (qty : Z) : Ticket :=
  mkTicket (Some "10:00") (Some (Bot.JInt qty)) (Some ["v1"])
           [("traffic_light", Bot.JInt 1)].

Definition env (data : option Snapshot) (s : Bot.Session) : TaskManager.PollEnv :=
  TaskManager.mkPollEnv data 1000 (fun x => x) (fun _ _ _ => Some "55")
    (fun _ _ _ => s) (fun _ _ _ => 3) (fun _ _ _ => "tok").

Definition state (s : TaskStatus) : TaskManager.MState :=
  TaskManager.mkMState (monitoring s AwaitNetwork) (TaskManager.mkLocals 0 None false).

End Ex.

(** ** Unfolding the effect monad *)

Ltac se_unfold :=
  unfold TaskManager.lift, TaskManager._log, TaskManager.broadcast, TaskManager.emit,
    TaskManager.commit_status, TaskManager.get_locals, TaskManager.set_locals,
    se_get, se_modify, se_raise, se_outcome, mbind, mret, SE_bind, SE_ret,
    Outcome_bind, Outcome_ret in *.

Lemma count_attempts_app (a b : list Event) :
  count_attempts (a ++ b) = (count_attempts a + count_attempts b)%nat.
Proof.
  unfold count_attempts. induction a as [|ev a IH]; simpl; [reflexivity|].
  destruct ev; simpl; lia.
Qed.

(** ** [create_task] *)

(** C10. A task record is created exactly when the product URL contains the
    vendor domain and the quantity lies between 1 and 4; every other request
    is answered with HTTP 400 and leaves the database as it was. *)
Theorem create_task_validates (task_data : Api.TaskCreate) (d : Db) :
  (str_in Api.vendor_domain (Api.tc_product_url task_data) = true
   /\ 1 <= Api.tc_quantity task_data <= 4
   /\ Api.create_task task_data d =
        (Returned (Api.new_task (next_task_id d) task_data),
         mkDb (<[next_task_id d := Api.new_task (next_task_id d) task_data]> (tasks d))
              (next_task_id d + 1) (cart_sessions d)))
  \/
  (~ (str_in Api.vendor_domain (Api.tc_product_url task_data) = true
      /\ 1 <= Api.tc_quantity task_data <= 4)
   /\ exists detail,
        Api.create_task task_data d = (Raised (HTTPException 400 detail), d)).
Proof.
  unfold Api.create_task.
  destruct (str_in Api.vendor_domain (Api.tc_product_url task_data)) eqn:Hurl; simpl.
  - destruct (1 <=? Api.tc_quantity task_data) eqn:Hlo;
      destruct (Api.tc_quantity task_data <=? 4) eqn:Hhi; simpl.
    + left. split; [reflexivity|]. split; [lia | reflexivity].
    + right. split; [lia | eauto].
    + right. split; [lia | eauto].
    + right. split; [lia | eauto].
  - right. split; [intros [H _]; discriminate | eauto].
Qed.

(** ** The size of a race *)

Lemma attempts_of_emit (ev : Event) (st : TaskManager.MState) :
  attempts_of (snd (TaskManager.lift (TaskManager.emit ev) st)) =
  (attempts_of st + if is_attempt ev then 1 else 0)%nat.
Proof.
  unfold attempts_of. se_unfold. simpl. rewrite count_attempts_app.
  unfold count_attempts at 2. simpl. destruct (is_attempt ev); reflexivity.
Qed.

(** An attempt starts no further attempt. *)
Lemma _attempt_atc_attempts task_id bot event_id date time_short variation
    option_number quantity product_url total_time token now st :
  attempts_of (snd (TaskManager._attempt_atc task_id bot event_id date time_short
                      variation option_number quantity product_url total_time token
                      now st)) = attempts_of st.
Proof.
  unfold TaskManager._attempt_atc. se_unfold.
  destruct (Bot.add_to_cart _ _ _ _ _ _ _ _) as [[[success cookie] error]|e];
    [|reflexivity].
  destruct success, cookie as [cookie|], error as [err|]; simpl;
    try destruct (Bot.truthy err); simpl;
    unfold attempts_of; simpl;
    rewrite ?count_attempts_app; unfold count_attempts; simpl; lia.
Qed.

Lemma gather_run_attempts (cs : list (TaskManager.M bool)) (st : TaskManager.MState) :
  (forall c, In c cs -> forall s, attempts_of (snd (c s)) = S (attempts_of s)) ->
  attempts_of (snd (TaskManager.gather_run cs st)) = (attempts_of st + length cs)%nat.
Proof.
  revert st. induction cs as [|c cs IH]; intros st Hcs; simpl; [lia|].
  pose proof (Hcs c (or_introl eq_refl) st) as Hc.
  destruct (c st) as [r st1]. simpl in Hc.
  specialize (IH st1 (fun c' Hin => Hcs c' (or_intror Hin))).
  destruct (TaskManager.gather_run cs st1) as [rs st2]. simpl in *. lia.
Qed.

Lemma race_attempts_each_one args env date time_short variation option_number n c s :
  In c (TaskManager.race_attempts args env date time_short variation option_number n) ->
  attempts_of (snd (c s)) = S (attempts_of s).
Proof.
  unfold TaskManager.race_attempts. intros Hin.
  apply in_map_iff in Hin as [i [<- _]].
  unfold mbind, SE_bind.
  pose proof (attempts_of_emit (EvAttemptAtc date time_short i) s) as Hemit.
  destruct (TaskManager.lift _ s) as [[[]|e] s0] eqn:Hlift; simpl in Hemit.
  - rewrite _attempt_atc_attempts. lia.
  - discriminate Hlift.
Qed.

Lemma race_attempts_length args env date time_short variation option_number n :
  length (TaskManager.race_attempts args env date time_short variation option_number n)
  = Z.to_nat n.
Proof. unfold TaskManager.race_attempts. rewrite length_map, length_seq. reflexivity. Qed.

Lemma commit_status_attempts task_id s f (st : TaskManager.MState) :
  exists st', TaskManager.lift (TaskManager.commit_status task_id s f) st = (Returned tt, st')
              /\ attempts_of st' = attempts_of st
              /\ TaskManager.st_locals st' = TaskManager.st_locals st.
Proof.
  se_unfold. simpl.
  destruct (tasks (db (TaskManager.st_world st)) !! task_id); simpl;
    eexists; (split; [reflexivity|]); split; try reflexivity.
  unfold attempts_of. simpl. rewrite count_attempts_app. unfold count_attempts. simpl. lia.
Qed.

Lemma recart_cycle_attempts task_id now (st : TaskManager.MState) :
  exists st', TaskManager.recart_cycle task_id now st = (Returned tt, st')
              /\ attempts_of st' = attempts_of st
              /\ TaskManager.st_locals st' = TaskManager.mkLocals 0 None false.
Proof.
  unfold TaskManager.recart_cycle.
  unfold mbind at 1, SE_bind at 1.
  destruct (TaskManager.lift (TaskManager._log task_id "success" MsgCarted) st)
    as [r1 s1] eqn:H1.
  pose proof (attempts_of_emit (EvLog task_id "success" MsgCarted) st) as A1.
  unfold TaskManager._log in H1. rewrite H1 in A1. simpl in A1.
  assert (r1 = Returned tt) as -> by (revert H1; se_unfold; simpl; congruence).
  unfold mbind at 1, SE_bind at 1.
  destruct (commit_status_attempts task_id SUCCESS (set_completed_at (Some now)) s1)
    as [s2 [-> [A2 _]]].
  unfold mbind at 1, SE_bind at 1.
  destruct (TaskManager.lift (TaskManager.broadcast _) s2) as [r3 s3] eqn:H3.
  pose proof (attempts_of_emit (EvBroadcast (TaskUpdate task_id SUCCESS None)) s2) as A3.
  unfold TaskManager.broadcast in H3. rewrite H3 in A3. simpl in A3.
  assert (r3 = Returned tt) as -> by (revert H3; se_unfold; simpl; congruence).
  unfold mbind at 1, SE_bind at 1.
  destruct (TaskManager.lift (TaskManager.emit (EvSleep _)) s3) as [r4 s4] eqn:H4.
  pose proof (attempts_of_emit (EvSleep (inject_Z (cart_hold_time settings))) s3) as A4.
  rewrite H4 in A4. simpl in A4.
  assert (r4 = Returned tt) as -> by (revert H4; se_unfold; simpl; congruence).
  unfold mbind at 1, SE_bind at 1.
  destruct (TaskManager.lift (TaskManager._log task_id "info" MsgHoldExpired) s4)
    as [r5 s5] eqn:H5.
  pose proof (attempts_of_emit (EvLog task_id "info" MsgHoldExpired) s4) as A5.
  unfold TaskManager._log in H5. rewrite H5 in A5. simpl in A5.
  assert (r5 = Returned tt) as -> by (revert H5; se_unfold; simpl; congruence).
  unfold mbind at 1, SE_bind at 1.
  destruct (commit_status_attempts task_id RUNNING (set_completed_at None) s5)
    as [s6 [-> [A6 _]]].
  unfold mbind at 1, SE_bind at 1.
  destruct (TaskManager.lift (TaskManager.broadcast _) s6) as [r7 s7] eqn:H7.
  pose proof (attempts_of_emit (EvBroadcast (TaskUpdate task_id RUNNING None)) s6) as A7.
  unfold TaskManager.broadcast in H7. rewrite H7 in A7. simpl in A7.
  assert (r7 = Returned tt) as -> by (revert H7; se_unfold; simpl; congruence).
  unfold TaskManager.set_locals. eexists. split; [reflexivity|].
  split; [|reflexivity]. unfold attempts_of in *. simpl. lia.
Qed.

(** C1. When a race is run on a slot with [A] tickets available for a task
    that wants [Q] of them ([1 <= Q <= A]) with [T] requested threads, the
    number of add-to-cart attempts it starts is [min T (A / Q)] (none when
    that is not positive): at most [A / Q], and for a thread count [T >= 0]
    exactly [min T (A / Q)], hence at most [T] as well. *)
Theorem race_spawns_min_threads_carts (args : TaskManager.MonitorArgs)
    (env : TaskManager.PollEnv) (date time_short variation option_number : string)
    (A : Z) (st : TaskManager.MState) :
  let Q := TaskManager.a_quantity args in
  let T := TaskManager.a_num_threads args in
  1 <= Q -> Q <= A ->
  let st' := snd (TaskManager.run_race args env date time_short variation
                    option_number A st) in
  let spawned := (attempts_of st' - attempts_of st)%nat in
  spawned = Z.to_nat (Z.min T (A / Q))
  /\ Z.of_nat spawned <= A / Q
  /\ (0 <= T -> Z.of_nat spawned = Z.min T (A / Q) /\ Z.of_nat spawned <= T).
Proof.
  intros Q T HQ HA.
  assert (Hdiv : 1 <= A / Q) by (apply Z.div_le_lower_bound; lia).
  assert (Hcount : attempts_of (snd (TaskManager.run_race args env date time_short
                      variation option_number A st))
                   = (attempts_of st + Z.to_nat (Z.min T (A / Q)))%nat).
  { unfold TaskManager.run_race, TaskManager.floordiv. fold Q T.
    destruct (Q =? 0) eqn:HQ0; [lia|].
    unfold se_outcome. unfold mbind at 1, SE_bind at 1.
    unfold TaskManager.actual_threads. rewrite (Z.max_r 1 (A / Q)) by lia.
    unfold mbind at 1, SE_bind at 1.
    destruct (TaskManager.lift (TaskManager._log _ _ _) st) as [r1 s1] eqn:H1.
    pose proof (attempts_of_emit (EvLog (TaskManager.a_task_id args) "info"
                  (MsgRunningThreads (Z.min T (A / Q)) (A / Q))) st) as A1.
    unfold TaskManager._log in H1. rewrite H1 in A1. simpl in A1.
    assert (r1 = Returned tt) as -> by (revert H1; se_unfold; simpl; congruence).
    unfold mbind at 1, SE_bind at 1. unfold TaskManager.gather.
    pose proof (gather_run_attempts
      (TaskManager.race_attempts args env date time_short variation option_number
         (Z.min T (A / Q))) s1
      (fun c Hin s => race_attempts_each_one _ _ _ _ _ _ _ c s Hin)) as HG.
    rewrite race_attempts_length in HG.
    destruct (TaskManager.gather_run _ s1) as [results s2]. simpl in HG.
    unfold TaskManager.after_race.
    destruct (TaskManager.any_true results).
    - unfold mbind, SE_bind.
      destruct (recart_cycle_attempts (TaskManager.a_task_id args)
                  (TaskManager.env_utcnow env) s2) as [s3 [-> [A3 _]]].
      simpl. lia.
    - simpl. lia. }
  cbv zeta. rewrite Hcount. lia.
Qed.

(** The example of the specification: 10 available, 4 wanted, 5 threads
    requested: 2 attempts. *)
Lemma race_spawns_min_threads_carts_witness :
  let st := Ex.state RUNNING in
  let st' := snd (TaskManager.run_race Ex.args4 (Ex.env None Ex.session_ok)
                    "2024-05-01" "10:00" "v1" "55" 10 st) in
  (attempts_of st' - attempts_of st)%nat = Z.to_nat (Z.min 5 (10 / 4))
  /\ Z.to_nat (Z.min 5 (10 / 4)) = 2%nat.
Proof.
  split; [|reflexivity].
  apply (race_spawns_min_threads_carts Ex.args4 (Ex.env None Ex.session_ok)
           "2024-05-01" "10:00" "v1" "55" 10 (Ex.state RUNNING));
    simpl; lia.
Defined.

(** ** Polls without availability *)

Lemma sum_tickets_no_positive (tickets : list Ticket) :
  existsb slot_positive tickets = false ->
  TaskManager.sum_tickets tickets = Returned 0
  \/ exists e, TaskManager.sum_tickets tickets = Raised e.
Proof.
  induction tickets as [|t tickets IH]; simpl; intros H; [left; reflexivity|].
  apply orb_false_iff in H as [Ht Hrest].
  unfold TaskManager.qty_clamped, slot_positive in *.
  destruct (t_qty_available t) as [v|]; simpl in *;
    [destruct (json_number v) as [n|]; simpl in *|].
  - apply Z.ltb_ge in Ht. rewrite Z.max_l by lia.
    destruct (IH Hrest) as [->|[e ->]]; simpl; eauto.
  - right. eauto.
  - destruct (IH Hrest) as [->|[e ->]]; simpl; eauto.
Qed.

Lemma sum_dates_no_positive (d : Snapshot) :
  existsb (fun kv => existsb slot_positive (snd kv)) d = false ->
  TaskManager.sum_dates d = Returned 0 \/ exists e, TaskManager.sum_dates d = Raised e.
Proof.
  induction d as [|[date tickets] d IH]; simpl; intros H; [left; reflexivity|].
  apply orb_false_iff in H as [Ht Hrest].
  destruct (sum_tickets_no_positive tickets Ht) as [->|[e ->]]; simpl; [|eauto].
  destruct (IH Hrest) as [->|[e ->]]; simpl; eauto.
Qed.

Lemma total_available_no_positive (data : option Snapshot) :
  has_positive_availability data = false -> TaskManager.total_available data = 0.
Proof.
  intros H. destruct data as [[|kv d]|]; [reflexivity| |reflexivity].
  change (TaskManager.total_available (Some (kv :: d)))
    with (match TaskManager.sum_dates (kv :: d) with
          | Returned n => n
          | Raised _ => 0
          end).
  destruct (sum_dates_no_positive (kv :: d) H) as [->|[e ->]]; reflexivity.
Qed.

(** C4. A poll whose snapshot has no strictly positive quantity starts no
    add-to-cart attempt, whatever the previously seen snapshot was: the pass
    ends normally, creates no cart session and does not even record the
    snapshot as seen. *)
Theorem no_availability_no_race (args : TaskManager.MonitorArgs)
    (env : TaskManager.PollEnv) (st : TaskManager.MState) :
  has_positive_availability (TaskManager.env_data env) = false ->
  exists st',
    TaskManager.poll_iteration args env st = (Returned tt, st')
    /\ attempts_of st' = attempts_of st
    /\ cart_sessions (db (TaskManager.st_world st'))
       = cart_sessions (db (TaskManager.st_world st))
    /\ TaskManager.l_previous_data (TaskManager.st_locals st')
       = TaskManager.l_previous_data (TaskManager.st_locals st).
Proof.
  intros Hnone. pose proof (total_available_no_positive _ Hnone) as Htotal.
  unfold TaskManager.poll_iteration, TaskManager.scan_phase, TaskManager.periodic_log,
    TaskManager.branch_phase, TaskManager.commit_scan_info.
  se_unfold. simpl. rewrite Htotal. simpl.
  destruct (tasks _ !! _); simpl; rewrite andb_false_r; simpl;
  (destruct ((_ =? 1) || (_ mod 50 =? 0)); simpl;
    [destruct (negb _ || (_ =? 1)); simpl|];
    destruct (TaskManager.is_none _ || _); simpl;
    eexists; (split; [reflexivity|]); simpl;
    (split; [|split; reflexivity]);
    unfold attempts_of; simpl; rewrite ?count_attempts_app;
    unfold count_attempts; simpl; lia).
Qed.

(** A snapshot that differs from what was seen before (nothing) and holds
    only a sold-out and an oversold slot. *)
Lemma no_availability_no_race_witness :
  let data := Some [("2024-05-01", [Ex.slot 0; Ex.slot (-2)])] in
  let st := Ex.state RUNNING in
  has_positive_availability data = false
  /\ TaskManager.data_eqb data (TaskManager.l_previous_data (TaskManager.st_locals st))
     = false
  /\ exists st',
       TaskManager.poll_iteration Ex.args (Ex.env data Ex.session_ok) st
       = (Returned tt, st')
       /\ attempts_of st' = attempts_of st
       /\ cart_sessions (db (TaskManager.st_world st'))
          = cart_sessions (db (TaskManager.st_world st))
       /\ TaskManager.l_previous_data (TaskManager.st_locals st')
          = TaskManager.l_previous_data (TaskManager.st_locals st).
Proof.
  split; [reflexivity|]. split; [reflexivity|].
  apply (no_availability_no_race Ex.args
           (Ex.env (Some [("2024-05-01", [Ex.slot 0; Ex.slot (-2)])]) Ex.session_ok)
           (Ex.state RUNNING)).
  reflexivity.
Defined.

(** ** The unconditional part of a poll *)

Lemma mapM_slot_offer_app (a b : list Ticket) :
  mapM slot_offer (a ++ b)
  = match mapM slot_offer a, mapM slot_offer b with
    | Some qa, Some qb => Some (qa ++ qb)%list
    | _, _ => None
    end.
Proof.
  induction a as [|t a IH].
  - simpl. destruct (mapM slot_offer b); reflexivity.
  - change (mapM slot_offer ((t :: a) ++ b))
      with (y ← slot_offer t; k ← mapM slot_offer (a ++ b); mret (y :: k)).
    change (mapM slot_offer (t :: a))
      with (y ← slot_offer t; k ← mapM slot_offer a; mret (y :: k)).
    rewrite IH. destruct (slot_offer t) as [q|]; simpl; [|reflexivity].
    destruct (mapM slot_offer a), (mapM slot_offer b); reflexivity.
Qed.

Lemma foldr_add_app (a b : list Z) :
  foldr Z.add 0 (a ++ b) = foldr Z.add 0 a + foldr Z.add 0 b.
Proof. induction a as [|x a IH]; simpl; [reflexivity|]. rewrite IH. lia. Qed.

Lemma sum_tickets_offers (tickets : list Ticket) :
  match mapM slot_offer tickets with
  | Some offers => TaskManager.sum_tickets tickets = Returned (foldr Z.add 0 offers)
  | None => exists e, TaskManager.sum_tickets tickets = Raised e
  end.
Proof.
  induction tickets as [|t tickets IH]; [reflexivity|].
  assert (Hq : match slot_offer t with
               | Some q => TaskManager.qty_clamped t = Returned q
               | None => exists e, TaskManager.qty_clamped t = Raised e
               end).
  { unfold slot_offer, TaskManager.qty_clamped.
    destruct (t_qty_available t) as [v|]; [|reflexivity].
    destruct (json_number v) as [n|]; simpl; eauto. }
  change (mapM slot_offer (t :: tickets))
    with (y ← slot_offer t; k ← mapM slot_offer tickets; mret (y :: k)).
  cbn [TaskManager.sum_tickets].
  destruct (slot_offer t) as [q|]; simpl.
  - rewrite Hq. destruct (mapM slot_offer tickets) as [offers|]; simpl.
    + rewrite IH. reflexivity.
    + destruct IH as [e ->]. eauto.
  - destruct Hq as [e ->]. eauto.
Qed.

Lemma sum_dates_offers (d : Snapshot) :
  match mapM slot_offer (concat (map snd d)) with
  | Some offers => TaskManager.sum_dates d = Returned (foldr Z.add 0 offers)
  | None => exists e, TaskManager.sum_dates d = Raised e
  end.
Proof.
  induction d as [|[date tickets] d IH]; simpl; [reflexivity|].
  rewrite mapM_slot_offer_app. pose proof (sum_tickets_offers tickets) as Ht.
  destruct (mapM slot_offer tickets) as [qa|].
  - rewrite Ht. simpl. destruct (mapM slot_offer (concat (map snd d))) as [qb|].
    + rewrite IH. simpl. rewrite foldr_add_app. reflexivity.
    + destruct IH as [e ->]. simpl. eauto.
  - destruct Ht as [e ->]. simpl. eauto.
Qed.

(** The total that the loop computes is the observed quantity. *)
Lemma total_available_observed (data : option Snapshot) :
  TaskManager.total_available data = observed_quantity data.
Proof.
  unfold observed_quantity, slots_of.
  destruct data as [[|kv d]|]; [reflexivity| |reflexivity].
  change (TaskManager.total_available (Some (kv :: d)))
    with (match TaskManager.sum_dates (kv :: d) with
          | Returned n => n
          | Raised _ => 0
          end).
  change (default [] (Some (kv :: d))) with (kv :: d).
  pose proof (sum_dates_offers (kv :: d)) as H.
  destruct (mapM slot_offer (concat (map snd (kv :: d)))) as [offers|].
  - rewrite H. reflexivity.
  - destruct H as [e ->]. reflexivity.
Qed.

Lemma observed_quantity_nonneg (data : option Snapshot) : 0 <= observed_quantity data.
Proof.
  unfold observed_quantity.
  destruct (mapM slot_offer _) as [offers|] eqn:Hoffers; [|lia].
  revert offers Hoffers. generalize (slots_of data).
  induction l as [|t l IH]; intros offers Hoffers.
  - injection Hoffers as <-. simpl. lia.
  - change (mapM slot_offer (t :: l))
      with (y ← slot_offer t; k ← mapM slot_offer l; mret (y :: k)) in Hoffers.
    destruct (slot_offer t) as [q|] eqn:Hq; simpl in Hoffers; [|discriminate].
    destruct (mapM slot_offer l) as [qs|]; simpl in Hoffers; [|discriminate].
    injection Hoffers as <-. simpl. specialize (IH qs eq_refl).
    assert (0 <= q); [|lia]. unfold slot_offer in Hq.
    destruct (t_qty_available t) as [v|]; [|injection Hq as <-; lia].
    destruct (json_number v) as [m|]; simpl in Hq; [|discriminate].
    injection Hq as <-. lia.
Qed.

Lemma total_fits (data : option Snapshot) :
  observed_quantity data < 2 ^ 63 ->
  TaskManager.fits_integer (TaskManager.total_available data) = true.
Proof.
  intros Hsmall. rewrite total_available_observed.
  pose proof (observed_quantity_nonneg data) as Hnonneg.
  unfold TaskManager.fits_integer.
  apply andb_true_iff. split; [apply Z.leb_le; lia|apply Z.leb_le].
  change (2 ^ 63) with 9223372036854775808 in Hsmall. lia.
Qed.

(** The first statements of a pass when the total fits the column. *)
Lemma scan_phase_fits (args : TaskManager.MonitorArgs) (env : TaskManager.PollEnv)
    (st : TaskManager.MState) :
  let n := TaskManager.l_scan_count (TaskManager.st_locals st) + 1 in
  let total := TaskManager.total_available (TaskManager.env_data env) in
  let now := TaskManager.env_utcnow env in
  let task_id := TaskManager.a_task_id args in
  TaskManager.fits_integer total = true ->
  exists st1,
    TaskManager.scan_phase args env st = (Returned total, st1)
    /\ TaskManager.st_locals st1 = TaskManager.set_scan_count n (TaskManager.st_locals st)
    /\ tasks (db (TaskManager.st_world st1))
       = alter (set_scan_info n total now) task_id (tasks (db (TaskManager.st_world st)))
    /\ next_task_id (db (TaskManager.st_world st1))
       = next_task_id (db (TaskManager.st_world st))
    /\ cart_sessions (db (TaskManager.st_world st1))
       = cart_sessions (db (TaskManager.st_world st))
    /\ active_tasks (TaskManager.st_world st1) = active_tasks (TaskManager.st_world st)
    /\ task_data (TaskManager.st_world st1) = task_data (TaskManager.st_world st)
    /\ coros (TaskManager.st_world st1) = coros (TaskManager.st_world st)
    /\ trace (TaskManager.st_world st1)
       = (trace (TaskManager.st_world st)
          ++ [EvBroadcast (ScanUpdate task_id n total now)])%list.
Proof.
  intros n total now task_id Hfits.
  unfold TaskManager.scan_phase, TaskManager.commit_scan_info. se_unfold. simpl.
  fold total. rewrite Hfits.
  destruct (tasks (db (TaskManager.st_world st)) !! TaskManager.a_task_id args)
    as [t|] eqn:Hrow; simpl;
    eexists; (split; [reflexivity|]); simpl; repeat split; try reflexivity.
  apply map_eq. intros k. destruct (decide (k = task_id)) as [->|Hne].
  - rewrite lookup_alter_eq. unfold task_id. rewrite Hrow. reflexivity.
  - rewrite lookup_alter_ne by congruence. reflexivity.
Qed.




(** ** After a won race *)

(** When the options were resolved and the quantity is not zero, a race is:
    the log line, the gathered attempts, then [after_race] on their results. *)
Lemma run_race_after_race args env date time_short variation option_number A st :
  TaskManager.a_quantity args <> 0 ->
  let n := TaskManager.actual_threads (TaskManager.a_num_threads args)
             (A / TaskManager.a_quantity args) in
  let st0 := snd (TaskManager.lift (TaskManager._log (TaskManager.a_task_id args) "info"
                    (MsgRunningThreads n (A / TaskManager.a_quantity args))) st) in
  let gathered := TaskManager.gather_run
                    (TaskManager.race_attempts args env date time_short variation
                       option_number n) st0 in
  TaskManager.run_race args env date time_short variation option_number A st
  = TaskManager.after_race (TaskManager.a_task_id args) (TaskManager.env_utcnow env)
      (fst gathered) (snd gathered).
Proof.
  intros HQ. unfold TaskManager.run_race, TaskManager.floordiv.
  destruct (TaskManager.a_quantity args =? 0) eqn:E; [lia|].
  se_unfold. simpl. unfold TaskManager.gather.
  destruct (TaskManager.gather_run _ _) as [results st1]. reflexivity.
Qed.

(** C9. When at least one attempt of a race returned [True], the task's
    row is set to [success], the coroutine sleeps [cart_hold_time]
    (1020 s = 17 min by default), the row is set back to [running] with
    [completed_at] cleared, and the loop's scan state is reset: counter 0,
    no previous snapshot. The loop goes on ([continue]). *)
Theorem won_race_holds_cart_then_resumes (task_id : Z) (now : Time)
    (results : list (Outcome bool)) (st : TaskManager.MState) (t : Task) :
  TaskManager.any_true results = true ->
  tasks (db (TaskManager.st_world st)) !! task_id = Some t ->
  exists st',
    TaskManager.after_race task_id now results st = (Returned true, st')
    /\ trace (TaskManager.st_world st')
       = (trace (TaskManager.st_world st)
          ++ [ EvLog task_id "success" MsgCarted;
               EvCommitStatus task_id SUCCESS;
               EvBroadcast (TaskUpdate task_id SUCCESS None);
               EvSleep (inject_Z (cart_hold_time settings));
               EvLog task_id "info" MsgHoldExpired;
               EvCommitStatus task_id RUNNING;
               EvBroadcast (TaskUpdate task_id RUNNING None) ])%list
    /\ cart_hold_time settings = 17 * 60
    /\ (exists t', tasks (db (TaskManager.st_world st')) !! task_id = Some t'
                   /\ status t' = RUNNING /\ completed_at t' = None)
    /\ TaskManager.st_locals st' = TaskManager.mkLocals 0 None false.
Proof.
  intros Hany Hrow. unfold TaskManager.after_race. rewrite Hany.
  unfold TaskManager.recart_cycle. se_unfold. simpl. rewrite Hrow. simpl.
  rewrite lookup_alter_eq, Hrow. simpl.
  eexists. split; [reflexivity|]. simpl. split.
  - rewrite <- !app_assoc. reflexivity.
  - split; [reflexivity|]. split; [|reflexivity].
    eexists. split.
    + rewrite lookup_alter_eq, lookup_alter_eq, Hrow. reflexivity.
    + split; reflexivity.
Qed.

(** One attempt out of two came back with a cart. *)
Lemma won_race_holds_cart_then_resumes_witness :
  let st := Ex.state RUNNING in
  let results := [Returned false; Returned true] in
  exists st',
    TaskManager.after_race 7 2000 results st = (Returned true, st')
    /\ trace (TaskManager.st_world st')
       = (trace (TaskManager.st_world st)
          ++ [ EvLog 7 "success" MsgCarted;
               EvCommitStatus 7 SUCCESS;
               EvBroadcast (TaskUpdate 7 SUCCESS None);
               EvSleep (inject_Z (cart_hold_time settings));
               EvLog 7 "info" MsgHoldExpired;
               EvCommitStatus 7 RUNNING;
               EvBroadcast (TaskUpdate 7 RUNNING None) ])%list
    /\ cart_hold_time settings = 17 * 60
    /\ (exists t', tasks (db (TaskManager.st_world st')) !! 7 = Some t'
                   /\ status t' = RUNNING /\ completed_at t' = None)
    /\ TaskManager.st_locals st' = TaskManager.mkLocals 0 None false.
Proof.
  apply (won_race_holds_cart_then_resumes 7 2000 [Returned false; Returned true]
           (Ex.state RUNNING) (set_status RUNNING Ex.task)).
  - reflexivity.
  - vm_compute. reflexivity.
Defined.

(** ** Starting a task *)

Lemma start_task_active (task : Task) (now : Time) (w : World) (h : nat) :
  active_tasks w !! id task = Some h ->
  TaskManager.start_task task now w = (Returned false, w).
Proof. intros H. unfold TaskManager.start_task. se_unfold. rewrite H. reflexivity. Qed.

Lemma start_task_fresh (task : Task) (now : Time) (w : World) :
  active_tasks w !! id task = None ->
  exists w1,
    TaskManager.start_task task now w = (Returned true, w1)
    /\ active_tasks w1 = <[id task := length (coros w)]> (active_tasks w)
    /\ coros w1 = (coros w ++ [mkCoro (id task) (product_url task) (quantity task)
                                 (num_threads task) NotStarted])%list
    /\ task_data w1 = <[id task := None]> (task_data w)
    /\ tasks (db w1)
       = alter (fun t => set_started_at (Some now) (set_status RUNNING t)) (id task)
               (tasks (db w))
    /\ trace w1
       = (trace w
          ++ (if tasks (db w) !! id task is Some _ then [EvCommitStatus (id task) RUNNING] else [])
          ++ [EvBroadcast (TaskUpdate (id task) RUNNING None)])%list.
Proof.
  intros H. unfold TaskManager.start_task. se_unfold. rewrite H. simpl.
  destruct (tasks (db w) !! id task) as [t|] eqn:Hrow; simpl;
    eexists; (split; [reflexivity|]); simpl; repeat split; try reflexivity.
  - rewrite <- app_assoc. reflexivity.
  - apply map_eq. intros k.
    destruct (decide (k = id task)) as [->|Hne].
    + rewrite lookup_alter_eq, Hrow. reflexivity.
    + rewrite lookup_alter_ne by congruence. reflexivity.
Qed.

Lemma filter_none_length {A} (P : A -> bool) (l : list A) :
  (forall x, In x l -> P x = false) -> length (List.filter P l) = 0%nat.
Proof.
  induction l as [|x l IH]; simpl; intros H; [reflexivity|].
  rewrite (H x (or_introl eq_refl)). apply IH. intros y Hy. apply H. right. exact Hy.
Qed.

Lemma registered_none_live (w : World) (task_id : Z) :
  registered w -> active_tasks w !! task_id = None -> live_instances task_id w = 0%nat.
Proof.
  intros Hreg Hnone. unfold live_instances. apply filter_none_length.
  intros c Hin. apply list_elem_of_In, list_elem_of_lookup in Hin as [i Hi].
  unfold is_live. destruct (coro_task_id c =? task_id) eqn:Heq; [|reflexivity].
  apply Z.eqb_eq in Heq. destruct (done c) eqn:Hd; [reflexivity|].
  specialize (Hreg i c Hi Hd). congruence.
Qed.

Lemma registered_at_most_one (w : World) (task_id : Z) :
  registered w -> (live_instances task_id w <= 1)%nat.
Proof.
  unfold registered, live_instances. generalize (active_tasks w) as m.
  generalize (coros w) as l. intros l m Hreg.
  assert (Huniq : forall i j ci cj, l !! i = Some ci -> l !! j = Some cj ->
            is_live task_id ci = true -> is_live task_id cj = true -> i = j).
  { intros i j ci cj Hi Hj Li Lj. unfold is_live in *.
    apply andb_true_iff in Li as [Ti Di], Lj as [Tj Dj].
    apply Z.eqb_eq in Ti, Tj. apply negb_true_iff in Di, Dj.
    pose proof (Hreg i ci Hi Di) as Ri. pose proof (Hreg j cj Hj Dj) as Rj.
    rewrite Ti in Ri. rewrite Tj in Rj. congruence. }
  clear Hreg. induction l as [|c l IH]; simpl; [lia|].
  destruct (is_live task_id c) eqn:Hc.
  - simpl. rewrite filter_none_length; [lia|].
    intros y Hy. apply list_elem_of_In, list_elem_of_lookup in Hy as [j Hj].
    destruct (is_live task_id y) eqn:Hy'; [|reflexivity].
    specialize (Huniq 0%nat (S j) c y eq_refl Hj Hc Hy'). discriminate.
  - apply IH. intros i j ci cj Hi Hj Li Lj.
    specialize (Huniq (S i) (S j) ci cj Hi Hj Li Lj). lia.
Qed.

Lemma start_task_registered (task : Task) (now : Time) (w : World) :
  registered w -> registered (snd (TaskManager.start_task task now w)).
Proof.
  intros Hreg. destruct (active_tasks w !! id task) as [h|] eqn:Hact.
  - rewrite (start_task_active task now w h Hact). exact Hreg.
  - destruct (start_task_fresh task now w Hact) as [w1 [-> [Ha [Hc _]]]]. simpl.
    intros i c Hi Hd. rewrite Ha. rewrite Hc in Hi.
    destruct (decide (i < length (coros w))%nat) as [Hlt|Hge].
    + rewrite lookup_app_l in Hi by exact Hlt.
      pose proof (Hreg i c Hi Hd) as Hr.
      rewrite lookup_insert_ne; [exact Hr|]. intros Heq. rewrite <- Heq in Hr. congruence.
    + rewrite lookup_app_r in Hi by lia.
      destruct (i - length (coros w))%nat as [|k] eqn:Hk; simpl in Hi; [|discriminate].
      injection Hi as <-. simpl. rewrite lookup_insert_eq. f_equal. lia.
Qed.

(** The admission guard. From a state in which every live monitor is
    registered, starting a task leaves at most one live monitor per task id.
    A task that has an entry in [active_tasks] is refused: [False] is
    returned and nothing changes. A task without entry is started, has
    exactly one live monitor afterwards, and starting it again at once is
    refused. *)
Lemma start_task_at_most_once (task : Task) (now now' : Time) (w : World) :
  registered w ->
  let w1 := snd (TaskManager.start_task task now w) in
  registered w1
  /\ (forall task_id, (live_instances task_id w1 <= 1)%nat)
  /\ (is_Some (active_tasks w !! id task) ->
      TaskManager.start_task task now w = (Returned false, w))
  /\ (active_tasks w !! id task = None ->
      TaskManager.start_task task now w = (Returned true, w1)
      /\ live_instances (id task) w1 = 1%nat
      /\ TaskManager.start_task task now' w1 = (Returned false, w1)).
Proof.
  intros Hreg w1. pose proof (start_task_registered task now w Hreg) as Hreg1.
  fold w1 in Hreg1. split; [exact Hreg1|]. split.
  - intros task_id. apply registered_at_most_one. exact Hreg1.
  - split.
    + intros [h Hh]. exact (start_task_active task now w h Hh).
    + intros Hnone. destruct (start_task_fresh task now w Hnone)
        as [w' [Hrun [Ha [Hc _]]]].
      assert (w1 = w') as -> by (unfold w1; rewrite Hrun; reflexivity).
      split; [exact Hrun|]. split.
      * unfold live_instances. rewrite Hc, List.filter_app, length_app.
        fold (live_instances (id task) w).
        rewrite (registered_none_live w (id task) Hreg Hnone). simpl.
        unfold is_live. simpl. rewrite Z.eqb_refl. reflexivity.
      * apply (start_task_active task now' w' (length (coros w))).
        rewrite Ha. apply lookup_insert_eq.
Qed.

(** Nothing runs yet; the task is started once and refused the second time. *)
Lemma start_task_at_most_once_witness :
  let w := Ex.idle PENDING in
  let w1 := snd (TaskManager.start_task Ex.task 100 w) in
  TaskManager.start_task Ex.task 100 w = (Returned true, w1)
  /\ live_instances 7 w1 = 1%nat
  /\ TaskManager.start_task Ex.task 101 w1 = (Returned false, w1).
Proof.
  assert (Hreg : registered (Ex.idle PENDING)).
  { intros i c Hi. destruct i; discriminate Hi. }
  destruct (start_task_at_most_once Ex.task 100 101 (Ex.idle PENDING) Hreg)
    as [_ [_ [_ H]]].
  apply H. reflexivity.
Defined.

(** C5. The code lets two monitors of one task run at the same time,
    because a failing monitor removes the task's handle twice. Task 7 is
    started (monitor A, coroutine 0). A cannot fetch the product page:
    [_mark_failed] marks the row, deletes the handle and awaits its
    broadcast. While A is suspended there a client starts the task: the
    endpoint finds no handle and creates monitor B (coroutine 1). A resumes
    and ends; its [finally] clause finds a handle for task 7, the one of B,
    and deletes it. The client starts the task once more: the endpoint finds
    no handle again and creates monitor C (coroutine 2). B and C are both
    live. *)
Theorem two_live_monitors_after_failed_monitor :
  let w0 := snd (TaskManager.start_task Ex.task 999 (Ex.idle PENDING)) in
  let a_fails :=
    TaskManager.monitor_start 7 Ex.url 2 5 Ex.session_offline 1000
      (TaskManager.mkMState w0 (TaskManager.mkLocals 0 None false)) in
  let w1 := with_coros (alter (set_coro_state (Suspended AwaitBroadcast)) 0%nat)
              (TaskManager.st_world (snd a_fails)) in
  let start_b := Api.start_task 7 1001 w1 in
  let w3 := TaskManager.monitor_returns 0 (snd start_b) in
  let start_c := Api.start_task 7 1002 w3 in
  let w4 := snd start_c in
  live_instances 7 w0 = 1%nat
  /\ fst a_fails = Returned None
  /\ active_tasks w1 !! 7 = None
  /\ fst start_b = Returned Api.TaskStarted
  /\ active_tasks (snd start_b) !! 7 = Some 1%nat
  /\ active_tasks w3 !! 7 = None
  /\ fst start_c = Returned Api.TaskStarted
  /\ coro_state <$> coros w4 = [Finished false; NotStarted; NotStarted]
  /\ coro_task_id <$> coros w4 = [7; 7; 7]
  /\ live_instances 7 w4 = 2%nat.
Proof. vm_compute. repeat split; reflexivity. Qed.

(** ** Reconciliation at the start endpoint *)

(** C6. When the row of a task says [running] and the task id has no live
    handle, the start endpoint does not refuse. It first corrects the row:
    [pending] is written and committed, which gives a state [w_pending] in
    which the row says [pending] and the task has no handle. From that state
    it starts the task: the manager writes [running] and the start time to
    the row, creates and registers a new monitor coroutine and broadcasts;
    the answer is "Task started". *)
Theorem start_endpoint_heals_stale_running (task_id : Z) (now : Time) (w : World)
    (t : Task) :
  tasks (db w) !! task_id = Some t ->
  id t = task_id ->
  status t = RUNNING ->
  no_live_handle w task_id ->
  exists w_pending w',
    tasks (db w_pending) !! task_id = Some (set_status PENDING t)
    /\ active_tasks w_pending !! task_id = None
    /\ trace w_pending = (trace w ++ [EvCommitStatus task_id PENDING])%list
    /\ TaskManager.start_task t now w_pending = (Returned true, w')
    /\ Api.start_task task_id now w = (Returned Api.TaskStarted, w')
    /\ tasks (db w') !! task_id
       = Some (set_started_at (Some now) (set_status RUNNING t))
    /\ trace w'
       = (trace w ++ [ EvCommitStatus task_id PENDING;
                       EvCommitStatus task_id RUNNING;
                       EvBroadcast (TaskUpdate task_id RUNNING None) ])%list
    /\ coros w'
       = (coros w ++ [mkCoro task_id (product_url t) (quantity t) (num_threads t)
                             NotStarted])%list
    /\ active_tasks w' !! task_id = Some (length (coros w)).
Proof.
  intros Hrow Hid Hstatus Hstale. subst task_id.
  set (heal := fun w0 : World =>
         with_trace (fun tr => (tr ++ [EvCommitStatus (id t) PENDING])%list)
           (with_db (db_update_task (id t) (fun t0 => set_status PENDING t0)) w0)).
  assert (Hfinal : set_started_at (Some now) (set_status RUNNING (set_status PENDING t))
                   = set_started_at (Some now) (set_status RUNNING t)) by reflexivity.
  unfold no_live_handle in Hstale.
  destruct (active_tasks w !! id t) as [h|] eqn:Hact.
  - exists (heal (with_task_data (delete (id t))
                    (with_active_tasks (delete (id t)) w))).
    unfold Api.start_task, TaskManager.start_task, TaskManager.del_active_task.
    se_unfold. rewrite Hrow. rewrite Hact, Hstale. simpl. rewrite Hact. simpl.
    rewrite Hstatus. simpl.
    rewrite !lookup_delete_eq. simpl. rewrite Hrow. simpl.
    rewrite !lookup_delete_eq. simpl. rewrite !lookup_alter_eq, Hrow. simpl.
    eexists. split; [reflexivity|]. split; [reflexivity|]. split; [reflexivity|].
    split; [reflexivity|]. split; [reflexivity|]. simpl.
    split; [rewrite !lookup_alter_eq, Hrow; reflexivity|].
    split; [rewrite <- !app_assoc; reflexivity|].
    split; [reflexivity|]. apply lookup_insert_eq.
  - exists (heal w).
    unfold Api.start_task, TaskManager.start_task, TaskManager.del_active_task.
    se_unfold. rewrite Hrow. simpl. rewrite Hact. simpl.
    rewrite Hstatus. simpl. rewrite Hact. simpl. rewrite Hrow. simpl.
    rewrite Hact. simpl. rewrite !lookup_alter_eq, Hrow. simpl.
    eexists. split; [reflexivity|]. split; [reflexivity|]. split; [reflexivity|].
    split; [reflexivity|]. split; [reflexivity|]. simpl.
    split; [rewrite !lookup_alter_eq, Hrow; reflexivity|].
    split; [rewrite <- !app_assoc; reflexivity|].
    split; [reflexivity|]. apply lookup_insert_eq.
Qed.

(** The row of task 7 says [running] although no monitor exists. *)
Lemma start_endpoint_heals_stale_running_witness :
  let w := Ex.idle RUNNING in
  exists w_pending w',
    status <$> tasks (db w_pending) !! 7 = Some PENDING
    /\ TaskManager.start_task (set_status RUNNING Ex.task) 100 w_pending
       = (Returned true, w')
    /\ Api.start_task 7 100 w = (Returned Api.TaskStarted, w')
    /\ status <$> tasks (db w') !! 7 = Some RUNNING
    /\ started_at <$> tasks (db w') !! 7 = Some (Some 100)
    /\ coros w' = [mkCoro 7 Ex.url 2 5 NotStarted]
    /\ active_tasks w' !! 7 = Some 0%nat.
Proof.
  destruct (start_endpoint_heals_stale_running 7 100 (Ex.idle RUNNING)
              (set_status RUNNING Ex.task)
              ltac:(vm_compute; reflexivity) eq_refl eq_refl
              ltac:(vm_compute; exact I))
    as [w_pending [w' [Hp [_ [_ [Hstart [Hrun [Hrow [_ [Hc Ha]]]]]]]]]].
  exists w_pending, w'. split; [rewrite Hp; reflexivity|].
  split; [exact Hstart|]. split; [exact Hrun|].
  split; [rewrite Hrow; reflexivity|]. split; [rewrite Hrow; reflexivity|].
  split; [exact Hc|exact Ha].
Defined.

(** ** Cancellation *)


Lemma cancelled_db (handle : nat) (w : World) : db (TaskManager.cancelled handle w) = db w.
Proof.
  unfold TaskManager.cancelled. destruct (coros w !! handle) as [c|]; [|reflexivity].
  destruct (coro_state c); reflexivity.
Qed.

(** [stop_task] on a task that has a handle, step by step. *)
Lemma stop_task_active (task_id : Z) (now : Time) (w : World) (handle : nat) :
  active_tasks w !! task_id = Some handle ->
  TaskManager.stop_task task_id now w =
    let w0 := TaskManager.cancelled handle w in
    match active_tasks w0 !! task_id with
    | None => (Raised (KeyError (Bot.str_of_int task_id)), w0)
    | Some _ =>
        let w1 := with_task_data (delete task_id)
                    (with_active_tasks (delete task_id) w0) in
        match tasks (db w) !! task_id with
        | Some task =>
            if status_eqb (status task) RUNNING then
              (Returned true,
               with_trace (fun tr => (tr ++ [EvCommitStatus task_id STOPPED;
                                              EvBroadcast (TaskUpdate task_id STOPPED None)])%list)
                 (with_db (db_update_task task_id
                    (fun t => set_completed_at (Some now) (set_status STOPPED t))) w1))
            else (Returned true, w1)
        | None => (Returned true, w1)
        end
    end.
Proof.
  intros Hact. unfold TaskManager.stop_task, TaskManager.cancel_and_await,
    TaskManager.del_active_task.
  se_unfold. simpl. rewrite Hact. simpl.
  pose proof (cancelled_db handle w) as Hdb.
  destruct (active_tasks (TaskManager.cancelled handle w) !! task_id); simpl;
    [|reflexivity].
  rewrite Hdb. destruct (tasks (db w) !! task_id) as [t|] eqn:Hrow; simpl;
    [|reflexivity].
  destruct (status_eqb (status t) RUNNING); simpl; [|reflexivity].
  rewrite Hdb, Hrow. simpl. unfold with_trace. simpl.
  rewrite <- app_assoc. reflexivity.
Qed.

(** The re-cart block is its statements before the sleep, the sleep, and
    its statements after the sleep. *)
Lemma recart_cycle_hold_resume (task_id : Z) (now : Time) (st : TaskManager.MState) :
  TaskManager.recart_cycle task_id now st
  = (TaskManager.recart_hold task_id now;;
     TaskManager.lift (TaskManager.emit (EvSleep (inject_Z (cart_hold_time settings))));;
     TaskManager.recart_resume task_id) st.
Proof.
  unfold TaskManager.recart_cycle, TaskManager.recart_hold, TaskManager.recart_resume.
  se_unfold. simpl.
  destruct (tasks (db (TaskManager.st_world st)) !! task_id) as [t|] eqn:Hrow; simpl;
    rewrite ?lookup_alter_eq, ?Hrow; simpl; reflexivity.
Qed.

(** The statements of the re-cart block that precede the sleep leave the
    row [success]: the state in which a monitor holds a cart. *)
Lemma recart_hold_row (task_id : Z) (now : Time) (st : TaskManager.MState) :
  fst (TaskManager.recart_hold task_id now st) = Returned tt
  /\ tasks (db (TaskManager.st_world (snd (TaskManager.recart_hold task_id now st))))
       !! task_id
     = (fun t => set_completed_at (Some now) (set_status SUCCESS t))
         <$> tasks (db (TaskManager.st_world st)) !! task_id.
Proof.
  unfold TaskManager.recart_hold. se_unfold. simpl.
  destruct (tasks (db (TaskManager.st_world st)) !! task_id) as [t|] eqn:Hrow; simpl.
  - split; [reflexivity|]. rewrite lookup_alter_eq, Hrow. reflexivity.
  - split; [reflexivity|exact Hrow].
Qed.



(** ** Phantom carts *)

(** A negative indicator on the checkout page decides, whatever else the
    page contains. *)
Lemma verify_negative_overrides (session : Bot.Session) (checkout_url : Bot.JsonVal)
    (url : string) (page : Bot.Response) (indicator : string) :
  Bot.checkout_target checkout_url = Bot.JStr url ->
  Bot.session_get session url = Returned page ->
  Bot.status_code page = 200 ->
  In indicator Bot.error_indicators ->
  str_in indicator (Bot.text page) = true ->
  Bot._verify_cart_at_checkout session checkout_url = Returned false.
Proof.
  intros Ht Hget Hst Hin Hstr. unfold Bot._verify_cart_at_checkout.
  rewrite Ht, Hget, Hst. simpl Z.eqb. cbv iota.
  assert (existsb (fun i => str_in i (Bot.text page)) Bot.error_indicators = true) as ->.
  { apply existsb_exists. exists indicator. split; assumption. }
  reflexivity.
Qed.

(** C3. When the vendor answers the add-to-cart call with success and quote
    items, and the checkout page then shows a negative indicator, the result
    of [add_to_cart] is [(False, None, "Cart not valid at checkout (phantom
    cart)")] whatever positive indicators the page also shows, and the
    attempt returns [False] without adding a row to [cart_sessions]. *)
Theorem phantom_cart_is_rejected (session : Bot.Session)
    (event_id date time_short variation option_number : string) (quantity : Z)
    (product_url : string) (d : list (string * Bot.JsonVal)) :
  vendor_reports_success session event_id date time_short variation option_number
    quantity product_url d ->
  quote_items_reported d ->
  checkout_shows_negative session d ->
  Bot.add_to_cart session event_id date time_short variation option_number quantity
    product_url
  = Returned (false, None, Some (Bot.JStr "Cart not valid at checkout (phantom cart)"))
  /\ forall task_id total_time token now st,
       exists st',
         TaskManager._attempt_atc task_id session event_id date time_short variation
           option_number quantity product_url total_time token now st
         = (Returned false, st')
         /\ cart_sessions (db (TaskManager.st_world st'))
            = cart_sessions (db (TaskManager.st_world st)).
Proof.
  intros [response [Hpost [Hstatus [Hjson Hsucc]]]] [Hids [Hqtys [n [Hint Hn]]]]
         [url [page [indicator [Ht [Hget [Hst [Hin Hstr]]]]]]].
  assert (Hatc : Bot.add_to_cart session event_id date time_short variation
                   option_number quantity product_url
                 = Returned (false, None,
                     Some (Bot.JStr "Cart not valid at checkout (phantom cart)"))).
  { unfold Bot.add_to_cart. rewrite Hpost. cbn [mbind Outcome_bind].
    rewrite Hstatus. simpl Z.eqb. cbv iota. rewrite Hjson, Hsucc. cbn [Bot.is_True].
    unfold Bot.atc_on_vendor_success. rewrite Hids, Hqtys, Hint.
    cbn [andb mbind Outcome_bind mret Outcome_ret].
    assert ((0 <? n) = true) as -> by (apply Z.ltb_lt; exact Hn).
    rewrite (verify_negative_overrides session _ url page indicator Ht Hget Hst Hin Hstr).
    reflexivity. }
  split; [exact Hatc|].
  intros task_id total_time token now st.
  unfold TaskManager._attempt_atc. rewrite Hatc. se_unfold. simpl.
  eexists. split; reflexivity.
Qed.

(** The checkout page says both "Zusammenfassung" and "ausverkauft". *)
Lemma phantom_cart_is_rejected_witness :
  Bot.add_to_cart Ex.session_phantom "327097" "2024-05-01" "10:00" "v1" "55" 2 Ex.url
  = Returned (false, None, Some (Bot.JStr "Cart not valid at checkout (phantom cart)"))
  /\ exists st',
       TaskManager._attempt_atc 7 Ex.session_phantom "327097" "2024-05-01" "10:00" "v1"
         "55" 2 Ex.url 3 "tok" 1000 (Ex.state RUNNING)
       = (Returned false, st')
       /\ cart_sessions (db (TaskManager.st_world st')) = [].
Proof.
  assert (H1 : vendor_reports_success Ex.session_phantom "327097" "2024-05-01" "10:00"
                 "v1" "55" 2 Ex.url Ex.vendor_ok).
  { eexists. repeat split; reflexivity. }
  assert (H2 : quote_items_reported Ex.vendor_ok).
  { repeat split; try reflexivity. exists 2. split; [reflexivity|lia]. }
  assert (H3 : checkout_shows_negative Ex.session_phantom Ex.vendor_ok).
  { exists "https://audidefuehrungen2.regiondo.de/checkout/cart".
    eexists. exists "ausverkauft".
    repeat split; try reflexivity. simpl. tauto. }
  destruct (phantom_cart_is_rejected Ex.session_phantom "327097" "2024-05-01" "10:00"
              "v1" "55" 2 Ex.url Ex.vendor_ok H1 H2 H3) as [Hatc Hattempt].
  split; [exact Hatc|].
  destruct (Hattempt 7 3 "tok" 1000 (Ex.state RUNNING)) as [st' [Hrun Hcs]].
  exists st'. split; [exact Hrun|]. rewrite Hcs. reflexivity.
Defined.

(** ** Resolving the product identifiers *)

(** C7, as the code has it. [extract_event_details] raises no exception of
    its own. A transport failure, like any other [Exception], is caught and
    answered with [(None, None)], as is a response whose status is not 200.
    On a 200 response an identifier whose marker is missing is [None], so
    that the caller's test [not event_id or not ticket_id] fails the task.
    Only a cancellation delivered during the request propagates. *)
Theorem extract_event_details_never_raises_on_failure (session : Bot.Session)
    (product_url : string) :
  match Bot.session_get session product_url with
  | Raised e =>
      Bot.extract_event_details session product_url
      = if Bot.is_Exception e then Returned (None, None) else Raised e
  | Returned response =>
      exists event_id ticket_id,
        Bot.extract_event_details session product_url = Returned (event_id, ticket_id)
        /\ (Bot.status_code response <> 200 -> event_id = None /\ ticket_id = None)
        /\ (marker_present (Bot.find_form (Bot.resp_soup response)) = false ->
            event_id = None)
        /\ (marker_present (Bot.find_sku_meta (Bot.resp_soup response)) = false ->
            ticket_id = None)
        /\ (Bot.status_code response <> 200
            \/ marker_present (Bot.find_form (Bot.resp_soup response)) = false
            \/ marker_present (Bot.find_sku_meta (Bot.resp_soup response)) = false ->
            TaskManager.ids_missing (event_id, ticket_id) = true)
  end.
Proof.
  unfold Bot.extract_event_details.
  destruct (Bot.session_get session product_url) as [response|e]; [|reflexivity].
  cbn [Bot.try_except].
  destruct (Bot.status_code response =? 200) eqn:Hst; cbn [negb].
  - apply Z.eqb_eq in Hst.
    set (form := Bot.find_form (Bot.resp_soup response)).
    set (sku := Bot.find_sku_meta (Bot.resp_soup response)).
    eexists. eexists. split; [reflexivity|].
    split; [intros Hne; contradiction|].
    assert (Hform : marker_present form = false ->
              match form with
              | Some (Some action) =>
                  if str_truthy action then Some (Bot.split_last "/" action) else None
              | _ => None
              end = None).
    { destruct form as [[action|]|]; simpl; try reflexivity. intros ->. reflexivity. }
    assert (Hsku : marker_present sku = false ->
              match sku with
              | Some (Some content) =>
                  if str_truthy content then Some (Bot.split_last "-" content) else None
              | _ => None
              end = None).
    { destruct sku as [[content|]|]; simpl; try reflexivity. intros ->. reflexivity. }
    split; [exact Hform|]. split; [exact Hsku|].
    intros [Hne|[Hf|Hs]]; [contradiction| |]; unfold TaskManager.ids_missing; simpl.
    + rewrite (Hform Hf). reflexivity.
    + rewrite (Hsku Hs). apply orb_true_r.
  - exists None, None. split; [reflexivity|]. repeat split; reflexivity.
Qed.

(** C7, as stated, fails on a transport failure: the request does not get
    through, and the function returns [(None, None)] instead of raising. *)
Lemma extract_event_details_swallows_transport_failure :
  Bot.session_get Ex.session_offline Ex.url
  = Raised (ConnectionError "Connection timed out")
  /\ Bot.extract_event_details Ex.session_offline Ex.url = Returned (None, None)
  /\ forall e, Bot.extract_event_details Ex.session_offline Ex.url <> Raised e.
Proof.
  split; [reflexivity|]. split; [reflexivity|]. intros e H. discriminate H.
Qed.

(** ** The scenario of the specification *)

(** Quantity 2, five threads, one slot with 3 tickets: one attempt, one cart
    session for 2 tickets, [success], the hold, [running] again, and the scan
    state reset for the next poll. *)
Example end_to_end_scenario :
  let env := Ex.env (Some [("2024-05-01", [Ex.slot 3])]) Ex.session_ok in
  let st' := snd (TaskManager.poll_iteration Ex.args env (Ex.state RUNNING)) in
  fst (TaskManager.poll_iteration Ex.args env (Ex.state RUNNING)) = Returned tt
  /\ attempts_of st' = 1%nat
  /\ map cs_quantity (cart_sessions (db (TaskManager.st_world st'))) = [2]
  /\ List.filter (fun ev => match ev with
                            | EvCommitStatus _ _ | EvSleep _ => true
                            | _ => false
                            end) (trace (TaskManager.st_world st'))
     = [ EvCommitStatus 7 SUCCESS; EvSleep (inject_Z 1020); EvCommitStatus 7 RUNNING;
         EvSleep (1 # 10) ]
  /\ status <$> tasks (db (TaskManager.st_world st')) !! 7 = Some RUNNING
  /\ TaskManager.st_locals st' = TaskManager.mkLocals 0 None false.
Proof. vm_compute. repeat split; reflexivity. Qed.

(** * Further properties of [app/bot/core.py] *)

(** ** Identifiers are last segments *)

Lemma str_in_sep_cons (sep c : ascii) (s : string) :
  str_in (String sep EmptyString) (String c s)
  = Ascii.eqb sep c || str_in (String sep EmptyString) s.
Proof.
  simpl. destruct (ascii_dec sep c) as [->|Hne].
  - rewrite Ascii.eqb_refl. destruct s; reflexivity.
  - destruct (Ascii.eqb_spec sep c) as [Heq|_]; [contradiction|]. reflexivity.
Qed.

Lemma str_in_sep_app (sep : ascii) (p x : string) :
  str_in (String sep EmptyString) (p ++ String sep x) = true.
Proof.
  induction p as [|c p IH].
  - change (EmptyString ++ String sep x)%string with (String sep x).
    rewrite str_in_sep_cons, Ascii.eqb_refl. reflexivity.
  - change (String c p ++ String sep x)%string with (String c (p ++ String sep x)).
    rewrite str_in_sep_cons, IH. apply orb_true_r.
Qed.

Lemma split_last_no_sep (sep : ascii) (s : string) :
  str_in (String sep EmptyString) (Bot.split_last sep s) = false.
Proof.
  induction s as [|c s IH]; [reflexivity|].
  cbn [Bot.split_last].
  destruct (str_in (String sep EmptyString) s) eqn:Hs; [exact IH|].
  destruct (Ascii.eqb c sep) eqn:Hc; [exact Hs|].
  rewrite str_in_sep_cons, Hs, Ascii.eqb_sym, Hc. reflexivity.
Qed.

Lemma split_last_app (sep : ascii) (p x : string) :
  str_in (String sep EmptyString) x = false ->
  Bot.split_last sep (p ++ String sep x) = x.
Proof.
  intros Hx. induction p as [|c p IH].
  - change (EmptyString ++ String sep x)%string with (String sep x).
    cbn [Bot.split_last]. rewrite Hx, Ascii.eqb_refl. reflexivity.
  - change (String c p ++ String sep x)%string with (String c (p ++ String sep x)).
    cbn [Bot.split_last]. rewrite str_in_sep_app. exact IH.
Qed.

(** X1. On a page served with status 200 whose form action ends in
    [/e] and whose SKU ends in [-t], with [e] and [t] non-empty and free of
    their separator, the identifiers returned are exactly [e] and [t], and
    the monitor accepts them. *)
Theorem extract_event_details_last_segments (session : Bot.Session)
    (product_url p e q t : string) (response : Bot.Response) :
  Bot.session_get session product_url = Returned response ->
  Bot.status_code response = 200 ->
  Bot.find_form (Bot.resp_soup response) = Some (Some (p ++ String "/" e)) ->
  Bot.find_sku_meta (Bot.resp_soup response) = Some (Some (q ++ String "-" t)) ->
  str_truthy e = true -> str_in "/" e = false ->
  str_truthy t = true -> str_in "-" t = false ->
  Bot.extract_event_details session product_url = Returned (Some e, Some t)
  /\ TaskManager.ids_missing (Some e, Some t) = false.
Proof.
  intros Hget Hst Hform Hsku He Hes Ht Hts.
  unfold Bot.extract_event_details. rewrite Hget, Hst, Hform, Hsku.
  cbn [mbind Outcome_bind Bot.try_except Z.eqb Pos.eqb negb].
  assert (Hp : str_truthy (p ++ String "/" e) = true) by (destruct p; reflexivity).
  assert (Hq : str_truthy (q ++ String "-" t) = true) by (destruct q; reflexivity).
  rewrite Hp, Hq, (split_last_app "/" p e Hes), (split_last_app "-" q t Hts).
  split; [reflexivity|]. unfold TaskManager.ids_missing. simpl. rewrite He, Ht.
  reflexivity.
Qed.

Lemma extract_event_details_last_segments_witness :
  let page := Bot.mkResponse 200 ""
                None
                (Bot.mkSoup (Some (Some "/checkout/cart/add/product/327097"))
                            (Some (Some "regiondo-sku-4711"))) in
  let session := Bot.mkSession (fun _ => Returned page)
                   (fun _ _ _ => Raised (ConnectionError "unused")) [] in
  Bot.extract_event_details session Ex.url = Returned (Some "327097", Some "4711")
  /\ TaskManager.ids_missing (Some "327097", Some "4711") = false.
Proof.
  apply (extract_event_details_last_segments _ Ex.url "/checkout/cart/add/product"
           "327097" "regiondo-sku" "4711"
           (Bot.mkResponse 200 "" None
              (Bot.mkSoup (Some (Some "/checkout/cart/add/product/327097"))
                          (Some (Some "regiondo-sku-4711")))));
    reflexivity.
Defined.

(** X2. Whatever the page, an event identifier that is returned contains no
    ['/'] and a ticket identifier contains no ['-']: each is what follows the
    last separator of its marker (so a marker that ends in its separator
    gives the empty identifier, which the monitor treats as missing). *)
Theorem extract_event_details_ids_have_no_separator (session : Bot.Session)
    (product_url : string) (event_id ticket_id : option string) :
  Bot.extract_event_details session product_url = Returned (event_id, ticket_id) ->
  (forall e, event_id = Some e -> str_in "/" e = false)
  /\ (forall t, ticket_id = Some t -> str_in "-" t = false).
Proof.
  unfold Bot.extract_event_details.
  destruct (Bot.session_get session product_url) as [response|ex];
    cbn [Bot.try_except].
  - destruct (negb (Bot.status_code response =? 200)).
    + intros [= <- <-]. split; intros ? [=].
    + intros [= <- <-]. split.
      * intros e He. destruct (Bot.find_form _) as [[action|]|]; try discriminate He.
        destruct (str_truthy action); [|discriminate He].
        injection He as <-. apply split_last_no_sep.
      * intros t Ht. destruct (Bot.find_sku_meta _) as [[content|]|];
          try discriminate Ht.
        destruct (str_truthy content); [|discriminate Ht].
        injection Ht as <-. apply split_last_no_sep.
  - destruct (Bot.is_Exception ex); [|intros [=]].
    intros [= <- <-]. split; intros ? [=].
Qed.

Lemma extract_event_details_ids_have_no_separator_witness :
  let page := Bot.mkResponse 200 "" None
                (Bot.mkSoup (Some (Some "/product/327097/")) (Some (Some "sku-4711"))) in
  let session := Bot.mkSession (fun _ => Returned page)
                   (fun _ _ _ => Raised (ConnectionError "unused")) [] in
  Bot.extract_event_details session Ex.url = Returned (Some "", Some "4711")
  /\ TaskManager.ids_missing (Some "", Some "4711") = true
  /\ (forall e, Some "" = Some e -> str_in "/" e = false).
Proof.
  split; [reflexivity|]. split; [reflexivity|].
  apply (extract_event_details_ids_have_no_separator
           (Bot.mkSession
              (fun _ => Returned (Bot.mkResponse 200 "" None
                 (Bot.mkSoup (Some (Some "/product/327097/")) (Some (Some "sku-4711")))))
              (fun _ _ _ => Raised (ConnectionError "unused")) [])
           Ex.url (Some "") (Some "4711")).
  reflexivity.
Defined.

(** ** The verdict on the checkout page *)

Lemma existsb_false_forall {A} (f : A -> bool) (l : list A) :
  existsb f l = false <-> forall x, In x l -> f x = false.
Proof.
  split.
  - intros H x Hx. destruct (f x) eqn:Hfx; [|reflexivity].
    assert (existsb f l = true) by (apply existsb_exists; eauto). congruence.
  - intros H. destruct (existsb f l) eqn:He; [|reflexivity].
    apply existsb_exists in He as [x [Hx Hfx]]. rewrite (H x Hx) in Hfx. discriminate.
Qed.

(** X3. The cart is declared valid exactly when the checkout address is a
    string, the page is served with status 200, none of the five negative
    phrases occurs in it and at least one of the four positive phrases does.
    A page with neither kind of phrase, any other status and any failure of
    the request all count as invalid. *)
Theorem verify_cart_valid_iff (session : Bot.Session) (checkout_url : Bot.JsonVal) :
  Bot._verify_cart_at_checkout session checkout_url = Returned true
  <-> exists url page,
        Bot.checkout_target checkout_url = Bot.JStr url
        /\ Bot.session_get session url = Returned page
        /\ Bot.status_code page = 200
        /\ (forall i, In i Bot.error_indicators -> str_in i (Bot.text page) = false)
        /\ (exists i, In i Bot.success_indicators /\ str_in i (Bot.text page) = true).
Proof.
  unfold Bot._verify_cart_at_checkout. split.
  - destruct (Bot.checkout_target checkout_url) as [| | |url| |] eqn:Ht;
      cbn [Bot.try_except Bot.is_Exception]; try discriminate.
    destruct (Bot.session_get session url) as [page|e] eqn:Hget;
      cbn [Bot.try_except].
    + destruct (Bot.status_code page =? 200) eqn:Hst; [|discriminate].
      destruct (existsb _ Bot.error_indicators) eqn:Herr; [discriminate|].
      destruct (existsb _ Bot.success_indicators) eqn:Hok; [|discriminate].
      intros _. exists url, page. split; [reflexivity|]. split; [exact Hget|].
      split; [apply Z.eqb_eq; exact Hst|]. split.
      * apply (proj1 (existsb_false_forall _ _) Herr).
      * apply existsb_exists in Hok. exact Hok.
    + destruct (Bot.is_Exception e); discriminate.
  - intros [url [page [Ht [Hget [Hst [Herr Hok]]]]]].
    rewrite Ht, Hget, Hst. cbn [Bot.try_except Z.eqb Pos.eqb].
    rewrite (proj2 (existsb_false_forall
                      (fun indicator => str_in indicator (Bot.text page))
                      Bot.error_indicators) Herr).
    assert (existsb (fun indicator => str_in indicator (Bot.text page))
              Bot.success_indicators = true) as ->
      by (apply existsb_exists; exact Hok).
    reflexivity.
Qed.

(** ** The result of [add_to_cart] *)

Lemma atc_on_vendor_success_shape (session : Bot.Session)
    (d : list (string * Bot.JsonVal)) (success : bool) (cookie : option CookieData)
    (error : option Bot.JsonVal) :
  Bot.atc_on_vendor_success session d = Returned (success, cookie, error) ->
  if success
  then error = None /\ Bot._extract_session_cookie session = Returned cookie
       /\ quote_items_reported d
       /\ Bot._verify_cart_at_checkout session
            (default (Bot.JStr "") (Bot.dict_get "checkout_url" d)) = Returned true
  else cookie = None /\ exists msg, error = Some (Bot.JStr msg).
Proof.
  unfold Bot.atc_on_vendor_success, quote_items_reported.
  destruct (Bot.truthy (default (Bot.JStr "") (Bot.dict_get "qtm_quote_item_ids" d)))
    eqn:Hids; cbn [andb].
  - destruct (Bot.truthy (default (Bot.JInt 0) (Bot.dict_get "qtm_quote_item_qtys" d)))
      eqn:Hqty.
    + destruct (Bot.py_int _) as [n|e] eqn:Hint;
        cbn [mbind Outcome_bind mret Outcome_ret]; [|discriminate].
      destruct (0 <? n) eqn:Hn.
      * destruct (Bot._verify_cart_at_checkout session _) as [[|]|e] eqn:Hv;
          cbn [mbind Outcome_bind mret Outcome_ret].
        -- destruct (Bot._extract_session_cookie session) as [c|e] eqn:Hc;
             cbn [mbind Outcome_bind mret Outcome_ret]; [|discriminate].
           intros [= <- <- <-].
           split; [reflexivity|]. split; [reflexivity|]. split; [|reflexivity].
           split; [reflexivity|]. split; [reflexivity|].
           exists n. split; [reflexivity|]. apply Z.ltb_lt. exact Hn.
        -- intros [= <- <- <-]. split; [reflexivity|]. eauto.
        -- discriminate.
      * intros [= <- <- <-]. split; [reflexivity|]. eauto.
    + cbn [mbind Outcome_bind mret Outcome_ret]. intros [= <- <- <-].
      split; [reflexivity|]. eauto.
  - cbn [mbind Outcome_bind mret Outcome_ret]. intros [= <- <- <-].
    split; [reflexivity|]. eauto.
Qed.

Lemma opt_of_json_not_null (v : Bot.JsonVal) : Bot.opt_of_json v <> Some Bot.JNull.
Proof. destruct v; simpl; congruence. Qed.

Lemma opt_of_json_none (v : Bot.JsonVal) : Bot.opt_of_json v = None -> v = Bot.JNull.
Proof. destruct v; simpl; congruence. Qed.

Lemma atc_on_vendor_failure_shape (d : list (string * Bot.JsonVal)) (success : bool)
    (cookie : option CookieData) (error : option Bot.JsonVal) :
  Bot.atc_on_vendor_failure d = Returned (success, cookie, error) ->
  success = false /\ cookie = None /\ error <> Some Bot.JNull
  /\ (error = None -> vendor_error_null d).
Proof.
  unfold Bot.atc_on_vendor_failure, vendor_error_null.
  destruct (Bot.dict_get "messages" d) as [messages|].
  - destruct (Bot.truthy messages).
    + destruct (Bot.first_message_text messages) as [msg|e];
        cbn [mbind Outcome_bind mret Outcome_ret]; [|discriminate].
      intros [= <- <- <-]. split; [reflexivity|]. split; [reflexivity|].
      split; [apply opt_of_json_not_null|].
      intros H. apply opt_of_json_none in H. congruence.
    + destruct (Bot.dict_get "error" d) as [err|];
        cbn [mbind Outcome_bind mret Outcome_ret]; intros [= <- <- <-];
        (split; [reflexivity|]); (split; [reflexivity|]);
        (split; [first [apply opt_of_json_not_null|discriminate]|]); intros H;
        first [apply opt_of_json_none in H; congruence|discriminate H].
  - destruct (Bot.dict_get "error" d) as [err|];
      cbn [mbind Outcome_bind mret Outcome_ret]; intros [= <- <- <-];
      (split; [reflexivity|]); (split; [reflexivity|]);
      (split; [first [apply opt_of_json_not_null|discriminate]|]); intros H;
      first [apply opt_of_json_none in H; congruence|discriminate H].
Qed.

(** What the part of [add_to_cart] inside [try] returns. *)
Lemma add_to_cart_returned (session : Bot.Session)
    (event_id date time_short variation option_number : string) (quantity : Z)
    (product_url : string) (success : bool) (cookie : option CookieData)
    (error : option Bot.JsonVal) :
  Bot.add_to_cart session event_id date time_short variation option_number quantity
    product_url = Returned (success, cookie, error) ->
  if success
  then error = None /\ Bot._extract_session_cookie session = Returned cookie
       /\ exists d,
            vendor_reports_success session event_id date time_short variation
              option_number quantity product_url d
            /\ quote_items_reported d
            /\ Bot._verify_cart_at_checkout session
                 (default (Bot.JStr "") (Bot.dict_get "checkout_url" d)) = Returned true
  else cookie = None /\ error <> Some Bot.JNull
       /\ (error = None ->
           exists d,
             vendor_answered session event_id date time_short variation
               option_number quantity product_url d
             /\ vendor_error_null d).
Proof.
  unfold Bot.add_to_cart, vendor_reports_success, vendor_answered.
  destruct (Bot.session_post session _ _ _) as [response|e] eqn:Hpost;
    cbn [mbind Outcome_bind Bot.try_except].
  - destruct (Bot.status_code response =? 200) eqn:Hst.
    + destruct (Bot.resp_json response) as [[| | | | |d]|] eqn:Hjson;
        cbn [Bot.try_except Bot.is_Exception];
        try (intros [= <- <- <-]; split; [reflexivity|];
             split; [discriminate|discriminate]).
      * destruct (Bot.is_True (Bot.dict_get "success" d)) eqn:Hsucc.
        -- destruct (Bot.atc_on_vendor_success session d) as [[[s c] er]|e] eqn:Hbody;
             cbn [Bot.try_except].
           ++ intros [= <- <- <-].
              pose proof (atc_on_vendor_success_shape session d s c er Hbody) as H.
              destruct s.
              ** destruct H as [He [Hc [Hq Hv]]]. split; [exact He|]. split; [exact Hc|].
                 exists d. split; [|split; assumption].
                 exists response. split; [reflexivity|].
                 split; [apply Z.eqb_eq; exact Hst|]. split; [exact Hjson|].
                 destruct (Bot.dict_get "success" d) as [[|[|]| | | |]|];
                   try discriminate Hsucc. reflexivity.
              ** destruct H as [Hc [msg ->]]. split; [exact Hc|].
                 split; discriminate.
           ++ destruct (Bot.is_Exception e); [|discriminate].
              intros [= <- <- <-]. split; [reflexivity|]. split; discriminate.
        -- destruct (Bot.atc_on_vendor_failure d) as [[[s c] er]|e] eqn:Hbody;
             cbn [Bot.try_except].
           ++ intros [= <- <- <-].
              destruct (atc_on_vendor_failure_shape d s c er Hbody)
                as [-> [Hc [Hnn Hnull]]].
              split; [exact Hc|]. split; [exact Hnn|].
              intros Hnone. exists d. split; [|exact (Hnull Hnone)].
              exists response. split; [reflexivity|].
              split; [apply Z.eqb_eq; exact Hst|]. exact Hjson.
           ++ destruct (Bot.is_Exception e); [|discriminate].
              intros [= <- <- <-]. split; [reflexivity|]. split; discriminate.
    + cbn [mret Outcome_ret Bot.try_except]. intros [= <- <- <-].
      split; [reflexivity|]. split; discriminate.
  - destruct (Bot.is_Exception e); [|discriminate].
    intros [= <- <- <-]. split; [reflexivity|]. split; discriminate.
Qed.

(** X4. [add_to_cart] raises no [Exception]: whatever the session answers,
    it returns a triple, unless a cancellation arrives during a request. A
    triple with [success = True] carries the cookie taken from the session's
    jar and no error message. One with [success = False] carries no cookie;
    its error message is [None] only when the vendor answered the POST with
    status 200 and sent [null] as its own message, and is never a [null]
    otherwise. *)
Theorem add_to_cart_result_shape (session : Bot.Session)
    (event_id date time_short variation option_number : string) (quantity : Z)
    (product_url : string) :
  match Bot.add_to_cart session event_id date time_short variation option_number
          quantity product_url with
  | Returned (true, cookie, error) =>
      error = None /\ Bot._extract_session_cookie session = Returned cookie
  | Returned (false, cookie, error) =>
      cookie = None /\ error <> Some Bot.JNull
      /\ (error = None ->
          exists d,
            vendor_answered session event_id date time_short variation
              option_number quantity product_url d
            /\ vendor_error_null d)
  | Raised e => e = CancelledError
  end.
Proof.
  destruct (Bot.add_to_cart session event_id date time_short variation option_number
              quantity product_url) as [[[success cookie] error]|e] eqn:Hatc.
  - pose proof (add_to_cart_returned _ _ _ _ _ _ _ _ _ _ _ Hatc) as H.
    destruct success; [|exact H]. destruct H as [He [Hc _]]. split; assumption.
  - revert Hatc. unfold Bot.add_to_cart, Bot.try_except.
    destruct (mbind _ _) as [r|e']; [discriminate|].
    destruct e'; cbn [Bot.is_Exception]; try discriminate. intros [= <-]. reflexivity.
Qed.

(** X5. [add_to_cart] reports success only for a verified cart: the vendor
    answered the POST with status 200 and ["success": true], named quote
    items in a positive quantity, and the checkout page fetched afterwards on
    the same session was judged valid. *)
Theorem add_to_cart_success_is_verified (session : Bot.Session)
    (event_id date time_short variation option_number : string) (quantity : Z)
    (product_url : string) (cookie : option CookieData) (error : option Bot.JsonVal) :
  Bot.add_to_cart session event_id date time_short variation option_number quantity
    product_url = Returned (true, cookie, error) ->
  exists d,
    vendor_reports_success session event_id date time_short variation option_number
      quantity product_url d
    /\ quote_items_reported d
    /\ Bot._verify_cart_at_checkout session
         (default (Bot.JStr "") (Bot.dict_get "checkout_url" d)) = Returned true.
Proof.
  intros Hatc. pose proof (add_to_cart_returned _ _ _ _ _ _ _ _ _ _ _ Hatc) as H.
  destruct H as [_ [_ H]]. exact H.
Qed.

Lemma add_to_cart_success_is_verified_witness :
  exists d,
    vendor_reports_success Ex.session_ok "327097" "2024-05-01" "10:00" "v1" "55" 2
      Ex.url d
    /\ quote_items_reported d
    /\ Bot._verify_cart_at_checkout Ex.session_ok
         (default (Bot.JStr "") (Bot.dict_get "checkout_url" d)) = Returned true.
Proof.
  apply (add_to_cart_success_is_verified Ex.session_ok "327097" "2024-05-01" "10:00"
           "v1" "55" 2 Ex.url (Some (mkCookie "frontend" "c0ffee"
                                       "audidefuehrungen2.regiondo.de")) None).
  reflexivity.
Defined.

(** ** The session cookie *)



(** * Further properties of [app/bot/monitor.py] *)

(** ** What the loop leaves alone *)

Section MonitorSteps.

Variable P : Event -> Prop.
Variables task_id quantity : Z.
Hypothesis P_not_backoff : forall ev, is_backoff ev = false -> P ev.

Local Abbreviation extends := (monitor_extends P task_id quantity).
Local Abbreviation steps := (monitor_steps P task_id quantity).

Lemma extends_refl (st : TaskManager.MState) : extends st st.
Proof.
  constructor; try reflexivity; try tauto.
  - exists []. split; [rewrite app_nil_r; reflexivity|constructor].
  - exists []. split; [rewrite app_nil_r; reflexivity|constructor].
Qed.

Lemma extends_trans (a b c : TaskManager.MState) :
  extends a b -> extends b c -> extends a c.
Proof.
  intros [A1 A2 A3 A4 A5 A6 A7 [n1 [A8 A8']] [e1 [A9 A9']]]
         [B1 B2 B3 B4 B5 B6 B7 [n2 [B8 B8']] [e2 [B9 B9']]].
  constructor; try congruence.
  - intros other Hne. rewrite (B5 other Hne). apply A5. exact Hne.
  - rewrite B6. exact A6.
  - auto.
  - exists (n1 ++ n2)%list. split; [rewrite B8, A8, app_assoc; reflexivity|].
    apply Forall_app. split; assumption.
  - exists (e1 ++ e2)%list. split; [rewrite B9, A9, app_assoc; reflexivity|].
    apply Forall_app. split; assumption.
Qed.

Lemma steps_ret {A} (a : A) : steps (mret a : TaskManager.M A).
Proof. intros st. apply extends_refl. Qed.

Lemma steps_bind {A B} (c : TaskManager.M A) (k : A -> TaskManager.M B) :
  steps c -> (forall a, steps (k a)) -> steps (c ≫= k).
Proof.
  intros Hc Hk st. unfold mbind, SE_bind. specialize (Hc st).
  destruct (c st) as [[a|e] st1]; simpl in *; [|exact Hc].
  eapply extends_trans; [exact Hc|apply Hk].
Qed.

Lemma steps_outcome {A} (o : Outcome A) : steps (se_outcome o : TaskManager.M A).
Proof. intros st. apply extends_refl. Qed.

Lemma steps_raise {A} (e : PyExn) : steps (se_raise e : TaskManager.M A).
Proof. intros st. apply extends_refl. Qed.

Lemma steps_get_locals : steps TaskManager.get_locals.
Proof. intros st. apply extends_refl. Qed.

Lemma steps_set_locals (f : TaskManager.Locals -> TaskManager.Locals) :
  steps (TaskManager.set_locals f).
Proof.
  intros st. constructor; try reflexivity; try tauto.
  - exists []. split; [rewrite app_nil_r; reflexivity|constructor].
  - exists []. split; [rewrite app_nil_r; reflexivity|constructor].
Qed.

Lemma steps_emit_P (ev : Event) :
  P ev -> steps (TaskManager.lift (TaskManager.emit ev)).
Proof.
  intros Hev st. constructor; try reflexivity; try tauto.
  - exists []. split; [rewrite app_nil_r; reflexivity|constructor].
  - exists [ev]. split; [reflexivity|]. constructor; [auto|constructor].
Qed.

Lemma steps_emit (ev : Event) :
  is_backoff ev = false -> steps (TaskManager.lift (TaskManager.emit ev)).
Proof. intros Hev. apply steps_emit_P, P_not_backoff, Hev. Qed.

Lemma steps_log (level : string) (msg : LogMsg) :
  steps (TaskManager.lift (TaskManager._log task_id level msg)).
Proof. apply steps_emit. reflexivity. Qed.

Lemma steps_broadcast (b : Broadcast) :
  steps (TaskManager.lift (TaskManager.broadcast b)).
Proof. apply steps_emit. reflexivity. Qed.

(** A write to the task's own row that keeps its status. *)
Lemma steps_update_row (f : Task -> Task) :
  (forall t, status (f t) = status t) ->
  steps (TaskManager.lift (se_modify (with_db (db_update_task task_id f)))).
Proof.
  intros Hf st. constructor; simpl; try reflexivity.
  - intros other Hne. apply lookup_alter_ne. congruence.
  - rewrite lookup_alter_eq, <- !not_eq_None_Some.
    destruct (tasks (db (TaskManager.st_world st)) !! task_id); simpl; split; congruence.
  - rewrite lookup_alter_eq.
    destruct (tasks (db (TaskManager.st_world st)) !! task_id) as [t|]; simpl;
      [|discriminate].
    rewrite Hf. tauto.
  - exists []. split; [rewrite app_nil_r; reflexivity|constructor].
  - exists []. split; [rewrite app_nil_r; reflexivity|constructor].
Qed.

Lemma steps_commit_scan_info (n total : Z) (now : Time) :
  steps (TaskManager.lift (TaskManager.commit_scan_info task_id n total now)).
Proof.
  intros st.
  pose proof (steps_update_row (set_scan_info n total now) (fun _ => eq_refl) st)
    as Hwrite.
  unfold TaskManager.lift, TaskManager.commit_scan_info in *. se_unfold.
  destruct (tasks (db (TaskManager.st_world st)) !! task_id) eqn:Hrow; simpl;
    [destruct (TaskManager.fits_integer total); simpl; [exact Hwrite|]|];
    (constructor; simpl; try reflexivity; try tauto;
     exists []; (split; [rewrite app_nil_r; reflexivity|constructor])).
Qed.

Lemma steps_recart_cycle (now : Time) : steps (TaskManager.recart_cycle task_id now).
Proof.
  intros st. unfold TaskManager.recart_cycle. se_unfold. simpl.
  destruct (tasks (db (TaskManager.st_world st)) !! task_id) as [t|] eqn:Hrow; simpl.
  - rewrite lookup_alter_eq, Hrow. simpl.
    constructor; simpl; try reflexivity.
    + intros other Hne. rewrite !lookup_alter_ne by congruence. reflexivity.
    + rewrite !lookup_alter_eq, Hrow. simpl. split; eauto.
    + intros _. rewrite !lookup_alter_eq, Hrow. reflexivity.
    + exists []. split; [rewrite app_nil_r; reflexivity|constructor].
    + eexists. split; [rewrite <- !app_assoc; reflexivity|].
      repeat (constructor; [apply P_not_backoff; reflexivity|]). constructor.
  - rewrite Hrow. simpl. constructor; simpl; try reflexivity; try tauto.
    + exists []. split; [rewrite app_nil_r; reflexivity|constructor].
    + eexists. split; [rewrite <- !app_assoc; reflexivity|].
      repeat (constructor; [apply P_not_backoff; reflexivity|]). constructor.
Qed.

Lemma steps_attempt_atc (bot : Bot.Session)
    (event_id date time_short variation option_number product_url : string)
    (total_time : Time) (token : string) (now : Time) :
  steps (TaskManager._attempt_atc task_id bot event_id date time_short variation
           option_number quantity product_url total_time token now).
Proof.
  intros st. unfold TaskManager._attempt_atc. se_unfold.
  destruct (Bot.add_to_cart _ _ _ _ _ _ _ _) as [[[success cookie] error]|e];
    [|apply extends_refl].
  destruct success, cookie as [cookie|], error as [err|]; simpl;
    try destruct (Bot.truthy err); simpl;
    try apply extends_refl;
    constructor; simpl; try reflexivity; try tauto;
    try (exists []; split; [rewrite app_nil_r; reflexivity|constructor]);
    try (eexists; split; [rewrite <- ?app_assoc; reflexivity|];
         repeat (constructor; [first [apply P_not_backoff; reflexivity
                                     | split; reflexivity]|]); constructor).
Qed.

Lemma steps_gather (attempts : list (TaskManager.M bool)) :
  Forall (fun c => steps c) attempts -> steps (TaskManager.gather attempts).
Proof.
  intros Hall st. unfold TaskManager.gather.
  enough (H : extends st (snd (TaskManager.gather_run attempts st))).
  { destruct (TaskManager.gather_run attempts st). exact H. }
  revert st. induction Hall as [|c cs Hc _ IH]; intros st; simpl;
    [apply extends_refl|].
  specialize (Hc st). destruct (c st) as [r st1]. simpl in Hc.
  specialize (IH st1). destruct (TaskManager.gather_run cs st1) as [rs st2].
  simpl in *. eapply extends_trans; eassumption.
Qed.

End MonitorSteps.

Section LoopSteps.

Variable P : Event -> Prop.
Hypothesis P_not_backoff : forall ev, is_backoff ev = false -> P ev.
Variable args : TaskManager.MonitorArgs.
Variable env : TaskManager.PollEnv.

Local Abbreviation steps :=
  (monitor_steps P (TaskManager.a_task_id args) (TaskManager.a_quantity args)).

Lemma steps_race_attempts (date time_short variation option_number : string) (n : Z) :
  Forall (fun c => steps c)
    (TaskManager.race_attempts args env date time_short variation option_number n).
Proof.
  unfold TaskManager.race_attempts. apply List.Forall_forall. intros c Hin.
  apply in_map_iff in Hin as [i [<- _]].
  apply steps_bind; [apply steps_emit; [exact P_not_backoff|reflexivity]|].
  intros _. apply steps_attempt_atc. exact P_not_backoff.
Qed.

Lemma steps_after_race (now : Time) (results : list (Outcome bool)) :
  steps (TaskManager.after_race (TaskManager.a_task_id args) now results).
Proof.
  unfold TaskManager.after_race. destruct (TaskManager.any_true results).
  - apply steps_bind; [apply steps_recart_cycle; exact P_not_backoff|].
    intros _. apply steps_ret.
  - apply steps_ret.
Qed.

Lemma steps_run_race (date time_short variation option_number : string) (A : Z) :
  steps (TaskManager.run_race args env date time_short variation option_number A).
Proof.
  unfold TaskManager.run_race.
  apply steps_bind; [apply steps_outcome|]. intros m.
  apply steps_bind; [apply steps_log; exact P_not_backoff|]. intros _.
  apply steps_bind; [apply steps_gather, steps_race_attempts|]. intros results.
  apply steps_after_race.
Qed.

Lemma steps_process_tickets (date : string) (tickets : list Ticket) :
  steps (TaskManager.process_tickets args env date tickets).
Proof.
  induction tickets as [|ticket rest IH]; [apply steps_ret|].
  cbn [TaskManager.process_tickets].
  apply steps_bind; [apply steps_outcome|]. intros q.
  destruct (json_number q) as [qty|]; [|apply steps_raise].
  destruct (TaskManager.a_quantity args <=? qty); [|exact IH].
  apply steps_bind; [apply steps_outcome|]. intros time.
  apply steps_bind; [apply steps_log; exact P_not_backoff|]. intros _.
  apply steps_bind; [apply steps_outcome|]. intros [|variation vs]; [exact IH|].
  destruct (negb (str_truthy variation)); [exact IH|].
  destruct (TaskManager.env_option_number env variation date _) as [opt|]; [|exact IH].
  destruct (str_truthy opt); [|exact IH].
  apply steps_bind; [apply steps_run_race|]. intros [|]; [exact IH|apply steps_ret].
Qed.

Lemma steps_process_dates (items : Snapshot) :
  steps (TaskManager.process_dates args env items).
Proof.
  induction items as [|[date tickets] rest IH]; [apply steps_ret|].
  cbn [TaskManager.process_dates].
  apply steps_bind; [apply steps_process_tickets|]. intros [|]; [apply steps_ret|exact IH].
Qed.

Lemma steps_scan_phase : steps (TaskManager.scan_phase args env).
Proof.
  unfold TaskManager.scan_phase.
  apply steps_bind; [apply steps_set_locals|]. intros _.
  apply steps_bind; [apply steps_get_locals|]. intros l.
  apply steps_bind; [apply steps_commit_scan_info|]. intros _.
  apply steps_bind; [apply steps_broadcast; exact P_not_backoff|]. intros _.
  apply steps_ret.
Qed.

Lemma steps_periodic_log (total : Z) : steps (TaskManager.periodic_log args total).
Proof.
  unfold TaskManager.periodic_log.
  apply steps_bind; [apply steps_get_locals|]. intros l.
  destruct (_ || _); [|apply steps_ret].
  destruct (0 <? total).
  - apply steps_bind; [apply steps_log; exact P_not_backoff|]. intros _.
    apply steps_set_locals.
  - destruct (_ || _); [|apply steps_ret].
    apply steps_bind; [apply steps_log; exact P_not_backoff|]. intros _.
    apply steps_set_locals.
Qed.

(** The processing branch of a pass. *)
Lemma steps_processing (total : Z) :
  steps (TaskManager.set_locals
           (fun l => TaskManager.set_no_tickets_logged false
                       (TaskManager.set_previous_data (TaskManager.env_data env) l));;
         TaskManager.lift (TaskManager._log (TaskManager.a_task_id args) "info"
                             (MsgChangeDetected total));;
         TaskManager.lift (TaskManager.emit
           (EvDiscordNotification (default [] (TaskManager.env_data env))
              (TaskManager.a_product_url args)));;
         TaskManager.process_dates args env (default [] (TaskManager.env_data env))).
Proof.
  apply steps_bind; [apply steps_set_locals|]. intros _.
  apply steps_bind; [apply steps_log; exact P_not_backoff|]. intros _.
  apply steps_bind; [apply steps_emit; [exact P_not_backoff|reflexivity]|]. intros _.
  apply steps_process_dates.
Qed.

End LoopSteps.

Lemma steps_poll_iteration (args : TaskManager.MonitorArgs) (env : TaskManager.PollEnv) :
  monitor_steps (fun _ => True) (TaskManager.a_task_id args) (TaskManager.a_quantity args)
    (TaskManager.poll_iteration args env).
Proof.
  unfold TaskManager.poll_iteration.
  apply steps_bind; [apply steps_scan_phase; auto|]. intros total.
  apply steps_bind; [apply steps_periodic_log; auto|]. intros _.
  apply steps_bind; [|intros _; apply steps_emit_P; exact I].
  unfold TaskManager.branch_phase.
  apply steps_bind; [apply steps_get_locals|]. intros l.
  destruct (_ && _ && _); [apply steps_processing; auto|].
  destruct (_ || _); [apply steps_emit_P; exact I|apply steps_ret].
Qed.

Lemma steps_monitor_polls (args : TaskManager.MonitorArgs)
    (envs : list TaskManager.PollEnv) :
  monitor_steps (fun _ => True) (TaskManager.a_task_id args) (TaskManager.a_quantity args)
    (TaskManager.monitor_polls args envs).
Proof.
  induction envs as [|env rest IH]; [apply steps_ret|].
  cbn [TaskManager.monitor_polls].
  apply steps_bind; [apply steps_poll_iteration|]. intros _. exact IH.
Qed.

(** X7. However many polls the loop of a monitor makes and however they
    end, it leaves [active_tasks], [task_data], the coroutines and the rows
    of all other tasks as they were, neither creates nor deletes its own
    row, and every cart session it adds carries its own task id and the
    quantity the task asked for. *)
Theorem monitor_polls_touch_only_own_task (args : TaskManager.MonitorArgs)
    (envs : list TaskManager.PollEnv) (st : TaskManager.MState) :
  let w := TaskManager.st_world st in
  let w' := TaskManager.st_world (snd (TaskManager.monitor_polls args envs st)) in
  active_tasks w' = active_tasks w
  /\ task_data w' = task_data w
  /\ coros w' = coros w
  /\ (forall other, other <> TaskManager.a_task_id args ->
        tasks (db w') !! other = tasks (db w) !! other)
  /\ (is_Some (tasks (db w') !! TaskManager.a_task_id args)
      <-> is_Some (tasks (db w) !! TaskManager.a_task_id args))
  /\ exists new,
       cart_sessions (db w') = (cart_sessions (db w) ++ new)%list
       /\ Forall (fun cs => cs_task_id cs = TaskManager.a_task_id args
                            /\ cs_quantity cs = TaskManager.a_quantity args) new.
Proof.
  destruct (steps_monitor_polls args envs st) as [H1 H2 H3 _ H5 H6 _ H8 _].
  cbv zeta. repeat split; try assumption; try apply H6.
Qed.

(** X8. A pass of the loop to which no cancellation is delivered and that
    finds the task's row [running] leaves it [running], whether the pass
    returns or raises. The row says something else only while a cart is
    held: the statements before the sleep of the hold leave it [success],
    which is the state a cancellation during the hold leaves behind, and the
    statements after the sleep write [running] again. *)
Theorem poll_iteration_keeps_running (args : TaskManager.MonitorArgs)
    (env : TaskManager.PollEnv) (now : Time) (st : TaskManager.MState) :
  let task_id := TaskManager.a_task_id args in
  let status_after (st' : TaskManager.MState) :=
    status <$> tasks (db (TaskManager.st_world st')) !! task_id in
  status_after st = Some RUNNING ->
  status_after (snd (TaskManager.poll_iteration args env st)) = Some RUNNING
  /\ status_after (snd (TaskManager.recart_hold task_id now st)) = Some SUCCESS
  /\ status_after
       (snd (TaskManager.recart_resume task_id
               (snd (TaskManager.recart_hold task_id now st)))) = Some RUNNING.
Proof.
  intros task_id status_after Hrun. subst status_after. cbv beta in *.
  split; [apply (steps_poll_iteration args env st); exact Hrun|].
  destruct (tasks (db (TaskManager.st_world st)) !! task_id) as [t|] eqn:Hrow;
    [|discriminate Hrun].
  unfold TaskManager.recart_hold, TaskManager.recart_resume. se_unfold. simpl.
  rewrite Hrow. simpl. rewrite !lookup_alter_eq, Hrow. simpl.
  split; [reflexivity|]. rewrite !lookup_alter_eq, Hrow. reflexivity.
Qed.

Lemma poll_iteration_keeps_running_witness :
  let env := Ex.env (Some [("2024-05-01", [Ex.slot 3])]) Ex.session_ok in
  let status_after (st' : TaskManager.MState) :=
    status <$> tasks (db (TaskManager.st_world st')) !! 7 in
  status_after (snd (TaskManager.poll_iteration Ex.args env (Ex.state RUNNING)))
  = Some RUNNING
  /\ status_after (snd (TaskManager.recart_hold 7 2000 (Ex.state RUNNING)))
     = Some SUCCESS.
Proof.
  destruct (poll_iteration_keeps_running Ex.args
              (Ex.env (Some [("2024-05-01", [Ex.slot 3])]) Ex.session_ok) 2000
              (Ex.state RUNNING) ltac:(vm_compute; reflexivity)) as [Hpass [Hhold _]].
  split; [exact Hpass|exact Hhold].
Defined.

(** ** When a pass backs off *)

Lemma count_backoff_app (a b : list Event) :
  count_backoff (a ++ b) = (count_backoff a + count_backoff b)%nat.
Proof. unfold count_backoff. rewrite List.filter_app, length_app. reflexivity. Qed.

Lemma count_backoff_none (evs : list Event) :
  Forall (fun ev => is_backoff ev = false) evs -> count_backoff evs = 0%nat.
Proof.
  unfold count_backoff. induction 1 as [|ev evs Hev _ IH]; [reflexivity|].
  simpl. rewrite Hev. exact IH.
Qed.

Lemma extends_count_backoff (task_id quantity : Z) (st st' : TaskManager.MState) :
  monitor_extends (fun ev => is_backoff ev = false) task_id quantity st st' ->
  count_backoff (trace (TaskManager.st_world st'))
  = count_backoff (trace (TaskManager.st_world st)).
Proof.
  intros [_ _ _ _ _ _ _ _ [evs [-> Hevs]]].
  rewrite count_backoff_app, (count_backoff_none evs Hevs). lia.
Qed.

(** X9. A pass of the loop sleeps the extra five seconds exactly when the
    poll returned [None]. An empty snapshot, an unchanged one and one without
    availability go straight to the normal scan interval, and so does a pass
    that processes a snapshot, however it ends. *)
Theorem poll_iteration_backs_off_iff_none (args : TaskManager.MonitorArgs)
    (env : TaskManager.PollEnv) (st : TaskManager.MState) :
  count_backoff (trace (TaskManager.st_world
                          (snd (TaskManager.poll_iteration args env st))))
  = (count_backoff (trace (TaskManager.st_world st))
     + if TaskManager.env_data env is None then 1 else 0)%nat.
Proof.
  set (NB := fun ev => is_backoff ev = false).
  assert (HNB : forall ev, is_backoff ev = false -> NB ev) by auto.
  unfold TaskManager.poll_iteration. unfold mbind at 1, SE_bind at 1.
  pose proof (extends_count_backoff _ _ _ _ (steps_scan_phase NB HNB args env st)) as H1.
  destruct (TaskManager.scan_phase args env st) as [[total|e] st1] eqn:Hscan;
    simpl in H1.
  2: { (* the commit of the scan failed: there was an answer *)
       destruct (TaskManager.env_data env) as [d|] eqn:Hdata; [simpl; lia|].
       exfalso. revert Hscan.
       unfold TaskManager.scan_phase, TaskManager.commit_scan_info. se_unfold.
       rewrite Hdata. simpl.
       destruct (tasks _ !! _); simpl; discriminate. }
  unfold mbind at 1, SE_bind at 1.
  pose proof (extends_count_backoff _ _ _ _
                (steps_periodic_log NB HNB args total st1)) as H2.
  destruct (TaskManager.periodic_log args total st1) as [[[]|e] st2] eqn:Hlog;
    simpl in H2.
  2: { revert Hlog. unfold TaskManager.periodic_log. se_unfold.
       destruct (_ || _); simpl; [|discriminate].
       destruct (0 <? total); simpl; [discriminate|].
       destruct (_ || _); simpl; discriminate. }
  unfold mbind at 1, SE_bind at 1. unfold TaskManager.branch_phase.
  unfold mbind at 1, SE_bind at 1. unfold TaskManager.get_locals at 1.
  destruct (TaskManager.data_truthy (TaskManager.env_data env)
            && (0 <? total)
            && negb (TaskManager.data_eqb (TaskManager.env_data env)
                       (TaskManager.l_previous_data (TaskManager.st_locals st2))))
    eqn:Hcond.
  - (* the snapshot is processed *)
    pose proof (extends_count_backoff _ _ _ _
                  (steps_processing NB HNB args env total st2)) as H3.
    assert (Hsome : TaskManager.env_data env <> None).
    { intros Hn. rewrite Hn in Hcond. discriminate Hcond. }
    destruct (TaskManager.env_data env) as [d|] eqn:Hdata; [|contradiction].
    match type of H3 with
    | context [snd (?c st2)] => destruct (c st2) as [[[]|e] st3]
    end; simpl in H3 |- *.
    + rewrite count_backoff_app. unfold count_backoff at 2. simpl. lia.
    + lia.
  - destruct (TaskManager.env_data env) as [[|kv d]|] eqn:Hdata; simpl.
    + rewrite !count_backoff_app. unfold count_backoff at 2. simpl. lia.
    + rewrite !count_backoff_app. unfold count_backoff at 2. simpl. lia.
    + rewrite !count_backoff_app. unfold count_backoff at 2 3. simpl. lia.
Qed.

(** ** Snapshots that are not raced *)

(** X10. When every slot of the snapshot offers fewer tickets than the task
    wants, walking the snapshot starts no race: nothing is logged, requested
    or written, and the loop over the dates ends normally. *)
Theorem process_dates_skips_small_slots (args : TaskManager.MonitorArgs)
    (env : TaskManager.PollEnv) (items : Snapshot) (st : TaskManager.MState) :
  forallb (fun kv => forallb (slot_too_small (TaskManager.a_quantity args)) (snd kv))
    items = true ->
  TaskManager.process_dates args env items st = (Returned tt, st).
Proof.
  intros Hall.
  assert (Htickets : forall date tickets st0,
            forallb (slot_too_small (TaskManager.a_quantity args)) tickets = true ->
            TaskManager.process_tickets args env date tickets st0
            = (Returned false, st0)).
  { intros date tickets st0. induction tickets as [|t tickets IH]; intros Ht;
      [reflexivity|].
    simpl in Ht. apply andb_true_iff in Ht as [Hsmall Hrest].
    cbn [TaskManager.process_tickets]. unfold slot_too_small in Hsmall.
    unfold TaskManager.ticket_qty. se_unfold.
    destruct (t_qty_available t) as [v|]; simpl in Hsmall; [|discriminate Hsmall].
    destruct (json_number v) as [n|] eqn:Hv; simpl in Hsmall; [|discriminate Hsmall].
    apply Z.ltb_lt in Hsmall.
    destruct (TaskManager.a_quantity args <=? n) eqn:Hle; [apply Z.leb_le in Hle; lia|].
    apply IH. exact Hrest. }
  revert st. induction items as [|[date tickets] items IH]; intros st; [reflexivity|].
  simpl in Hall. apply andb_true_iff in Hall as [Ht Hrest].
  cbn [TaskManager.process_dates]. unfold mbind, SE_bind.
  rewrite (Htickets date tickets st Ht). apply IH. exact Hrest.
Qed.

Lemma process_dates_skips_small_slots_witness :
  TaskManager.process_dates Ex.args4 (Ex.env None Ex.session_ok)
    [("2024-05-01", [Ex.slot 3; Ex.slot 0]); ("2024-05-02", [Ex.slot 1])]
    (Ex.state RUNNING)
  = (Returned tt, Ex.state RUNNING).
Proof.
  apply (process_dates_skips_small_slots Ex.args4 (Ex.env None Ex.session_ok)
           [("2024-05-01", [Ex.slot 3; Ex.slot 0]); ("2024-05-02", [Ex.slot 1])]
           (Ex.state RUNNING)).
  reflexivity.
Defined.

(** X11. A snapshot equal to the one remembered from the last processing
    (equal as Python compares the two parsed objects: every slot with all its
    members, [traffic_light] among them) is not processed again, whatever
    availability it shows: when its quantity fits the column, the pass ends
    normally, starts no attempt, adds no cart session and keeps the
    remembered snapshot. *)
Theorem unchanged_snapshot_no_race (args : TaskManager.MonitorArgs)
    (env : TaskManager.PollEnv) (st : TaskManager.MState) :
  TaskManager.data_eqb (TaskManager.env_data env)
    (TaskManager.l_previous_data (TaskManager.st_locals st)) = true ->
  observed_quantity (TaskManager.env_data env) < 2 ^ 63 ->
  exists st',
    TaskManager.poll_iteration args env st = (Returned tt, st')
    /\ attempts_of st' = attempts_of st
    /\ carts_of st' = carts_of st
    /\ TaskManager.l_previous_data (TaskManager.st_locals st')
       = TaskManager.l_previous_data (TaskManager.st_locals st).
Proof.
  intros Hsame Hsmall.
  destruct (scan_phase_fits args env st (total_fits _ Hsmall))
    as [[w1 l1] [Hscan [Hl [_ [_ [Hcarts [_ [_ [_ Htrace]]]]]]]]].
  simpl in Hl, Hcarts, Htrace. subst l1.
  unfold TaskManager.poll_iteration. unfold mbind at 1, SE_bind at 1. rewrite Hscan.
  unfold TaskManager.periodic_log, TaskManager.branch_phase. se_unfold. simpl.
  destruct ((_ =? 1) || (_ mod 50 =? 0)); simpl;
    [destruct (0 <? TaskManager.total_available (TaskManager.env_data env)); simpl;
     [|destruct (negb _ || (_ =? 1)); simpl]|];
    rewrite Hsame; simpl; rewrite andb_false_r; simpl;
    destruct (TaskManager.is_none _ || _); simpl;
    eexists; (split; [reflexivity|]); simpl;
    (split; [|split; [unfold carts_of; simpl; rewrite Hcarts; reflexivity
                     |reflexivity]]);
    unfold attempts_of; simpl; rewrite Htrace, ?count_attempts_app;
    unfold count_attempts; simpl; lia.
Qed.

(** The snapshot remembered has its members in another order; one that
    differs in [traffic_light] alone is a different snapshot. *)
Lemma unchanged_snapshot_no_race_witness :
  let slot light :=
    mkTicket (Some "10:00") (Some (Bot.JInt 3)) (Some ["v1"])
             [("traffic_light", Bot.JInt light); ("price", Bot.JStr "12,00")] in
  let seen :=
    mkTicket (Some "10:00") (Some (Bot.JInt 3)) (Some ["v1"])
             [("price", Bot.JStr "12,00"); ("traffic_light", Bot.JInt 1)] in
  let st := TaskManager.mkMState (Ex.monitoring RUNNING AwaitNetwork)
              (TaskManager.mkLocals 4 (Some [("2024-05-01", [seen])]) false) in
  TaskManager.data_eqb (Some [("2024-05-01", [slot 2])])
    (Some [("2024-05-01", [seen])]) = false
  /\ has_positive_availability (Some [("2024-05-01", [slot 1])]) = true
  /\ exists st',
       TaskManager.poll_iteration Ex.args
         (Ex.env (Some [("2024-05-01", [slot 1])]) Ex.session_ok) st
       = (Returned tt, st')
       /\ attempts_of st' = attempts_of st
       /\ carts_of st' = carts_of st
       /\ TaskManager.l_previous_data (TaskManager.st_locals st')
          = TaskManager.l_previous_data (TaskManager.st_locals st).
Proof.
  split; [reflexivity|]. split; [reflexivity|].
  apply (unchanged_snapshot_no_race Ex.args
           (Ex.env (Some [("2024-05-01",
                           [mkTicket (Some "10:00") (Some (Bot.JInt 3)) (Some ["v1"])
                              [("traffic_light", Bot.JInt 1);
                               ("price", Bot.JStr "12,00")]])]) Ex.session_ok)
           (TaskManager.mkMState (Ex.monitoring RUNNING AwaitNetwork)
              (TaskManager.mkLocals 4
                 (Some [("2024-05-01",
                         [mkTicket (Some "10:00") (Some (Bot.JInt 3)) (Some ["v1"])
                            [("price", Bot.JStr "12,00");
                             ("traffic_light", Bot.JInt 1)]])]) false))).
  - vm_compute. reflexivity.
  - vm_compute. reflexivity.
Defined.

(** ** The "no tickets" log line *)

Lemma count_no_tickets_logs_app (a b : list Event) :
  count_no_tickets_logs (a ++ b)
  = (count_no_tickets_logs a + count_no_tickets_logs b)%nat.
Proof.
  unfold count_no_tickets_logs. rewrite List.filter_app, length_app. reflexivity.
Qed.

(** A pass over a snapshot without availability, in full. *)
Lemma quiet_pass (args : TaskManager.MonitorArgs) (env : TaskManager.PollEnv)
    (st : TaskManager.MState) :
  has_positive_availability (TaskManager.env_data env) = false ->
  let l := TaskManager.st_locals st in
  let n := TaskManager.l_scan_count l + 1 in
  let logged := ((n =? 1) || (n mod 50 =? 0))
                && (negb (TaskManager.l_no_tickets_logged l) || (n =? 1)) in
  exists st',
    TaskManager.poll_iteration args env st = (Returned tt, st')
    /\ TaskManager.l_scan_count (TaskManager.st_locals st') = n
    /\ TaskManager.l_no_tickets_logged (TaskManager.st_locals st')
       = TaskManager.l_no_tickets_logged l || logged
    /\ count_no_tickets_logs (trace (TaskManager.st_world st'))
       = (count_no_tickets_logs (trace (TaskManager.st_world st))
          + if logged then 1 else 0)%nat
    /\ tasks (db (TaskManager.st_world st')) !! TaskManager.a_task_id args
       = set_scan_info n 0 (TaskManager.env_utcnow env)
           <$> tasks (db (TaskManager.st_world st)) !! TaskManager.a_task_id args.
Proof.
  intros Hnone l n logged. subst l n logged.
  pose proof (total_available_no_positive _ Hnone) as Htotal.
  unfold TaskManager.poll_iteration, TaskManager.scan_phase, TaskManager.periodic_log,
    TaskManager.branch_phase, TaskManager.commit_scan_info.
  se_unfold. simpl. rewrite Htotal. simpl.
  destruct (tasks (db (TaskManager.st_world st)) !! TaskManager.a_task_id args)
    eqn:Hrow; simpl; rewrite andb_false_r; simpl;
  (destruct ((_ =? 1) || (_ mod 50 =? 0)); simpl;
    [destruct (negb _ || (_ =? 1)); simpl|];
    destruct (TaskManager.is_none _ || _); simpl;
    eexists; (split; [reflexivity|]); simpl;
    (split; [reflexivity|]);
    (split; [rewrite ?orb_true_r, ?orb_false_r; reflexivity|]);
    (split; [|first [rewrite lookup_alter_eq, Hrow; reflexivity
                    |rewrite Hrow; reflexivity|reflexivity]]);
    rewrite ?count_no_tickets_logs_app; unfold count_no_tickets_logs; simpl; lia).
Qed.

Lemma quiet_polls_after_first (args : TaskManager.MonitorArgs)
    (envs : list TaskManager.PollEnv) (st : TaskManager.MState) :
  Forall (fun env => has_positive_availability (TaskManager.env_data env) = false)
    envs ->
  1 <= TaskManager.l_scan_count (TaskManager.st_locals st) ->
  TaskManager.l_no_tickets_logged (TaskManager.st_locals st) = true ->
  exists st',
    TaskManager.monitor_polls args envs st = (Returned tt, st')
    /\ TaskManager.l_scan_count (TaskManager.st_locals st')
       = TaskManager.l_scan_count (TaskManager.st_locals st) + Z.of_nat (length envs)
    /\ count_no_tickets_logs (trace (TaskManager.st_world st'))
       = count_no_tickets_logs (trace (TaskManager.st_world st)).
Proof.
  intros Hall. revert st. induction Hall as [|env envs Henv _ IH]; intros st Hsc Hntl.
  - exists st. split; [reflexivity|]. split; [simpl; lia|reflexivity].
  - destruct (quiet_pass args env st Henv) as [st1 [Hrun [Hn [Hl [Hc _]]]]].
    rewrite Hntl in Hl, Hc. simpl in Hl, Hc.
    assert (Hone : (TaskManager.l_scan_count (TaskManager.st_locals st) + 1 =? 1)
                   = false) by (apply Z.eqb_neq; lia).
    rewrite Hone, andb_false_r in Hc.
    destruct (IH st1 ltac:(lia) Hl) as [st' [Hrest [Hn' Hc']]].
    exists st'. cbn [TaskManager.monitor_polls]. unfold mbind, SE_bind.
    rewrite Hrun, Hrest. split; [reflexivity|].
    split; [rewrite Hn', Hn; simpl length; lia|]. rewrite Hc', Hc. lia.
Qed.

(** X12. While the polls of a fresh scan cycle show no availability, the
    line "No tickets available - waiting for release..." is logged once, at
    the first scan, and never again, not even at every fiftieth scan; the
    loop's counter equals the number of polls made. *)
Theorem no_tickets_logged_once (args : TaskManager.MonitorArgs)
    (env : TaskManager.PollEnv) (envs : list TaskManager.PollEnv)
    (st : TaskManager.MState) :
  Forall (fun env => has_positive_availability (TaskManager.env_data env) = false)
    (env :: envs) ->
  TaskManager.l_scan_count (TaskManager.st_locals st) = 0 ->
  exists st',
    TaskManager.monitor_polls args (env :: envs) st = (Returned tt, st')
    /\ count_no_tickets_logs (trace (TaskManager.st_world st'))
       = S (count_no_tickets_logs (trace (TaskManager.st_world st)))
    /\ TaskManager.l_scan_count (TaskManager.st_locals st')
       = Z.of_nat (length (env :: envs)).
Proof.
  intros Hall Hzero. inversion Hall as [|? ? Henv Hrest]; subst.
  destruct (quiet_pass args env st Henv) as [st1 [Hrun [Hn [Hl [Hc _]]]]].
  rewrite Hzero in Hn, Hl, Hc. simpl in Hn, Hl, Hc.
  rewrite orb_true_r in Hl, Hc. rewrite orb_true_r in Hl.
  destruct (quiet_polls_after_first args envs st1 Hrest ltac:(lia) Hl)
    as [st' [Hpolls [Hn' Hc']]].
  exists st'. cbn [TaskManager.monitor_polls]. unfold mbind, SE_bind.
  rewrite Hrun, Hpolls. split; [reflexivity|]. split.
  - rewrite Hc', Hc. lia.
  - rewrite Hn', Hn. simpl length. lia.
Qed.

Lemma no_tickets_logged_once_witness :
  let quiet := Ex.env (Some [("2024-05-01", [Ex.slot 0])]) Ex.session_ok in
  exists st',
    TaskManager.monitor_polls Ex.args [quiet; Ex.env None Ex.session_ok; quiet]
      (Ex.state RUNNING) = (Returned tt, st')
    /\ count_no_tickets_logs (trace (TaskManager.st_world st'))
       = S (count_no_tickets_logs (trace (TaskManager.st_world (Ex.state RUNNING))))
    /\ TaskManager.l_scan_count (TaskManager.st_locals st') = 3.
Proof.
  apply (no_tickets_logged_once Ex.args
           (Ex.env (Some [("2024-05-01", [Ex.slot 0])]) Ex.session_ok)
           [Ex.env None Ex.session_ok;
            Ex.env (Some [("2024-05-01", [Ex.slot 0])]) Ex.session_ok]
           (Ex.state RUNNING)).
  - repeat constructor.
  - reflexivity.
Defined.

(** ** Attempts and cart sessions *)

(** One attempt, in full, by the result of [add_to_cart]. *)
Lemma _attempt_atc_carts (task_id : Z) (bot : Bot.Session)
    (event_id date time_short variation option_number : string) (quantity : Z)
    (product_url : string) (total_time : Time) (token : string) (now : Time)
    (st : TaskManager.MState) :
  let run := TaskManager._attempt_atc task_id bot event_id date time_short variation
               option_number quantity product_url total_time token now st in
  match fst run with
  | Returned true =>
      exists cookie,
        Bot._extract_session_cookie bot = Returned (Some cookie)
        /\ cart_sessions (db (TaskManager.st_world (snd run)))
           = (cart_sessions (db (TaskManager.st_world st))
              ++ [mkCartSession token task_id cookie product_url
                    "https://audidefuehrungen2.regiondo.de/checkout/cart"
                    quantity total_time (now + 1020)])%list
  | _ => cart_sessions (db (TaskManager.st_world (snd run)))
         = cart_sessions (db (TaskManager.st_world st))
  end.
Proof.
  cbv zeta. unfold TaskManager._attempt_atc. se_unfold.
  destruct (Bot.add_to_cart bot event_id date time_short variation option_number
              quantity product_url) as [[[success cookie] error]|e] eqn:Hatc;
    [|reflexivity].
  pose proof (add_to_cart_returned _ _ _ _ _ _ _ _ _ _ _ Hatc) as Hshape.
  destruct success.
  - destruct Hshape as [_ [Hcookie _]].
    destruct cookie as [cookie|]; simpl.
    + exists cookie. split; [exact Hcookie|reflexivity].
    + destruct error as [err|]; simpl; [destruct (Bot.truthy err)|]; reflexivity.
  - destruct cookie as [cookie|], error as [err|]; simpl;
      try destruct (Bot.truthy err); reflexivity.
Qed.

(** X13. An attempt returns [True] exactly when it stores a cart session,
    and it stores at most one: the new row carries the token drawn, the task
    id, the session's cookie, the product URL, the vendor's cart URL, the
    requested quantity, the elapsed time, and expires [cart_hold_time]
    (1020 s) after its creation. Any other outcome leaves [cart_sessions] as
    it was. *)
Theorem attempt_atc_stores_cart_iff_true (task_id : Z) (bot : Bot.Session)
    (event_id date time_short variation option_number : string) (quantity : Z)
    (product_url : string) (total_time : Time) (token : string) (now : Time)
    (st : TaskManager.MState) :
  let run := TaskManager._attempt_atc task_id bot event_id date time_short variation
               option_number quantity product_url total_time token now st in
  let before := cart_sessions (db (TaskManager.st_world st)) in
  let after := cart_sessions (db (TaskManager.st_world (snd run))) in
  (fst run = Returned true <->
   exists cookie,
     after = (before ++ [mkCartSession token task_id cookie product_url
                           "https://audidefuehrungen2.regiondo.de/checkout/cart"
                           quantity total_time (now + 1020)])%list)
  /\ (fst run <> Returned true -> after = before).
Proof.
  cbv zeta.
  pose proof (_attempt_atc_carts task_id bot event_id date time_short variation
                option_number quantity product_url total_time token now st) as H.
  cbv zeta in H.
  destruct (fst (TaskManager._attempt_atc _ _ _ _ _ _ _ _ _ _ _ _ st))
    as [[|]|e] eqn:Hr.
  - destruct H as [cookie [_ Hc]]. split; [|congruence].
    split; [intros _; exists cookie; exact Hc|reflexivity].
  - split; [|intros _; exact H]. split; [discriminate|].
    intros [cookie Hc]. rewrite H in Hc.
    apply (f_equal (@length CartSession)) in Hc. rewrite length_app in Hc.
    simpl in Hc. lia.
  - split; [|intros _; exact H]. split; [discriminate|].
    intros [cookie Hc]. rewrite H in Hc.
    apply (f_equal (@length CartSession)) in Hc. rewrite length_app in Hc.
    simpl in Hc. lia.
Qed.

(** X14. A cart that the vendor confirmed and the checkout page verified
    is dropped when the session holds no cookie at all: [add_to_cart] reports
    success with no cookie, and the attempt returns [False] without storing a
    cart session and without logging anything. *)
Theorem verified_cart_without_cookie_is_dropped (task_id : Z) (bot : Bot.Session)
    (event_id date time_short variation option_number : string) (quantity : Z)
    (product_url : string) (total_time : Time) (token : string) (now : Time)
    (cookie : option CookieData) (error : option Bot.JsonVal)
    (st : TaskManager.MState) :
  Bot.add_to_cart bot event_id date time_short variation option_number quantity
    product_url = Returned (true, cookie, error) ->
  Bot.session_cookies bot = [] ->
  TaskManager._attempt_atc task_id bot event_id date time_short variation
    option_number quantity product_url total_time token now st
  = (Returned false, st).
Proof.
  intros Hatc Hjar.
  destruct (add_to_cart_returned _ _ _ _ _ _ _ _ _ _ _ Hatc) as [-> [Hcookie _]].
  unfold Bot._extract_session_cookie in Hcookie. rewrite Hjar in Hcookie.
  simpl in Hcookie. injection Hcookie as <-.
  unfold TaskManager._attempt_atc. rewrite Hatc. se_unfold. simpl.
  destruct st as [w l]. reflexivity.
Qed.

Lemma verified_cart_without_cookie_is_dropped_witness :
  let bot := Bot.mkSession (Bot.session_get Ex.session_ok)
               (Bot.session_post Ex.session_ok) [] in
  Bot.add_to_cart bot "327097" "2024-05-01" "10:00" "v1" "55" 2 Ex.url
  = Returned (true, None, None)
  /\ TaskManager._attempt_atc 7 bot "327097" "2024-05-01" "10:00" "v1" "55" 2 Ex.url
       3 "tok" 1000 (Ex.state RUNNING)
     = (Returned false, Ex.state RUNNING).
Proof.
  split; [reflexivity|].
  apply (verified_cart_without_cookie_is_dropped 7
           (Bot.mkSession (Bot.session_get Ex.session_ok)
              (Bot.session_post Ex.session_ok) [])
           "327097" "2024-05-01" "10:00" "v1" "55" 2 Ex.url 3 "tok" 1000 None None
           (Ex.state RUNNING)); reflexivity.
Defined.

Lemma count_carted_pos_iff (results : list (Outcome bool)) :
  TaskManager.any_true results = true <-> (0 < count_carted results)%nat.
Proof.
  unfold TaskManager.any_true, count_carted.
  induction results as [|r rs IH]; simpl; [split; [discriminate|lia]|].
  destruct r as [[|]|e]; simpl; try exact IH; split; auto; lia.
Qed.

Lemma gather_run_carts (cs : list (TaskManager.M bool)) (st : TaskManager.MState) :
  (forall c, In c cs -> forall s,
      carts_of (snd (c s)) = (carts_of s + if is_carted (fst (c s)) then 1 else 0)%nat) ->
  carts_of (snd (TaskManager.gather_run cs st))
  = (carts_of st + count_carted (fst (TaskManager.gather_run cs st)))%nat
  /\ length (fst (TaskManager.gather_run cs st)) = length cs.
Proof.
  revert st. induction cs as [|c cs IH]; intros st Hcs; simpl.
  - unfold count_carted. simpl. split; [lia|reflexivity].
  - pose proof (Hcs c (or_introl eq_refl) st) as Hc.
    destruct (c st) as [r st1]. simpl in Hc.
    destruct (IH st1 (fun c' Hin => Hcs c' (or_intror Hin))) as [Hcarts Hlen].
    destruct (TaskManager.gather_run cs st1) as [rs st2]. simpl in *.
    split; [|lia]. unfold count_carted in *. simpl.
    destruct (is_carted r); simpl; lia.
Qed.

Lemma race_attempt_carts args env date time_short variation option_number n c s :
  In c (TaskManager.race_attempts args env date time_short variation option_number n) ->
  carts_of (snd (c s)) = (carts_of s + if is_carted (fst (c s)) then 1 else 0)%nat.
Proof.
  unfold TaskManager.race_attempts. intros Hin.
  apply in_map_iff in Hin as [i [<- _]].
  unfold mbind, SE_bind. unfold TaskManager.lift at 1, TaskManager.emit, se_modify.
  destruct s as [w l]. simpl.
  match goal with
  | |- context [TaskManager._attempt_atc ?a ?b ?c ?d ?e ?f ?g ?h ?u ?x ?y ?z ?s0] =>
      pose proof (_attempt_atc_carts a b c d e f g h u x y z s0) as H;
      cbv zeta in H;
      destruct (TaskManager._attempt_atc a b c d e f g h u x y z s0) as [r s1]
  end.
  simpl in *. unfold carts_of. simpl.
  destruct r as [[|]|e]; simpl.
  - destruct H as [cookie [_ ->]]. rewrite length_app. simpl. lia.
  - rewrite H. lia.
  - rewrite H. lia.
Qed.

Lemma recart_cycle_carts (task_id : Z) (now : Time) (st : TaskManager.MState) :
  carts_of (snd (TaskManager.recart_cycle task_id now st)) = carts_of st.
Proof.
  unfold TaskManager.recart_cycle. se_unfold. simpl.
  destruct (tasks (db (TaskManager.st_world st)) !! task_id) as [t|] eqn:Hrow; simpl.
  - rewrite lookup_alter_eq, Hrow. reflexivity.
  - rewrite Hrow. reflexivity.
Qed.

(** X15. For a task that asks for a quantity other than zero (with zero
    the division of line 252 raises), a race stores one cart session for
    each of its attempts that returned [True] and none besides, each of them
    for the task and for the requested quantity; there is one result per
    attempt started. The race reports a cart exactly when one of the results
    is [True], that is, exactly when it stored at least one session. *)
Theorem run_race_carts (args : TaskManager.MonitorArgs) (env : TaskManager.PollEnv)
    (date time_short variation option_number : string) (A : Z)
    (st : TaskManager.MState) :
  TaskManager.a_quantity args <> 0 ->
  let n := TaskManager.actual_threads (TaskManager.a_num_threads args)
             (A / TaskManager.a_quantity args) in
  let logged := snd (TaskManager.lift
                       (TaskManager._log (TaskManager.a_task_id args) "info"
                          (MsgRunningThreads n (A / TaskManager.a_quantity args))) st) in
  let results := fst (TaskManager.gather_run
                        (TaskManager.race_attempts args env date time_short variation
                           option_number n) logged) in
  let run := TaskManager.run_race args env date time_short variation option_number A st in
  exists new,
    fst run = Returned (TaskManager.any_true results)
    /\ length results = Z.to_nat n
    /\ (attempts_of (snd run) - attempts_of st)%nat = Z.to_nat n
    /\ cart_sessions (db (TaskManager.st_world (snd run)))
       = (cart_sessions (db (TaskManager.st_world st)) ++ new)%list
    /\ length new = count_carted results
    /\ Forall (fun cs => cs_task_id cs = TaskManager.a_task_id args
                         /\ cs_quantity cs = TaskManager.a_quantity args) new
    /\ (TaskManager.any_true results = true <-> new <> []).
Proof.
  intros HQ n logged results run.
  pose proof (steps_run_race (fun _ => True) (fun _ _ => I) args env date time_short
                variation option_number A st) as Hext.
  fold run in Hext. destruct Hext as [_ _ _ _ _ _ _ [new [Hnew Hall]] _].
  assert (Hrun : run = TaskManager.after_race (TaskManager.a_task_id args)
                         (TaskManager.env_utcnow env) results
                         (snd (TaskManager.gather_run
                                 (TaskManager.race_attempts args env date time_short
                                    variation option_number n) logged)))
    by (apply run_race_after_race; exact HQ).
  assert (Hst0 : carts_of logged = carts_of st /\ attempts_of logged = attempts_of st).
  { subst logged. se_unfold. simpl. split; [reflexivity|].
    unfold attempts_of. simpl. rewrite count_attempts_app. unfold count_attempts.
    simpl. lia. }
  destruct Hst0 as [Hc0 Ha0].
  pose proof (gather_run_carts
                (TaskManager.race_attempts args env date time_short variation
                   option_number n) logged
                (fun c Hin s => race_attempt_carts _ _ _ _ _ _ _ c s Hin))
    as [Hcarts Hlen].
  pose proof (gather_run_attempts
                (TaskManager.race_attempts args env date time_short variation
                   option_number n) logged
                (fun c Hin s => race_attempts_each_one _ _ _ _ _ _ _ c s Hin)) as Hatt.
  rewrite race_attempts_length in Hlen, Hatt. fold results in Hcarts, Hlen.
  set (st1 := snd (TaskManager.gather_run _ logged)) in *.
  assert (Hafter : fst run = Returned (TaskManager.any_true results)
                   /\ carts_of (snd run) = carts_of st1
                   /\ attempts_of (snd run) = attempts_of st1).
  { rewrite Hrun. unfold TaskManager.after_race.
    destruct (TaskManager.any_true results).
    - unfold mbind, SE_bind.
      destruct (recart_cycle_attempts (TaskManager.a_task_id args)
                  (TaskManager.env_utcnow env) st1) as [st2 [Hcycle [Ha2 _]]].
      pose proof (recart_cycle_carts (TaskManager.a_task_id args)
                    (TaskManager.env_utcnow env) st1) as Hc2.
      rewrite Hcycle in Hc2 |- *. simpl in Hc2 |- *. auto.
    - simpl. auto. }
  destruct Hafter as [Hfst [Hc Ha]].
  assert (Hcount : length new = count_carted results).
  { unfold carts_of in Hc, Hcarts, Hc0. rewrite Hnew, length_app in Hc. lia. }
  exists new. split; [exact Hfst|]. split; [exact Hlen|]. split; [lia|].
  split; [exact Hnew|]. split; [exact Hcount|]. split; [exact Hall|].
  rewrite count_carted_pos_iff, <- Hcount.
  destruct new; simpl; split; intros H; try lia; try congruence.
Qed.

(** Five tickets are free and two are wanted: two attempts run, both win,
    and two cart sessions for two tickets each are stored. *)
Lemma run_race_carts_witness :
  let st := Ex.state RUNNING in
  let run := TaskManager.run_race Ex.args (Ex.env None Ex.session_ok) "2024-05-01"
               "10:00" "v1" "55" 5 st in
  exists new,
    fst run = Returned true
    /\ (attempts_of (snd run) - attempts_of st)%nat = 2%nat
    /\ cart_sessions (db (TaskManager.st_world (snd run)))
       = (cart_sessions (db (TaskManager.st_world st)) ++ new)%list
    /\ length new = 2%nat
    /\ Forall (fun cs => cs_task_id cs = 7 /\ cs_quantity cs = 2) new.
Proof.
  destruct (run_race_carts Ex.args (Ex.env None Ex.session_ok) "2024-05-01" "10:00"
              "v1" "55" 5 (Ex.state RUNNING) ltac:(simpl; lia))
    as [new [Hfst [_ [Hatt [Hnew [Hlen [Hall _]]]]]]].
  exists new. split; [exact Hfst|]. split; [exact Hatt|]. split; [exact Hnew|].
  split; [exact Hlen|exact Hall].
Defined.

(** ** How a monitor starts and ends *)

Lemma _mark_failed_row (task_id : Z) (error : string) (now : Time) (w : World) :
  tasks (db (snd (TaskManager._mark_failed task_id error now w))) !! task_id
  = (fun t => set_completed_at (Some now)
                (set_error_message (Some error) (set_status FAILED t)))
      <$> tasks (db w) !! task_id.
Proof.
  unfold TaskManager._mark_failed. se_unfold. simpl.
  destruct (tasks (db w) !! task_id) as [t|] eqn:Hrow; simpl.
  - rewrite lookup_alter_eq, Hrow. reflexivity.
  - exact Hrow.
Qed.

Lemma _mark_failed_no_handle (task_id : Z) (error : string) (now : Time) (w : World) :
  active_tasks (snd (TaskManager._mark_failed task_id error now w)) !! task_id = None.
Proof.
  unfold TaskManager._mark_failed. se_unfold. simpl.
  destruct (tasks (db w) !! task_id); simpl; apply lookup_delete_eq.
Qed.

(** X16. When the identifiers cannot be resolved (the product page is not
    fetched, is not served with status 200, or lacks a usable marker) the
    monitor does not poll: it logs the start and the error, marks the row
    [failed] with the message "Could not extract Event/Ticket ID" and the
    time, removes the task's handle and returns. *)
Theorem monitor_start_without_ids_fails_task (task_id : Z) (product_url : string)
    (quantity num_threads : Z) (bot : Bot.Session) (now : Time)
    (ids : option string * option string) (st : TaskManager.MState) :
  Bot.extract_event_details bot product_url = Returned ids ->
  TaskManager.ids_missing ids = true ->
  exists st',
    TaskManager.monitor_start task_id product_url quantity num_threads bot now st
    = (Returned None, st')
    /\ active_tasks (TaskManager.st_world st') !! task_id = None
    /\ tasks (db (TaskManager.st_world st')) !! task_id
       = (fun t => set_completed_at (Some now)
                     (set_error_message (Some "Could not extract Event/Ticket ID")
                        (set_status FAILED t)))
           <$> tasks (db (TaskManager.st_world st)) !! task_id
    /\ exists evs,
         trace (TaskManager.st_world st')
         = (trace (TaskManager.st_world st)
            ++ [EvLog task_id "info" (MsgStarted product_url);
                EvLog task_id "error" MsgNoIds]
            ++ evs
            ++ [EvBroadcast (TaskUpdate task_id FAILED
                               (Some "Could not extract Event/Ticket ID"))])%list
         /\ evs = if tasks (db (TaskManager.st_world st)) !! task_id is Some _
                  then [EvCommitStatus task_id FAILED] else [].
Proof.
  intros Hids Hmissing. unfold TaskManager.monitor_start, TaskManager._mark_failed.
  rewrite Hids. se_unfold. simpl. rewrite Hmissing. simpl.
  destruct (tasks (db (TaskManager.st_world st)) !! task_id) as [t|] eqn:Hrow; simpl;
    eexists; (split; [reflexivity|]); simpl;
    (split; [apply lookup_delete_eq|]).
  - split; [rewrite lookup_alter_eq, Hrow; reflexivity|].
    eexists. split; [|reflexivity]. rewrite <- !app_assoc. reflexivity.
  - split; [exact Hrow|].
    eexists. split; [|reflexivity]. rewrite <- !app_assoc. reflexivity.
Qed.

Lemma monitor_start_without_ids_fails_task_witness :
  exists st',
    TaskManager.monitor_start 7 Ex.url 2 5 Ex.session_offline 1000 (Ex.state RUNNING)
    = (Returned None, st')
    /\ active_tasks (TaskManager.st_world st') !! 7 = None
    /\ status <$> tasks (db (TaskManager.st_world st')) !! 7 = Some FAILED.
Proof.
  destruct (monitor_start_without_ids_fails_task 7 Ex.url 2 5 Ex.session_offline 1000
              (None, None) (Ex.state RUNNING) eq_refl eq_refl)
    as [st' [Hrun [Hact [Hrow _]]]].
  exists st'. split; [exact Hrun|]. split; [exact Hact|].
  rewrite Hrow. vm_compute. reflexivity.
Defined.

Lemma monitor_start_frame (task_id : Z) (product_url : string)
    (quantity num_threads : Z) (bot : Bot.Session) (now : Time)
    (args : TaskManager.MonitorArgs) (st st' : TaskManager.MState) :
  TaskManager.monitor_start task_id product_url quantity num_threads bot now st
  = (Returned (Some args), st') ->
  TaskManager.a_task_id args = task_id
  /\ active_tasks (TaskManager.st_world st') = active_tasks (TaskManager.st_world st)
  /\ task_data (TaskManager.st_world st') = task_data (TaskManager.st_world st)
  /\ status <$> tasks (db (TaskManager.st_world st')) !! task_id
     = status <$> tasks (db (TaskManager.st_world st)) !! task_id.
Proof.
  unfold TaskManager.monitor_start, TaskManager._mark_failed. se_unfold.
  destruct (Bot.extract_event_details bot product_url) as [ids|e]; simpl;
    [|discriminate].
  destruct (TaskManager.ids_missing ids); simpl.
  - destruct (tasks (db (TaskManager.st_world st)) !! task_id); simpl; discriminate.
  - intros [= <- <-]. simpl. split; [reflexivity|]. split; [reflexivity|].
    split; [reflexivity|]. rewrite lookup_alter_eq.
    destruct (tasks (db (TaskManager.st_world st)) !! task_id); reflexivity.
Qed.

(** Before the loop only a cancellation gets out of the coroutine's body. *)
Lemma monitor_start_raises_cancelled (task_id : Z) (product_url : string)
    (quantity num_threads : Z) (bot : Bot.Session) (now : Time) (e : PyExn)
    (st st' : TaskManager.MState) :
  TaskManager.monitor_start task_id product_url quantity num_threads bot now st
  = (Raised e, st') ->
  e = CancelledError.
Proof.
  unfold TaskManager.monitor_start, TaskManager._mark_failed. se_unfold.
  destruct (Bot.extract_event_details bot product_url) as [ids|e0] eqn:Hids; simpl.
  - destruct (TaskManager.ids_missing ids); simpl; [|discriminate].
    destruct (tasks (db (TaskManager.st_world st)) !! task_id); simpl; discriminate.
  - intros [= <- _]. revert Hids. unfold Bot.extract_event_details, Bot.try_except.
    destruct (Bot.session_get bot product_url) as [response|e1].
    + destruct (negb (Bot.status_code response =? 200)); discriminate.
    + destruct e1; simpl; congruence.
Qed.

(** What the handler of [_run_monitor] does with an exception of the loop. *)
Lemma monitor_handler_outcome (str_e : PyExn -> string) (task_id : Z) (now' : Time)
    (e : PyExn) (w : World) :
  let run := TaskManager.monitor_handler str_e task_id now' e w in
  (fst run = Returned tt
   /\ tasks (db (snd run)) !! task_id
      = (fun t => set_completed_at (Some now')
                    (set_error_message (Some (str_e e)) (set_status FAILED t)))
          <$> tasks (db w) !! task_id)
  \/ (fst run = Raised PendingRollbackError /\ snd run = w /\ e = OverflowError).
Proof.
  unfold TaskManager.monitor_handler.
  destruct (TaskManager.session_unusable e) eqn:He; simpl.
  - right. split; [reflexivity|]. split; [reflexivity|].
    destruct e; try discriminate He. reflexivity.
  - left. split; [|apply _mark_failed_row].
    unfold TaskManager._mark_failed. se_unfold. simpl.
    destruct (tasks (db w) !! task_id); reflexivity.
Qed.

(** X17. When a monitor coroutine ends, the task has no entry left in
    [active_tasks] or [task_data], whichever way it ended. A coroutine that
    ended by returning has marked the row [failed], with an error message.
    A coroutine can also end by an exception: by a cancellation, or by the
    [PendingRollbackError] that the unprotected [_mark_failed] of the handler
    raises after a commit of the loop overflowed, and then a row that said
    [running] still says [running]. As long as the coroutine polls, both
    tables are as it found them. *)
Theorem run_monitor_leaves_no_handle (str_e : PyExn -> string) (task_id : Z)
    (product_url : string) (quantity num_threads : Z) (bot : Bot.Session)
    (now now' : Time) (envs : list TaskManager.PollEnv) (w : World) :
  match TaskManager._run_monitor str_e task_id product_url quantity num_threads bot
          now now' envs w with
  | (TaskManager.Polling, w') =>
      active_tasks w' = active_tasks w /\ task_data w' = task_data w
  | (TaskManager.Ended r, w') =>
      active_tasks w' !! task_id = None
      /\ task_data w' !! task_id = None
      /\ match r with
         | Returned _ =>
             forall t, tasks (db w') !! task_id = Some t ->
                       status t = FAILED /\ is_Some (error_message t)
         | Raised e =>
             e = CancelledError
             \/ (e = PendingRollbackError
                 /\ (status <$> tasks (db w) !! task_id = Some RUNNING ->
                     status <$> tasks (db w') !! task_id = Some RUNNING))
         end
  end.
Proof.
  unfold TaskManager._run_monitor, TaskManager.monitor_body.
  unfold mbind at 1, SE_bind at 1.
  set (st0 := TaskManager.mkMState w (TaskManager.mkLocals 0 None false)).
  destruct (TaskManager.monitor_start task_id product_url quantity num_threads bot now
              st0) as [[[args|]|e] st1] eqn:Hstart.
  - (* the identifiers were resolved: the loop *)
    destruct (monitor_start_frame _ _ _ _ _ _ _ _ _ Hstart) as [Hid [Hact [Htd Hst]]].
    unfold mbind, SE_bind.
    pose proof (steps_monitor_polls args envs st1) as Hext.
    destruct (TaskManager.monitor_polls args envs st1) as [[[]|e] st2]; simpl in *.
    + destruct Hext as [H1 H2 _ _ _ _ _ _ _]. split; congruence.
    + destruct (Bot.is_Exception e) eqn:Hexn.
      * pose proof (monitor_handler_outcome str_e task_id now' e
                      (TaskManager.st_world st2)) as Hh.
        destruct (TaskManager.monitor_handler str_e task_id now' e
                    (TaskManager.st_world st2)) as [r' w'] eqn:Hrun.
        simpl in Hh. split; [apply lookup_delete_eq|]. split; [apply lookup_delete_eq|].
        destruct Hh as [[-> Hrow]|[-> [-> _]]].
        -- intros t. simpl. rewrite Hrow.
           destruct (tasks (db (TaskManager.st_world st2)) !! task_id); simpl;
             intros [= <-]; simpl; eauto.
        -- right. split; [reflexivity|]. simpl. intros Hrunning.
           destruct Hext as [_ _ _ _ _ _ Hkeep _ _]. rewrite Hid in Hkeep.
           apply Hkeep. rewrite Hst. exact Hrunning.
      * split; [apply lookup_delete_eq|]. split; [apply lookup_delete_eq|].
        left. destruct e; try discriminate Hexn. reflexivity.
  - (* the identifiers are missing: the coroutine returns *)
    simpl. split; [apply lookup_delete_eq|]. split; [apply lookup_delete_eq|].
    intros t. simpl. revert Hstart.
    unfold TaskManager.monitor_start, TaskManager._mark_failed. se_unfold.
    destruct (Bot.extract_event_details bot product_url) as [ids|e]; simpl;
      [|discriminate].
    destruct (TaskManager.ids_missing ids); simpl; [|discriminate].
    destruct (tasks (db w) !! task_id) as [t0|] eqn:Hrow; simpl;
      intros [= <-]; simpl.
    + rewrite lookup_alter_eq, Hrow. simpl. intros [= <-]. simpl. eauto.
    + rewrite Hrow. discriminate.
  - (* the request for the product page was cancelled *)
    pose proof (monitor_start_raises_cancelled _ _ _ _ _ _ _ _ _ Hstart) as ->.
    simpl. split; [apply lookup_delete_eq|]. split; [apply lookup_delete_eq|].
    left. reflexivity.
Qed.

(** A vendor that reports 2^63 tickets: the commit of the first scan
    overflows, the handler cannot use the session, and the coroutine ends by
    [PendingRollbackError] with the row still [running] and without handle. *)
Example run_monitor_ends_running_after_overflow :
  let page := Bot.mkResponse 200 "" None
                (Bot.mkSoup (Some (Some "/checkout/cart/add/327097"))
                            (Some (Some "sku-4711"))) in
  let bot := Bot.mkSession (fun _ => Returned page)
               (fun _ _ _ => Raised (ConnectionError "unused")) [] in
  let data := Some [("2024-05-01", [Ex.slot 9223372036854775808])] in
  let run := TaskManager._run_monitor Bot.exn_str 7 Ex.url 2 5 bot 1000 1001
               [Ex.env data Ex.session_ok] (Ex.monitoring RUNNING AwaitNetwork) in
  fst run = TaskManager.Ended (Raised PendingRollbackError)
  /\ status <$> tasks (db (snd run)) !! 7 = Some RUNNING
  /\ error_message <$> tasks (db (snd run)) !! 7 = Some None
  /\ active_tasks (snd run) !! 7 = None.
Proof. vm_compute. repeat split; reflexivity. Qed.

(** * Further properties of the supervisor and of [app/api/tasks.py] *)

(** ** Stopping *)

(** X18. For a task without handle the stop endpoint looks at the row only:
    a row that says [running] (left over from an earlier process, say) is set
    to [stopped] with the time, the change is broadcast and the answer is
    "Task stopped"; in every other case the answer is HTTP 400 "Task is not
    running" and nothing changes. *)
Theorem stop_endpoint_without_handle (task_id : Z) (now : Time) (w : World) :
  active_tasks w !! task_id = None ->
  Api.stop_task task_id now w
  = match tasks (db w) !! task_id with
    | Some t =>
        if status_eqb (status t) RUNNING then
          (Returned Api.TaskStopped,
           with_trace (fun tr => (tr ++ [EvCommitStatus task_id STOPPED;
                                          EvBroadcast (TaskUpdate task_id STOPPED None)])%list)
             (with_db (db_update_task task_id
                (fun t => set_completed_at (Some now) (set_status STOPPED t))) w))
        else (Raised (HTTPException 400 "Task is not running"), w)
    | None => (Raised (HTTPException 400 "Task is not running"), w)
    end.
Proof.
  intros Hact. unfold Api.stop_task, TaskManager.stop_task. se_unfold.
  rewrite Hact. simpl.
  destruct (tasks (db w) !! task_id) as [t|] eqn:Hrow; simpl; [|reflexivity].
  destruct (status_eqb (status t) RUNNING); simpl; [|reflexivity].
  rewrite Hrow. simpl. unfold with_trace. simpl. rewrite <- app_assoc. reflexivity.
Qed.

Lemma stop_endpoint_without_handle_witness :
  Api.stop_task 7 2000 (Ex.idle RUNNING)
  = (Returned Api.TaskStopped,
     with_trace (fun tr => (tr ++ [EvCommitStatus 7 STOPPED;
                                    EvBroadcast (TaskUpdate 7 STOPPED None)])%list)
       (with_db (db_update_task 7
          (fun t => set_completed_at (Some 2000) (set_status STOPPED t)))
          (Ex.idle RUNNING)))
  /\ Api.stop_task 7 2000 (Ex.idle SUCCESS)
     = (Raised (HTTPException 400 "Task is not running"), Ex.idle SUCCESS).
Proof.
  split.
  - rewrite (stop_endpoint_without_handle 7 2000 (Ex.idle RUNNING) eq_refl).
    reflexivity.
  - rewrite (stop_endpoint_without_handle 7 2000 (Ex.idle SUCCESS) eq_refl).
    reflexivity.
Defined.



(** ** Starting *)

(** The start endpoint on a task without handle. *)
Lemma start_endpoint_fresh (task_id : Z) (now : Time) (w : World) (t : Task) :
  tasks (db w) !! task_id = Some t ->
  id t = task_id ->
  active_tasks w !! task_id = None ->
  exists w1,
    Api.start_task task_id now w = (Returned Api.TaskStarted, w1)
    /\ active_tasks w1 = <[task_id := length (coros w)]> (active_tasks w)
    /\ coros w1 = (coros w ++ [mkCoro task_id (product_url t) (quantity t)
                                 (num_threads t) NotStarted])%list
    /\ status <$> tasks (db w1) !! task_id = Some RUNNING.
Proof.
  intros Hrow Hid Hact. subst task_id.
  unfold Api.start_task, TaskManager.start_task. se_unfold.
  rewrite Hrow, Hact. simpl.
  destruct (status_eqb (status t) RUNNING); simpl.
  - rewrite Hact. simpl. rewrite Hrow. simpl. rewrite Hact. simpl.
    rewrite lookup_alter_eq, Hrow. simpl.
    eexists. split; [reflexivity|]. simpl. repeat split.
    rewrite !lookup_alter_eq, Hrow. reflexivity.
  - rewrite Hact. simpl. rewrite Hrow. simpl.
    eexists. split; [reflexivity|]. simpl. repeat split.
    rewrite !lookup_alter_eq, Hrow. reflexivity.
Qed.

(** X20. For a task that exists the start endpoint never fails: it answers
    "Task started" or "Task already running", and afterwards the task has a
    handle and its row says [running] unless a live monitor was already
    there. With a live monitor the answer is "Task already running" and
    nothing at all changes. *)
Theorem start_endpoint_always_leaves_a_handle (task_id : Z) (now : Time) (w : World)
    (t : Task) :
  tasks (db w) !! task_id = Some t ->
  id t = task_id ->
  exists r w',
    Api.start_task task_id now w = (Returned r, w')
    /\ is_Some (active_tasks w' !! task_id)
    /\ (forall handle, active_tasks w !! task_id = Some handle ->
                       Api.handle_done w handle = false ->
                       r = Api.TaskAlreadyRunning /\ w' = w)
    /\ (no_live_handle w task_id ->
        r = Api.TaskStarted
        /\ status <$> tasks (db w') !! task_id = Some RUNNING).
Proof.
  intros Hrow Hid.
  destruct (active_tasks w !! task_id) as [h|] eqn:Hact.
  - destruct (Api.handle_done w h) eqn:Hdone.
    + (* a stale handle: it is removed, then the task is started *)
      set (w0 := with_task_data (delete task_id)
                   (with_active_tasks (delete task_id) w)).
      assert (Hrow0 : tasks (db w0) !! task_id = Some t) by exact Hrow.
      assert (Hact0 : active_tasks w0 !! task_id = None) by apply lookup_delete_eq.
      destruct (start_endpoint_fresh task_id now w0 t Hrow0 Hid Hact0)
        as [w1 [Hrun [Ha [_ Hst]]]].
      assert (Heq : Api.start_task task_id now w = Api.start_task task_id now w0).
      { unfold Api.start_task, TaskManager.del_active_task. se_unfold.
        rewrite Hrow, Hact, Hdone. simpl. rewrite Hact. simpl.
        subst w0. simpl. rewrite Hrow, !lookup_delete_eq. simpl.
        rewrite ?lookup_delete_eq. reflexivity. }
      exists Api.TaskStarted, w1. rewrite Heq. split; [exact Hrun|].
      split; [rewrite Ha, lookup_insert_eq; eauto|]. split.
      * intros handle [= <-] Hlive. congruence.
      * intros _. split; [reflexivity|exact Hst].
    + exists Api.TaskAlreadyRunning, w. split.
      * unfold Api.start_task. se_unfold. rewrite Hrow, Hact, Hdone. reflexivity.
      * split; [rewrite Hact; eauto|]. split; [auto|].
        unfold no_live_handle. rewrite Hact, Hdone. discriminate.
  - destruct (start_endpoint_fresh task_id now w t Hrow Hid Hact)
      as [w1 [Hrun [Ha [_ Hst]]]].
    exists Api.TaskStarted, w1. split; [exact Hrun|].
    split; [rewrite Ha, lookup_insert_eq; eauto|]. split.
    + intros handle Hh. discriminate Hh.
    + intros _. split; [reflexivity|exact Hst].
Qed.

Lemma start_endpoint_always_leaves_a_handle_witness :
  exists r w',
    Api.start_task 7 100 (Ex.monitoring RUNNING AwaitNetwork) = (Returned r, w')
    /\ is_Some (active_tasks w' !! 7)
    /\ r = Api.TaskAlreadyRunning /\ w' = Ex.monitoring RUNNING AwaitNetwork.
Proof.
  destruct (start_endpoint_always_leaves_a_handle 7 100
              (Ex.monitoring RUNNING AwaitNetwork) (set_status RUNNING Ex.task)
              eq_refl eq_refl) as [r [w' [Hrun [Hsome [Hlive _]]]]].
  exists r, w'. split; [exact Hrun|]. split; [exact Hsome|].
  apply (Hlive 0%nat); reflexivity.
Defined.

(** X21. A task started through the endpoint and stopped through the
    endpoint before its monitor ran a single step ends cleanly: the answers
    are "Task started" and "Task stopped", the row says [stopped], the task
    has no handle, and the coroutine that was created is done without having
    run. *)
Theorem start_then_stop_at_once (task_id : Z) (now now' : Time) (w : World) (t : Task) :
  tasks (db w) !! task_id = Some t ->
  id t = task_id ->
  active_tasks w !! task_id = None ->
  exists w1 w2,
    Api.start_task task_id now w = (Returned Api.TaskStarted, w1)
    /\ Api.stop_task task_id now' w1 = (Returned Api.TaskStopped, w2)
    /\ status <$> tasks (db w2) !! task_id = Some STOPPED
    /\ active_tasks w2 !! task_id = None
    /\ coro_state <$> coros w2 !! length (coros w) = Some (Finished true).
Proof.
  intros Hrow Hid Hact.
  destruct (start_endpoint_fresh task_id now w t Hrow Hid Hact)
    as [w1 [Hrun [Ha [Hc Hst]]]].
  exists w1. eexists. split; [exact Hrun|].
  assert (Hh : active_tasks w1 !! task_id = Some (length (coros w)))
    by (rewrite Ha; apply lookup_insert_eq).
  assert (Hcoro : coros w1 !! length (coros w)
                  = Some (mkCoro task_id (product_url t) (quantity t) (num_threads t)
                            NotStarted)).
  { rewrite Hc, lookup_app_r by lia. rewrite Nat.sub_diag. reflexivity. }
  assert (Hcancel : TaskManager.cancelled (length (coros w)) w1
                    = with_coros <[length (coros w) :=
                        mkCoro task_id (product_url t) (quantity t) (num_threads t)
                          (Finished true)]> w1).
  { unfold TaskManager.cancelled. rewrite Hcoro. reflexivity. }
  unfold Api.stop_task. unfold mbind, SE_bind.
  rewrite (stop_task_active task_id now' w1 _ Hh). cbv zeta.
  rewrite Hcancel. simpl. rewrite Hh.
  destruct (tasks (db w1) !! task_id) as [t1|] eqn:Hrow1; [|discriminate Hst].
  simpl in Hst. injection Hst as Hst. rewrite Hst. simpl.
  split; [reflexivity|]. simpl. split.
  - rewrite lookup_alter_eq, Hrow1. reflexivity.
  - split; [apply lookup_delete_eq|].
    rewrite list_lookup_insert_eq; [reflexivity|].
    rewrite Hc, length_app. simpl. lia.
Qed.

Lemma start_then_stop_at_once_witness :
  exists w1 w2,
    Api.start_task 7 100 (Ex.idle PENDING) = (Returned Api.TaskStarted, w1)
    /\ Api.stop_task 7 101 w1 = (Returned Api.TaskStopped, w2)
    /\ status <$> tasks (db w2) !! 7 = Some STOPPED
    /\ active_tasks w2 !! 7 = None
    /\ coro_state <$> coros w2 !! length (coros (Ex.idle PENDING))
       = Some (Finished true).
Proof.
  apply (start_then_stop_at_once 7 100 101 (Ex.idle PENDING) Ex.task);
    reflexivity.
Defined.

(** * Properties of [app/auth.py] and [app/api/auth.py] *)

Lemma str_truthy_true (s : string) : str_truthy s = true <-> s <> "".
Proof. destruct s; simpl; split; intros H; congruence. Qed.

Lemma validate_token_true (t : string) (now : Time) (store : gmap string Time) :
  fst (Auth.validate_token t now store) = true <-> token_valid store now t.
Proof.
  unfold Auth.validate_token, token_valid.
  destruct (store !! t) as [e|]; simpl.
  - destruct (Z.ltb_spec e now); simpl; split.
    + discriminate.
    + intros [e' [[= <-] He]]. lia.
    + intros _. exists e. split; [reflexivity|lia].
    + reflexivity.
  - split; [discriminate|]. intros [e [He _]]. discriminate.
Qed.

Lemma validate_token_store_true (t : string) (now : Time) (store : gmap string Time) :
  fst (Auth.validate_token t now store) = true ->
  snd (Auth.validate_token t now store) = store.
Proof.
  unfold Auth.validate_token. destruct (store !! t) as [e|]; [|reflexivity].
  destruct (e <? now); [discriminate|reflexivity].
Qed.

(** Validation takes away at most the token it was asked about, and only
    when that token is no longer valid. *)
Lemma validate_token_frame (t : string) (now : Time) (store : gmap string Time)
    (t' : string) :
  token_valid store now t' ->
  snd (Auth.validate_token t now store) !! t' = store !! t'.
Proof.
  intros [e' [Ht' He']]. unfold Auth.validate_token.
  destruct (store !! t) as [e|] eqn:Ht; [|reflexivity].
  destruct (Z.ltb_spec e now); [|reflexivity]. simpl.
  apply lookup_delete_ne. intros ->. rewrite Ht in Ht'. injection Ht' as ->. lia.
Qed.

Lemma validate_token_subseteq (t : string) (now : Time) (store : gmap string Time) :
  snd (Auth.validate_token t now store) ⊆ store.
Proof.
  unfold Auth.validate_token. destruct (store !! t) as [e|]; [|reflexivity].
  destruct (e <? now); [apply delete_subseteq|reflexivity].
Qed.

Lemma token_valid_frame (store store' : gmap string Time) (now : Time) (t : string) :
  (forall t', token_valid store now t' -> store' !! t' = store !! t') ->
  store' ⊆ store ->
  token_valid store' now t <-> token_valid store now t.
Proof.
  intros Hframe Hsub. split.
  - intros [e [Ht He]]. exists e. split; [|exact He].
    exact (lookup_weaken _ _ _ _ Ht Hsub).
  - intros Hv. destruct Hv as [e [Ht He]]. exists e. split; [|exact He].
    rewrite Hframe; [exact Ht|]. exists e. auto.
Qed.

(** X22. A login with the right password hands out the drawn token, and
    that token, sent in the [X-Auth-Token] header, authenticates at every
    moment up to thirty days after the login. The logout endpoint does not
    end this: it deletes the cookie and leaves the token in place. *)
Theorem login_token_outlives_logout (app_password password token : string)
    (now now' : Time) (store : gmap string Time)
    (request : option (list (string * string))) :
  password = app_password ->
  token <> "" ->
  now' <= now + 30 * 86400 ->
  let '((response, _), store1) := Auth.login app_password password token now store in
  let '(_, store2) := Auth.logout store1 in
  Auth.lr_success response = true
  /\ Auth.lr_token response = Some token
  /\ Auth.get_current_user (Some token) request now' store2 = (Returned true, store2).
Proof.
  intros -> Hne Hnow. unfold Auth.login, Auth.verify_password.
  rewrite String.eqb_refl. simpl. split; [reflexivity|]. split; [reflexivity|].
  unfold Auth.get_current_user.
  apply str_truthy_true in Hne. rewrite Hne.
  unfold Auth.validate_token. rewrite lookup_insert_eq.
  unfold Auth.token_lifetime.
  destruct (Z.ltb_spec (now + 30 * 86400) now'); [lia|reflexivity].
Qed.

Lemma login_token_outlives_logout_witness :
  let '((response, _), store1) := Auth.login "secret" "secret" "tok" 1000 ∅ in
  let '(_, store2) := Auth.logout store1 in
  Auth.lr_success response = true
  /\ Auth.lr_token response = Some "tok"
  /\ Auth.get_current_user (Some "tok") None (1000 + 30 * 86400) store2
     = (Returned true, store2).
Proof.
  apply (login_token_outlives_logout "secret" "secret" "tok" 1000 (1000 + 30 * 86400)
           ∅ None); [reflexivity|discriminate|lia].
Defined.

(** X23. [get_current_user] lets a request through exactly when the header
    token or the [auth_token] cookie is a non-empty token that is known and
    has not expired; every other request is answered with HTTP 401. Checking
    never adds a token and never removes one that is still valid. *)
Theorem get_current_user_accepts_iff (token : option string)
    (request : option (list (string * string))) (now : Time)
    (store : gmap string Time) :
  let run := Auth.get_current_user token request now store in
  (fst run = Returned true
   \/ fst run = Raised (HTTPException 401 "Invalid or missing authentication token"))
  /\ (fst run = Returned true
      <-> (exists t, token = Some t /\ t <> "" /\ token_valid store now t)
          \/ (exists t, presents_cookie request t /\ token_valid store now t))
  /\ snd run ⊆ store
  /\ (forall t, token_valid store now t -> snd run !! t = store !! t).
Proof.
  cbv zeta. unfold Auth.get_current_user.
  (* the header *)
  set (header := match token with
                 | Some t => if str_truthy t then Auth.validate_token t now store
                             else (false, store)
                 | None => (false, store)
                 end).
  assert (Hheader : (fst header = true
                     <-> exists t, token = Some t /\ t <> "" /\ token_valid store now t)
                    /\ (fst header = true -> snd header = store)
                    /\ snd header ⊆ store
                    /\ (forall t, token_valid store now t -> snd header !! t = store !! t)).
  { subst header. destruct token as [t|]; simpl.
    - destruct (str_truthy t) eqn:Htruthy; simpl.
      + apply str_truthy_true in Htruthy. split; [|split; [|split]].
        * rewrite validate_token_true. split.
          -- intros Hv. exists t. auto.
          -- intros [t' [[= <-] [_ Hv]]]. exact Hv.
        * apply validate_token_store_true.
        * apply validate_token_subseteq.
        * intros t'. apply validate_token_frame.
      + split; [|split; [|split]]; try done.
        split; [discriminate|]. intros [t' [[= <-] [Hne _]]].
        apply str_truthy_true in Hne. congruence.
    - split; [|split; [|split]]; try done.
      split; [discriminate|]. intros [t' [Hsome _]]. discriminate. }
  destruct header as [by_header store1]. simpl in Hheader.
  destruct Hheader as [Hiff [Hsame [Hsub Hframe]]].
  destruct by_header.
  { simpl. split; [auto|]. split; [|split; [exact Hsub|exact Hframe]].
    split; [|reflexivity]. intros _. left. apply Hiff. reflexivity. }
  (* the cookie *)
  set (cookie := match request with
                 | Some cookies =>
                     match List.find (fun kv => String.eqb (fst kv) "auth_token") cookies
                     with
                     | Some (_, cookie_token) =>
                         if str_truthy cookie_token
                         then Auth.validate_token cookie_token now store1
                         else (false, store1)
                     | None => (false, store1)
                     end
                 | None => (false, store1)
                 end).
  assert (Hcookie : (fst cookie = true
                     <-> exists t, presents_cookie request t /\ token_valid store1 now t)
                    /\ snd cookie ⊆ store1
                    /\ (forall t, token_valid store1 now t
                                  -> snd cookie !! t = store1 !! t)).
  { subst cookie. unfold presents_cookie. destruct request as [cookies|]; simpl.
    - destruct (List.find _ cookies) as [[name t]|] eqn:Hfind; simpl.
      + destruct (str_truthy t) eqn:Htruthy; simpl.
        * apply str_truthy_true in Htruthy. split; [|split].
          -- rewrite validate_token_true. split.
             ++ intros Hv. exists t. split; [|exact Hv]. exists cookies, name. auto.
             ++ intros [t' [[cs [n [[= <-] [Hf _]]]] Hv]].
                rewrite Hfind in Hf. injection Hf as _ <-. exact Hv.
          -- apply validate_token_subseteq.
          -- intros t'. apply validate_token_frame.
        * split; [|split]; try done.
          split; [discriminate|].
          intros [t' [[cs [n [[= <-] [Hf Hne]]]] _]].
          rewrite Hfind in Hf. injection Hf as _ <-.
          apply str_truthy_true in Hne. congruence.
      + split; [|split]; try done. split; [discriminate|].
        intros [t' [[cs [n [[= <-] [Hf _]]]] _]]. rewrite Hfind in Hf. discriminate.
    - split; [|split]; try done. split; [discriminate|].
      intros [t' [[cs [n [Hreq _]]] _]]. discriminate. }
  destruct cookie as [by_cookie store2]. simpl in Hcookie.
  destruct Hcookie as [Hiffc [Hsubc Hframec]].
  assert (Hvalid : forall t, token_valid store1 now t <-> token_valid store now t)
    by (intros t; apply token_valid_frame; assumption).
  assert (Hnot : ~ exists t, token = Some t /\ t <> "" /\ token_valid store now t)
    by (intros Hex; apply Hiff in Hex; discriminate).
  assert (Hsub2 : store2 ⊆ store) by (etrans; eassumption).
  assert (Hframe2 : forall t, token_valid store now t -> store2 !! t = store !! t).
  { intros t Hv. rewrite Hframec by (apply Hvalid; exact Hv). apply Hframe, Hv. }
  destruct by_cookie; simpl.
  - split; [auto|]. split; [|split; [exact Hsub2|exact Hframe2]].
    split; [|reflexivity]. intros _. right.
    destruct (proj1 Hiffc eq_refl) as [t [Hp Hv]]. exists t. split; [exact Hp|].
    apply Hvalid, Hv.
  - split; [auto|]. split; [|split; [exact Hsub2|exact Hframe2]].
    split; [discriminate|]. intros [Hex|[t [Hp Hv]]]; [contradiction|].
    assert (Htrue : false = true); [|discriminate].
    apply Hiffc. exists t. split; [exact Hp|]. apply Hvalid, Hv.
Qed.

(** Deleting the keys of a list, one by one. *)
Lemma foldr_delete_lookup (l : list string) (m : gmap string Time) (k : string) :
  foldr delete m l !! k = if decide (k ∈ l) then None else m !! k.
Proof.
  induction l as [|x l IH]; simpl.
  - destruct (decide (k ∈ [])) as [Hin|_]; [|reflexivity]. inversion Hin.
  - destruct (decide (k = x)) as [->|Hne].
    + rewrite lookup_delete_eq.
      destruct (decide (x ∈ x :: l)) as [_|Hnin]; [reflexivity|].
      exfalso. apply Hnin. left.
    + rewrite lookup_delete_ne by congruence. rewrite IH.
      destruct (decide (k ∈ l)) as [Hin|Hnin];
        destruct (decide (k ∈ x :: l)) as [Hin'|Hnin']; try reflexivity.
      * exfalso. apply Hnin'. right. exact Hin.
      * exfalso. apply elem_of_cons in Hin'. destruct Hin'; [congruence|contradiction].
Qed.

Lemma foldr_delete_size (l : list string) (m : gmap string Time) :
  NoDup l ->
  (forall k, k ∈ l -> is_Some (m !! k)) ->
  (length l + size (foldr delete m l))%nat = size m.
Proof.
  induction l as [|x l IH]; intros Hnd Hin; simpl; [reflexivity|].
  apply NoDup_cons in Hnd. destruct Hnd as [Hx Hnd].
  assert (Hsome : is_Some (foldr delete m l !! x)).
  { rewrite foldr_delete_lookup. destruct (decide (x ∈ l)); [contradiction|].
    apply Hin. left. }
  rewrite map_size_delete_Some by exact Hsome.
  specialize (IH Hnd (fun k Hk => Hin k (proj2 (elem_of_cons l k x) (or_intror Hk)))).
  assert (Hpos : size (foldr delete m l) <> 0%nat).
  { exact (map_size_ne_0_lookup_2 _ _ Hsome). }
  lia.
Qed.

Lemma expired_keys_spec (now : Time) (store : gmap string Time) (k : string) :
  k ∈ map fst (List.filter (fun kv : string * Time => snd kv <? now) (map_to_list store))
  <-> exists e, store !! k = Some e /\ e < now.
Proof.
  rewrite list_elem_of_In, List.in_map_iff. split.
  - intros [[k' e] [Hk Hin]]. simpl in Hk. subst k'.
    apply List.filter_In in Hin. destruct Hin as [Hin He]. simpl in He.
    apply list_elem_of_In, elem_of_map_to_list in Hin.
    exists e. split; [exact Hin|lia].
  - intros [e [Hk He]]. exists (k, e). split; [reflexivity|].
    apply List.filter_In. split.
    + apply list_elem_of_In, elem_of_map_to_list, Hk.
    + simpl. lia.
Qed.

Lemma NoDup_fst_filter {A B : Type} (f : A * B -> bool) (l : list (A * B)) :
  NoDup (map fst l) -> NoDup (map fst (List.filter f l)).
Proof.
  induction l as [|x l IH]; simpl; intros Hnd; [exact Hnd|].
  apply NoDup_cons in Hnd. destruct Hnd as [Hx Hnd].
  destruct (f x); simpl; [|auto].
  apply NoDup_cons. split; [|auto].
  intros Hin. apply Hx.
  apply list_elem_of_In, List.in_map_iff in Hin. destruct Hin as [y [Hy Hin]].
  apply List.filter_In in Hin. destruct Hin as [Hin _].
  apply list_elem_of_In, List.in_map_iff. exists y. auto.
Qed.

(** X24. [cleanup_expired_tokens] removes exactly the tokens whose expiry
    lies before [now] and keeps every other token with its expiry; the
    number it returns is the number of tokens removed. *)
Theorem cleanup_expired_tokens_removes_expired (now : Time)
    (store : gmap string Time) :
  let '(n, store') := Auth.cleanup_expired_tokens now store in
  (forall t, store' !! t
             = match store !! t with
               | Some expiry => if expiry <? now then None else Some expiry
               | None => None
               end)
  /\ (n + size store')%nat = size store.
Proof.
  unfold Auth.cleanup_expired_tokens. split.
  - intros t. rewrite foldr_delete_lookup.
    destruct (decide (t ∈ _)) as [Hin|Hnin].
    + apply expired_keys_spec in Hin. destruct Hin as [e [-> He]].
      destruct (Z.ltb_spec e now); [reflexivity|lia].
    + destruct (store !! t) as [e|] eqn:Ht; [|reflexivity].
      destruct (Z.ltb_spec e now); [|reflexivity].
      exfalso. apply Hnin, expired_keys_spec. exists e. auto.
  - apply foldr_delete_size.
    + apply NoDup_fst_filter. exact (NoDup_fst_map_to_list store).
    + intros k Hk. apply expired_keys_spec in Hk. destruct Hk as [e [He _]].
      exists e. exact He.
Qed.

(** * Properties of [app/scheduler.py] *)

Lemma start_task_returns (task : Task) (now : Time) (w : World) :
  exists b w', TaskManager.start_task task now w = (Returned b, w').
Proof.
  unfold TaskManager.start_task. se_unfold.
  destruct (active_tasks w !! id task); simpl; [eauto|].
  destruct (tasks (db w) !! id task); simpl; eauto.
Qed.

Lemma start_task_next_id (task : Task) (now : Time) (w : World) :
  next_task_id (db (snd (TaskManager.start_task task now w))) = next_task_id (db w).
Proof.
  unfold TaskManager.start_task. se_unfold.
  destruct (active_tasks w !! id task); simpl; [reflexivity|].
  destruct (tasks (db w) !! id task); reflexivity.
Qed.

Lemma is_due_spec (now : Time) (r : Scheduler.ScheduledTask) :
  Scheduler.is_due now r = true
  <-> Scheduler.sch_status r = Scheduler.Scheduled
      /\ now - 300 <= Scheduler.scheduled_date r <= now + 60.
Proof.
  unfold Scheduler.is_due. rewrite !andb_true_iff, Z.leb_le, Z.leb_le.
  destruct (Scheduler.sch_status r); simpl; split; intros H;
    try (destruct H as [[H _] _]; discriminate);
    try (destruct H as [H _]; discriminate).
  - split; [reflexivity|lia].
  - split; [split; [reflexivity|lia]|lia].
Qed.

Lemma is_overdue_spec (now : Time) (r : Scheduler.ScheduledTask) :
  Scheduler.is_overdue now r = true
  <-> Scheduler.sch_status r = Scheduler.Scheduled
      /\ Scheduler.scheduled_date r < now - 600.
Proof.
  unfold Scheduler.is_overdue. rewrite andb_true_iff, Z.ltb_lt.
  destruct (Scheduler.sch_status r); simpl; split; intros [H1 H2];
    try discriminate; auto.
Qed.

(** A row that [trigger] has worked on is no longer [scheduled]. *)
Lemma trigger_not_scheduled (now : Time) (r : Scheduler.ScheduledTask) (w : World) :
  exists o r' w',
    Scheduler.trigger now r w = (o, (r', w'))
    /\ o = Returned tt
    /\ Scheduler.sch_status r' <> Scheduler.Scheduled.
Proof.
  unfold Scheduler.trigger. cbv zeta.
  match goal with
  | |- context [TaskManager.start_task ?t ?n ?w0] =>
      destruct (start_task_returns t n w0) as [b [w' ->]]
  end.
  do 3 eexists. split; [reflexivity|]. split; [reflexivity|].
  destruct b; simpl; discriminate.
Qed.

Lemma trigger_spec (now : Time) (r : Scheduler.ScheduledTask) (w : World) :
  handles_below_next w ->
  exists w2,
    Scheduler.trigger now r w
    = (Returned tt, (Scheduler.set_triggered now (next_task_id (db w)) r, w2))
    /\ next_task_id (db w2) = next_task_id (db w) + 1
    /\ triggered_into w2 now r (Scheduler.set_triggered now (next_task_id (db w)) r)
    /\ (forall k, k <> next_task_id (db w) ->
                  tasks (db w2) !! k = tasks (db w) !! k
                  /\ active_tasks w2 !! k = active_tasks w !! k)
    /\ handles_below_next w2.
Proof.
  intros Hinv. unfold Scheduler.trigger. cbv zeta.
  set (n := next_task_id (db w)).
  set (task := mkTask n (Scheduler.sch_product_url r) (Scheduler.sch_quantity r)
                 (Scheduler.sch_num_threads r) PENDING 0 0 None None None None None None).
  set (w1 := with_db (fun d => mkDb (<[next_task_id d := task]> (tasks d))
                                    (next_task_id d + 1) (cart_sessions d)) w).
  assert (Hfree : active_tasks w1 !! id task = None).
  { simpl. destruct (active_tasks w !! n) as [h|] eqn:Hh; [|reflexivity].
    assert (n < n); [|lia]. apply Hinv. rewrite Hh. eauto. }
  pose proof (start_task_next_id task now w1) as Hnext.
  destruct (start_task_fresh task now w1 Hfree) as [w2 [Hrun [Ha [_ [_ [Hrows _]]]]]].
  rewrite Hrun in Hnext |- *. simpl in Hnext, Ha, Hrows. fold n in Hrows.
  exists w2. split; [reflexivity|]. split; [exact Hnext|]. split; [|split].
  - exists n, (set_started_at (Some now) (set_status RUNNING task)).
    split; [reflexivity|]. split.
    + rewrite Hrows, lookup_alter_eq, lookup_insert_eq. reflexivity.
    + repeat split. rewrite Ha, lookup_insert_eq. eauto.
  - intros k Hk. split.
    + rewrite Hrows, lookup_alter_ne, lookup_insert_ne by congruence. reflexivity.
    + rewrite Ha, lookup_insert_ne by congruence. reflexivity.
  - intros k Hsome. rewrite Hnext. rewrite Ha in Hsome.
    destruct (decide (k = n)) as [->|Hne]; [fold n; lia|].
    rewrite lookup_insert_ne in Hsome by congruence.
    specialize (Hinv k Hsome). fold n in Hinv. fold n. lia.
Qed.

Lemma trigger_due_spec (now : Time) (rows : list Scheduler.ScheduledTask) :
  forall w,
    handles_below_next w ->
    exists rows1 w1,
      Scheduler.trigger_due now rows w = (Returned tt, (rows1, w1))
      /\ handles_below_next w1
      /\ next_task_id (db w) <= next_task_id (db w1)
      /\ (forall k, k < next_task_id (db w) ->
                    tasks (db w1) !! k = tasks (db w) !! k
                    /\ active_tasks w1 !! k = active_tasks w !! k)
      /\ Forall2 (fun r r1 => if Scheduler.is_due now r
                              then triggered_into w1 now r r1 else r1 = r)
                 rows rows1.
Proof.
  induction rows as [|r rest IH]; intros w Hinv; simpl.
  - exists [], w. split; [reflexivity|]. split; [exact Hinv|]. split; [lia|].
    split; [auto|constructor].
  - destruct (Scheduler.is_due now r) eqn:Hdue.
    + destruct (trigger_spec now r w Hinv) as [w2 [Hrun [Hnext [Htrig [Hframe Hinv2]]]]].
      rewrite Hrun.
      destruct (IH w2 Hinv2) as [rest1 [w1 [Hrest [Hinv1 [Hle [Hframe1 Hall]]]]]].
      rewrite Hrest. do 2 eexists. split; [reflexivity|].
      split; [exact Hinv1|]. split; [lia|]. split.
      * intros k Hk. destruct (Hframe1 k ltac:(lia)) as [-> ->].
        apply Hframe. lia.
      * constructor; [|exact Hall]. rewrite Hdue.
        destruct Htrig as [tid [t [Hr [Hrow [Hu [Hq [Hn [Hs [Hst Hh]]]]]]]]].
        injection Hr as Htid.
        exists tid, t. subst tid.
        destruct (Hframe1 (next_task_id (db w)) ltac:(lia)) as [-> ->]. auto 10.
    + destruct (IH w Hinv) as [rest1 [w1 [Hrest [Hinv1 [Hle [Hframe1 Hall]]]]]].
      rewrite Hrest. do 2 eexists. split; [reflexivity|].
      split; [exact Hinv1|]. split; [exact Hle|]. split; [exact Hframe1|].
      constructor; [|exact Hall]. rewrite Hdue. reflexivity.
Qed.

(** X25. What one check of the scheduler does to the table, row by row: a
    [scheduled] row whose time lies between five minutes ago and one minute
    ahead becomes [triggered] and gets a running task with its URL, quantity
    and threads; a [scheduled] row more than ten minutes old becomes
    [failed]; every other row, the rows missed by five to ten minutes among
    them, stays as it is. *)
Theorem check_scheduled_tasks_by_window (now : Time)
    (rows : list Scheduler.ScheduledTask) (w : World) :
  handles_below_next w ->
  exists rows' w',
    Scheduler._check_scheduled_tasks now rows w = (Returned tt, (rows', w'))
    /\ Forall2 (scheduled_row_outcome now w') rows rows'.
Proof.
  intros Hinv. unfold Scheduler._check_scheduled_tasks.
  destruct (trigger_due_spec now rows w Hinv) as [rows1 [w1 [Hrun [_ [_ [_ Hall]]]]]].
  rewrite Hrun. do 2 eexists. split; [reflexivity|].
  clear Hrun. induction Hall as [|r r1 rest rest1 Hr Hrest IH]; simpl; constructor;
    [|exact IH].
  unfold scheduled_row_outcome.
  destruct (Scheduler.is_due now r) eqn:Hdue.
  - apply is_due_spec in Hdue. destruct Hdue as [-> Hwin].
    destruct (decide _) as [_|Hn]; [|contradiction].
    destruct Hr as [tid [t [-> Hrest']]]. simpl. exists tid, t. auto.
  - subst r1.
    destruct (Scheduler.is_overdue now r) eqn:Hover.
    + apply is_overdue_spec in Hover. destruct Hover as [-> Hold].
      destruct (decide _) as [Hwin|_]; [lia|].
      destruct (decide _) as [_|Hn]; [reflexivity|contradiction].
    + destruct (Scheduler.sch_status r) eqn:Hst; try reflexivity.
      destruct (decide _) as [Hwin|Hnwin].
      * assert (Scheduler.is_due now r = true) by (apply is_due_spec; auto).
        congruence.
      * destruct (decide _) as [Hold|_]; [|reflexivity].
        assert (Scheduler.is_overdue now r = true) by (apply is_overdue_spec; auto).
        congruence.
Qed.

Lemma check_scheduled_tasks_by_window_witness :
  exists rows' w',
    Scheduler._check_scheduled_tasks 1000
      [Scheduler.mkScheduled "g" "Game" Ex.url 2 5 900 Scheduler.Scheduled None None;
       Scheduler.mkScheduled "h" "Late" Ex.url 2 5 500 Scheduler.Scheduled None None]
      (Ex.idle PENDING)
    = (Returned tt, (rows', w'))
    /\ Forall2 (scheduled_row_outcome 1000 w')
         [Scheduler.mkScheduled "g" "Game" Ex.url 2 5 900 Scheduler.Scheduled None None;
          Scheduler.mkScheduled "h" "Late" Ex.url 2 5 500 Scheduler.Scheduled None None]
         rows'.
Proof.
  apply (check_scheduled_tasks_by_window 1000 _ (Ex.idle PENDING)).
  intros k [h Hh]. vm_compute in Hh. discriminate Hh.
Defined.

Lemma trigger_due_settles (now : Time) (rows : list Scheduler.ScheduledTask) :
  forall w, exists rows1 w1,
    Scheduler.trigger_due now rows w = (Returned tt, (rows1, w1))
    /\ Forall (fun r => Scheduler.is_due now r = false) rows1
    /\ Forall2 (fun r r1 => r1 = r \/ Scheduler.sch_status r1 <> Scheduler.Scheduled)
         rows rows1.
Proof.
  induction rows as [|r rest IH]; intros w; simpl.
  - exists [], w. split; [reflexivity|]. split; constructor.
  - destruct (Scheduler.is_due now r) eqn:Hdue.
    + destruct (trigger_not_scheduled now r w) as [o [r' [w2 [Hrun [-> Hst]]]]].
      rewrite Hrun. destruct (IH w2) as [rest1 [w1 [Hrest [Hnone Hall]]]].
      rewrite Hrest. do 2 eexists. split; [reflexivity|]. split.
      * constructor; [|exact Hnone]. unfold Scheduler.is_due.
        destruct (Scheduler.sch_status r'); try reflexivity. congruence.
      * constructor; [right; exact Hst|exact Hall].
    + destruct (IH w) as [rest1 [w1 [Hrest [Hnone Hall]]]].
      rewrite Hrest. do 2 eexists. split; [reflexivity|]. split.
      * constructor; [exact Hdue|exact Hnone].
      * constructor; [left; reflexivity|exact Hall].
Qed.

Lemma trigger_due_none_due (now : Time) (rows : list Scheduler.ScheduledTask)
    (w : World) :
  Forall (fun r => Scheduler.is_due now r = false) rows ->
  Scheduler.trigger_due now rows w = (Returned tt, (rows, w)).
Proof.
  induction 1 as [|r rest Hr Hrest IH]; simpl; [reflexivity|].
  rewrite Hr, IH. reflexivity.
Qed.

(** X26. A check of the scheduler always completes, and a second check at
    the same instant changes nothing: no row is triggered twice and no
    second task is created for it. *)
Theorem check_scheduled_tasks_settles (now : Time)
    (rows : list Scheduler.ScheduledTask) (w : World) :
  exists rows' w',
    Scheduler._check_scheduled_tasks now rows w = (Returned tt, (rows', w'))
    /\ Scheduler._check_scheduled_tasks now rows' w' = (Returned tt, (rows', w')).
Proof.
  unfold Scheduler._check_scheduled_tasks.
  destruct (trigger_due_settles now rows w) as [rows1 [w1 [Hrun [Hnone _]]]].
  rewrite Hrun. do 2 eexists. split; [reflexivity|].
  set (mark := fun r => if Scheduler.is_overdue now r
                        then Scheduler.set_sch_status Scheduler.Failed r else r).
  assert (Hmark : forall r, Scheduler.is_due now (mark r) = false
                            -> Scheduler.is_overdue now (mark r) = false
                               /\ Scheduler.is_due now (mark r) = false).
  { intros r Hd. split; [|exact Hd]. unfold mark.
    destruct (Scheduler.is_overdue now r) eqn:Hover; [reflexivity|exact Hover]. }
  assert (Hquiet : Forall (fun r => Scheduler.is_overdue now r = false
                                    /\ Scheduler.is_due now r = false)
                          (map mark rows1)).
  { clear Hrun. induction Hnone as [|r rest Hr Hrest IH]; simpl; constructor;
      [|exact IH].
    apply Hmark. unfold mark.
    destruct (Scheduler.is_overdue now r); [reflexivity|exact Hr]. }
  assert (Hfix : forall l, Forall (fun r => Scheduler.is_overdue now r = false
                                           /\ Scheduler.is_due now r = false) l
                           -> map mark l = l).
  { induction 1 as [|r rest [Hr _] _ IH]; simpl; [reflexivity|].
    rewrite IH. unfold mark at 1. rewrite Hr. reflexivity. }
  rewrite trigger_due_none_due.
  - fold mark. rewrite (Hfix _ Hquiet). reflexivity.
  - eapply List.Forall_impl; [|exact Hquiet]. intros r [_ Hd]. exact Hd.
Qed.
